(** * Fantasy-sports loader: a shallow embedding of the persistence layer,
      the API client, the player loader, the dashboard queries and the
      utilities, with the properties proved about them.

    Python values are embedded as an inductive type of JSON-like values,
    exceptions as an error result, the SQLite connection as an explicit
    store with a committed and a working copy, and the HTTP service, the
    token file, the clock and the random generator as scripted oracles that
    the code consumes in order. *)

From Stdlib Require Import ZArith QArith Qpower Lia Lqa List Permutation
  Sorting.Sorted.
From stdpp Require Import base option list strings gmap pretty.

Set Default Proof Using "Type".
Open Scope string_scope.
Open Scope Z_scope.
Open Scope list_scope.

(* ===================================================================== *)
(** * Python values, exceptions and results                              *)
(* ===================================================================== *)

Module Py.

(** The exceptions the modelled code can meet.  [RequestException] stands
    for the [requests.exceptions.RequestException] family (connection
    errors, time-outs and the [HTTPError] of [raise_for_status], which
    carries the status code); the [sqlite3] errors keep their class names. *)
Inductive exn : Type :=
| KeyError (key : string)
| TypeError
| ValueError
| AttributeError
| IndexError
| ZeroDivisionError
| HTTPError (status : Z)
| RequestException
| JSONDecodeError
| IntegrityError
| OperationalError
| ProgrammingError
| InterfaceError
| OSError.

Inductive result (A : Type) : Type :=
| Ok (a : A)
| Raise (e : exn).
Arguments Ok {A} a.
Arguments Raise {A} e.

Definition bind {A B} (r : result A) (k : A -> result B) : result B :=
  match r with
  | Ok a => k a
  | Raise e => Raise e
  end.

Definition is_ok {A} (r : result A) : bool :=
  match r with Ok _ => true | Raise _ => false end.

#[local] Notation "x <- e ;; k" := (bind e (fun x => k))
  (at level 100, e at next level, right associativity).

(** A value as [json.loads] delivers it, and as the loaders pass it on in
    their dictionaries.  A dictionary keeps its insertion order, so it is an
    association list; [json.loads] never produces two entries with one key.
    Python floats are not part of this value model. *)
#[local] Unset Elimination Schemes.
Inductive pyval : Type :=
| PNone
| PBool (b : bool)
| PInt (n : Z)
| PStr (s : string)
| PList (l : list pyval)
| PDict (d : list (string * pyval)).
#[local] Set Elimination Schemes.

Definition pydict : Type := list (string * pyval).

(** [bool(v)]: the truth value Python gives [v] in [if v] and [not v]. *)
Definition truthy (v : pyval) : bool :=
  match v with
  | PNone => false
  | PBool b => b
  | PInt n => negb (n =? 0)
  | PStr s => negb (String.eqb s "")
  | PList l => match l with [] => false | _ => true end
  | PDict d => match d with [] => false | _ => true end
  end.

(** [k in d] and [d.get(k)] on a dictionary. *)
Fixpoint dict_lookup (k : string) (d : pydict) : option pyval :=
  match d with
  | [] => None
  | (k', v) :: d' => if String.eqb k' k then Some v else dict_lookup k d'
  end.

Definition dict_has (k : string) (d : pydict) : bool :=
  match dict_lookup k d with Some _ => true | None => false end.

(** [d.get(k)], with [None] as the default. *)
Definition dict_get (k : string) (d : pydict) : pyval :=
  match dict_lookup k d with Some v => v | None => PNone end.

(** [d.get(k, dflt)]. *)
Definition dict_get_or (k : string) (dflt : pyval) (d : pydict) : pyval :=
  match dict_lookup k d with Some v => v | None => dflt end.

(** [d[k]]: a missing key raises [KeyError]. *)
Definition dict_item (k : string) (d : pydict) : result pyval :=
  match dict_lookup k d with Some v => Ok v | None => Raise (KeyError k) end.

(** [d[k] = v]: an existing key keeps its place, a new key goes last. *)
Fixpoint dict_set (k : string) (v : pyval) (d : pydict) : pydict :=
  match d with
  | [] => [(k, v)]
  | (k', v') :: d' =>
      if String.eqb k' k then (k, v) :: d' else (k', v') :: dict_set k v d'
  end.

(** The number a [bool] or an [int] stands for in comparisons. *)
Definition num_of (v : pyval) : option Z :=
  match v with
  | PBool b => Some (Z.b2z b)
  | PInt n => Some n
  | _ => None
  end.

(** [a == b].  Booleans compare as the integers 0 and 1, lists element by
    element, dictionaries as CPython does: equal sizes, and every entry of
    the one is found with an equal value in the other (both ways here, which
    is the same thing on dictionaries with distinct keys). *)
Fixpoint py_eq (a b : pyval) {struct a} : bool :=
  match a, b with
  | PNone, PNone => true
  | PBool x, PBool y => Bool.eqb x y
  | PBool x, PInt y => Z.b2z x =? y
  | PInt x, PBool y => x =? Z.b2z y
  | PInt x, PInt y => x =? y
  | PStr s, PStr t => String.eqb s t
  | PList l, PList m =>
      (fix eq_items (l m : list pyval) {struct l} : bool :=
         match l, m with
         | [], [] => true
         | x :: l', y :: m' => py_eq x y && eq_items l' m'
         | _, _ => false
         end) l m
  | PDict d, PDict e =>
      (length d =? length e)%nat
      && (fix sub_l (d : pydict) {struct d} : bool :=
            match d with
            | [] => true
            | (k, v) :: d' =>
                match dict_lookup k e with
                | Some w => py_eq v w
                | None => false
                end && sub_l d'
            end) d
      && (fix sub_r (e : pydict) {struct e} : bool :=
            match e with
            | [] => true
            | (k, w) :: e' =>
                (fix find (d : pydict) {struct d} : bool :=
                   match d with
                   | [] => false
                   | (k', v) :: d' =>
                       if String.eqb k' k then py_eq v w else find d'
                   end) d && sub_r e'
            end) e
  | _, _ => false
  end.

(** Byte-wise lexicographic [<] on strings (on UTF-8 this is the order of
    the code points, which is how Python orders [str]). *)
Definition str_ltb (s t : string) : bool :=
  match String.compare s t with Lt => true | _ => false end.

(** [a < b]: [None] when Python raises [TypeError] (unorderable types). *)
Fixpoint py_lt (a b : pyval) {struct a} : option bool :=
  match a, b with
  | PBool x, PBool y => Some (Z.b2z x <? Z.b2z y)
  | PBool x, PInt y => Some (Z.b2z x <? y)
  | PInt x, PBool y => Some (x <? Z.b2z y)
  | PInt x, PInt y => Some (x <? y)
  | PStr s, PStr t => Some (str_ltb s t)
  | PList l, PList m =>
      (fix lt_items (l m : list pyval) {struct l} : option bool :=
         match l, m with
         | [], [] => Some false
         | [], _ :: _ => Some true
         | _ :: _, [] => Some false
         | x :: l', y :: m' => if py_eq x y then lt_items l' m' else py_lt x y
         end) l m
  | _, _ => None
  end.

(** [x in l] for a list [l]: some element equal to [x]. *)
Definition list_contains (x : pyval) (l : list pyval) : bool :=
  existsb (fun y => py_eq y x) l.

(** [key in container] for a string [key]: a key of a dictionary, an element
    of a list, a substring of a string; any other container is not
    iterable. *)
Definition py_contains (key : string) (container : pyval) : result bool :=
  match container with
  | PDict d => Ok (dict_has key d)
  | PList l => Ok (list_contains (PStr key) l)
  | PStr s => Ok (match String.index 0 key s with Some _ => true | None => false end)
  | _ => Raise TypeError
  end.

(** [v[key]] for a string [key]. *)
Definition py_item (key : string) (v : pyval) : result pyval :=
  match v with
  | PDict d => dict_item key d
  | _ => Raise TypeError
  end.

(** [v.get(key, dflt)]: only dictionaries have [get]. *)
Definition py_get_or (key : string) (dflt : pyval) (v : pyval) : result pyval :=
  match v with
  | PDict d => Ok (dict_get_or key dflt d)
  | _ => Raise AttributeError
  end.

Definition py_get (key : string) (v : pyval) : result pyval :=
  py_get_or key PNone v.

(** [l[i]] on a list, for a non-negative literal index. *)
Definition list_item (i : nat) (l : list pyval) : result pyval :=
  match nth_error l i with Some v => Ok v | None => Raise IndexError end.

(** [str(n)] for an integer. *)
Definition str_of_Z (n : Z) : string := pretty n.

(** [len(v)]. *)
Definition py_len (v : pyval) : result Z :=
  match v with
  | PStr s => Ok (Z.of_nat (String.length s))
  | PList l => Ok (Z.of_nat (length l))
  | PDict d => Ok (Z.of_nat (length d))
  | _ => Raise TypeError
  end.

(** [int(v)], given what [int] makes of a string ([None] when it raises
    [ValueError]). *)
Definition py_int (int_of_str : string -> option Z) (v : pyval) : result Z :=
  match v with
  | PBool b => Ok (Z.b2z b)
  | PInt n => Ok n
  | PStr s =>
      match int_of_str s with Some n => Ok n | None => Raise ValueError end
  | _ => Raise TypeError
  end.

(** [d.update(e)] for two dictionaries. *)
Definition dict_update (d e : pydict) : pydict :=
  fold_left (fun acc '(k, v) => dict_set k v acc) e d.

(** [a < b] on the pairs [(code, number)] that [get_games] sorts by, as
    CPython compares tuples: the first components that are not [==] decide,
    and equal tuples are not [<]. *)
Definition key_lt (a b : pyval * Z) : option bool :=
  if py_eq a.1 b.1 then Some (a.2 <? b.2) else py_lt a.1 b.1.

(** [sorted(l, key=...)], with the keys already computed.  [sorted] is
    stable; this is the stable insertion sort: an element goes before the
    first later element that is not [<] it.  A comparison that raises makes
    the sort raise [TypeError]. *)
Fixpoint insert_by_key {A} (x : A * (pyval * Z)) (l : list (A * (pyval * Z)))
    : result (list (A * (pyval * Z))) :=
  match l with
  | [] => Ok [x]
  | y :: l' =>
      match key_lt y.2 x.2 with
      | None => Raise TypeError
      | Some true => (r <- insert_by_key x l' ;; Ok (y :: r))
      | Some false => Ok (x :: y :: l')
      end
  end.

Fixpoint sort_by_key {A} (l : list (A * (pyval * Z)))
    : result (list (A * (pyval * Z))) :=
  match l with
  | [] => Ok []
  | x :: l' => (r <- sort_by_key l' ;; insert_by_key x r)
  end.

(** The keys of all elements, in order; the first key that raises makes
    [sorted] raise. *)
Fixpoint with_keys {A} (key : A -> result (pyval * Z)) (l : list A)
    : result (list (A * (pyval * Z))) :=
  match l with
  | [] => Ok []
  | x :: l' =>
      (k <- key x ;; r <- with_keys key l' ;; Ok ((x, k) :: r))
  end.

Definition py_sorted {A} (key : A -> result (pyval * Z)) (l : list A)
    : result (list A) :=
  (keyed <- with_keys key l ;;
   sorted <- sort_by_key keyed ;;
   Ok (map fst sorted)).

End Py.

Import Py.

Declare Scope py_scope.
Delimit Scope py_scope with py.
Notation "x <- e ;; k" := (Py.bind e (fun x => k))
  (at level 100, e at next level, right associativity) : py_scope.

(* ===================================================================== *)
(** * utils.py                                                           *)
(* ===================================================================== *)

Module Utils.

(** Numbers are embedded as exact rationals: every Python [int] and every
    finite [float] is one, and the rounding of float arithmetic is not
    modelled.  What is modelled is the failure of the division. *)

(** [a / b]: Python raises [ZeroDivisionError] when [b == 0]. *)
Definition py_truediv (a b : Q) : result Q :=
  if Qeq_bool b 0 then Raise ZeroDivisionError else Ok (a / b)%Q.

(** [a > 0]. *)
Definition Qpos_b (a : Q) : bool := negb (Qle_bool a 0).

(**
<<
def calculate_trend(current, previous):
    if previous == 0:
        return 100 if current > 0 else 0
    return ((current - previous) / previous) * 100
>> *)
Definition calculate_trend (current previous : Q) : result Q :=
  if Qeq_bool previous 0 then
    Ok (if Qpos_b current then 100 else 0)%Q
  else
    (q <- py_truediv (current - previous)%Q previous ;;
     Ok (q * 100)%Q)%py.

End Utils.

(* ===================================================================== *)
(** * The SQLite engine behind [sqlite3]                                 *)
(* ===================================================================== *)

Module Sql.

(** The content of a cell, and of a bound parameter.  [SJson v] is the text
    [json.dumps(v)], kept as the value it encodes.  Cells hold the values as
    they were bound: the column-affinity conversions of SQLite are not
    applied. *)
Inductive sqlval : Type :=
| SNull
| SInt (n : Z)
| SText (s : string)
| SJson (v : pyval).

Definition is_null (v : sqlval) : bool :=
  match v with SNull => true | _ => false end.

(** Structural equality of Python values (not [==]: [True] and [1] differ). *)
Fixpoint pyval_beq (a b : pyval) {struct a} : bool :=
  match a, b with
  | PNone, PNone => true
  | PBool x, PBool y => Bool.eqb x y
  | PInt x, PInt y => x =? y
  | PStr s, PStr t => String.eqb s t
  | PList l, PList m =>
      (fix go (l m : list pyval) {struct l} : bool :=
         match l, m with
         | [], [] => true
         | x :: l', y :: m' => pyval_beq x y && go l' m'
         | _, _ => false
         end) l m
  | PDict d, PDict e =>
      (fix go (d e : pydict) {struct d} : bool :=
         match d, e with
         | [], [] => true
         | (k, x) :: d', (k', y) :: e' =>
             String.eqb k k' && pyval_beq x y && go d' e'
         | _, _ => false
         end) d e
  | _, _ => false
  end.

(** [a = b] in a [WHERE] clause or a uniqueness check: never true when one
    side is [NULL]. *)
Definition sql_eqb (a b : sqlval) : bool :=
  match a, b with
  | SInt x, SInt y => x =? y
  | SText s, SText t => String.eqb s t
  | SJson v, SJson w => pyval_beq v w
  | _, _ => false
  end.

(** How [sqlite3] binds a Python object to a placeholder: [None], [int]
    (and [bool], a subclass) and [str] are supported, an [int] must fit 64
    bits, anything else is a binding error. *)
Definition bind_param (v : pyval) : result sqlval :=
  match v with
  | PNone => Ok SNull
  | PBool b => Ok (SInt (Z.b2z b))
  | PInt n =>
      if (- 2 ^ 63 <=? n) && (n <? 2 ^ 63) then Ok (SInt n)
      else Raise InterfaceError
  | PStr s => Ok (SText s)
  | PList _ | PDict _ => Raise InterfaceError
  end.

(** A column of a [CREATE TABLE]: its name, whether it is [NOT NULL], and
    whether it has [DEFAULT CURRENT_TIMESTAMP]. *)
Record column : Type := Column {
  cname : string;
  cnotnull : bool;
  cdefault_now : bool
}.

Definition row : Type := list (string * sqlval).

(** A table: its columns, the primary-key column, whether that column is
    [id INTEGER PRIMARY KEY AUTOINCREMENT], the rows in rowid order, and the
    largest id handed out so far (the table's line of [sqlite_sequence]). *)
Record table : Type := Table {
  tcols : list column;
  tpk : string;
  tauto : bool;
  trows : list row;
  tseq : Z
}.

Abbreviation store := (gmap string table).

Fixpoint row_lookup (c : string) (r : row) : option sqlval :=
  match r with
  | [] => None
  | (c', v) :: r' => if String.eqb c' c then Some v else row_lookup c r'
  end.

Definition row_get (c : string) (r : row) : sqlval :=
  match row_lookup c r with Some v => v | None => SNull end.

Definition has_column (t : table) (c : string) : bool :=
  existsb (fun col => String.eqb (cname col) c) (tcols t).

Definition int_of_cell (v : sqlval) : Z :=
  match v with SInt n => n | _ => 0 end.

(** The largest integer id among the rows (0 for an empty table). *)
Definition max_id (t : table) : Z :=
  fold_right (fun r m => Z.max (int_of_cell (row_get (tpk t) r)) m) 0 (trows t).

(** The id [AUTOINCREMENT] gives the next row: one more than every id the
    table has ever held. *)
Definition next_id (t : table) : Z := Z.max (tseq t) (max_id t) + 1.

Inductive on_conflict : Type := OrReplace | OrIgnore | OrAbort.

(** Does every row satisfy the [WHERE c1 = v1 AND ... AND cn = vn]? *)
Definition row_matches (cond : list (string * sqlval)) (r : row) : bool :=
  forallb (fun '(c, v) => sql_eqb (row_get c r) v) cond.

(** The cell a new row gets in column [col]: the assigned value, else the
    column default; a [NULL] meant for the auto-increment key becomes the
    next id. *)
Definition new_cell (t : table) (assign : list (string * sqlval))
    (now : string) (col : column) : sqlval :=
  let v := match row_lookup (cname col) assign with
           | Some v => v
           | None => if cdefault_now col then SText now else SNull
           end in
  if tauto t && String.eqb (cname col) (tpk t) && is_null v
  then SInt (next_id t) else v.

(** The [NOT NULL] check of one cell under the given conflict clause:
    [REPLACE] puts the column default in place of a [NULL] when there is
    one; [None] reports the violation. *)
Definition check_notnull (mode : on_conflict) (now : string) (col : column)
    (v : sqlval) : option sqlval :=
  if cnotnull col && is_null v then
    match mode with
    | OrReplace => if cdefault_now col then Some (SText now) else None
    | _ => None
    end
  else Some v.

Fixpoint build_row (mode : on_conflict) (t : table)
    (assign : list (string * sqlval)) (now : string) (cols : list column)
    : option row :=
  match cols with
  | [] => Some []
  | col :: cols' =>
      match check_notnull mode now col (new_cell t assign now col),
            build_row mode t assign now cols' with
      | Some v, Some r => Some ((cname col, v) :: r)
      | _, _ => None
      end
  end.

(** [INSERT [OR REPLACE | OR IGNORE] INTO t (c1, ..., cn) VALUES (...)] on
    one table, the values already bound. *)
Definition insert_into (mode : on_conflict) (assign : list (string * sqlval))
    (now : string) (t : table) : result table :=
  if negb (forallb (fun '(c, _) => has_column t c) assign) then
    Raise OperationalError
  else
    match build_row mode t assign now (tcols t) with
    | None =>
        match mode with
        | OrIgnore => Ok t
        | _ => Raise IntegrityError
        end
    | Some r =>
        let key := row_get (tpk t) r in
        let clash := fun r' => sql_eqb (row_get (tpk t) r') key in
        let seq' := if tauto t then Z.max (tseq t) (int_of_cell key)
                    else tseq t in
        if existsb clash (trows t) then
          match mode with
          | OrReplace =>
              Ok (Table (tcols t) (tpk t) (tauto t)
                    (List.filter (fun r' => negb (clash r')) (trows t) ++ [r]) seq')
          | OrIgnore => Ok t
          | OrAbort => Raise IntegrityError
          end
        else
          Ok (Table (tcols t) (tpk t) (tauto t) (trows t ++ [r]) seq')
    end.

(** One assignment of an [UPDATE ... SET]. *)
Fixpoint row_set (c : string) (v : sqlval) (r : row) : row :=
  match r with
  | [] => []
  | (c', v') :: r' =>
      if String.eqb c' c then (c', v) :: r' else (c', v') :: row_set c v r'
  end.

Definition apply_sets (sets : list (string * sqlval)) (r : row) : row :=
  fold_left (fun r '(c, v) => row_set c v r) sets r.

Definition violates_notnull (t : table) (r : row) : bool :=
  existsb (fun col => cnotnull col && is_null (row_get (cname col) r)) (tcols t).

(** [UPDATE t SET ... WHERE c1 = ? AND ... AND cn = ?]. *)
Definition update_where (sets cond : list (string * sqlval)) (t : table)
    : result table :=
  if negb (forallb (fun '(c, _) => has_column t c) (sets ++ cond)) then
    Raise OperationalError
  else
    let rows' := map (fun r => if row_matches cond r then apply_sets sets r
                               else r) (trows t) in
    if existsb (violates_notnull t) rows' then Raise IntegrityError
    else Ok (Table (tcols t) (tpk t) (tauto t) rows' (tseq t)).

(** [SELECT c FROM t WHERE c1 = ? AND ... AND cn = ?], in rowid order. *)
Definition select_where (c : string) (cond : list (string * sqlval))
    (t : table) : result (list sqlval) :=
  if negb (forallb (fun '(c', _) => has_column t c') ((c, SNull) :: cond)) then
    Raise OperationalError
  else Ok (map (row_get c) (List.filter (row_matches cond) (trows t))).

(** A statement on the table named [name] of a store; a missing table is an
    [OperationalError]. *)
Definition on_table (name : string) (f : table -> result table) (s : store)
    : result store :=
  match s !! name with
  | None => Raise OperationalError
  | Some t => (t' <- f t ;; Ok (<[name := t']> s))%py
  end.

Definition query_table {A} (name : string) (f : table -> result A) (s : store)
    : result A :=
  match s !! name with
  | None => Raise OperationalError
  | Some t => f t
  end.

(** [CREATE TABLE IF NOT EXISTS]. *)
Definition create_table (name : string) (cols : list column) (pk : string)
    (auto : bool) (s : store) : store :=
  match s !! name with
  | Some _ => s
  | None => <[name := Table cols pk auto [] 0]> s
  end.

End Sql.

(* ===================================================================== *)
(** * The [sqlite3] connection held by a [Database] object               *)
(* ===================================================================== *)

Module Conn.
Import Sql.

(** A line of the log: the message prefix given to [logger.error] and the
    exception whose text it interpolates. *)
Inductive log_entry : Type :=
| LogError (msg : string) (e : exn).

(** The [Database] object.  [conn_open] is false once [close] has set
    [self.conn] to [None]; [tables] is the committed content of the file;
    [txn] is the content as this connection sees it while a transaction is
    open ([sqlite3] opens one implicitly before the first changing statement
    and keeps it until [commit] or [rollback]). *)
Record db : Type := Db {
  conn_open : bool;
  tables : store;
  txn : option store
}.

(** What a query on this connection sees. *)
Definition visible (d : db) : store :=
  match txn d with Some s => s | None => tables d end.

(** A method body: it reads and changes the [Database] object, returns or
    raises, and writes log lines. *)
Definition DB (A : Type) : Type := db -> result A * db * list log_entry.

Definition ret {A} (a : A) : DB A := fun d => (Ok a, d, []).

Definition raise {A} (e : exn) : DB A := fun d => (Raise e, d, []).

Definition lift {A} (r : result A) : DB A := fun d => (r, d, []).

Definition bind {A B} (m : DB A) (k : A -> DB B) : DB B :=
  fun d =>
    match m d with
    | (Ok a, d', l) => let '(r, d'', l') := k a d' in (r, d'', l ++ l')
    | (Raise e, d', l) => (Raise e, d', l)
    end.

(** [try: body  except Exception as e: handler(e)]. *)
Definition try_except {A} (body : DB A) (handler : exn -> DB A) : DB A :=
  fun d =>
    match body d with
    | (Ok a, d', l) => (Ok a, d', l)
    | (Raise e, d', l) => let '(r, d'', l') := handler e d' in (r, d'', l ++ l')
    end.

Definition logger_error (msg : string) (e : exn) : DB unit :=
  fun d => (Ok tt, d, [LogError msg e]).

(** [self.cursor.execute] of a changing statement: on a closed database it
    raises [ProgrammingError]; otherwise the implicit transaction is opened
    if none is, and the statement runs on what the connection sees. *)
Definition cursor_execute (stmt : store -> result store) : DB unit :=
  fun d =>
    if conn_open d then
      let cur := visible d in
      match stmt cur with
      | Ok s' => (Ok tt, Db true (tables d) (Some s'), [])
      | Raise e => (Raise e, Db true (tables d) (Some cur), [])
      end
    else (Raise ProgrammingError, d, []).

(** [self.cursor.execute] of a [SELECT]: no transaction is opened. *)
Definition cursor_query {A} (q : store -> result A) : DB A :=
  fun d =>
    if conn_open d then (q (visible d), d, [])
    else (Raise ProgrammingError, d, []).

(** [self.conn.execute("BEGIN TRANSACTION")]. *)
Definition conn_begin : DB unit :=
  fun d =>
    if conn_open d then
      match txn d with
      | Some _ => (Raise OperationalError, d, [])
      | None => (Ok tt, Db true (tables d) (Some (tables d)), [])
      end
    else (Raise AttributeError, d, []).

(** [self.conn.commit()]; on a closed database [self.conn] is [None]. *)
Definition conn_commit : DB unit :=
  fun d =>
    if conn_open d then (Ok tt, Db true (visible d) None, [])
    else (Raise AttributeError, d, []).

(** [self.conn.rollback()]. *)
Definition conn_rollback : DB unit :=
  fun d =>
    if conn_open d then (Ok tt, Db true (tables d) None, [])
    else (Raise AttributeError, d, []).

(** [self.conn.cursor()], as [save_league_schedule] asks for one. *)
Definition conn_cursor : DB unit :=
  fun d => if conn_open d then (Ok tt, d, []) else (Raise AttributeError, d, []).

(** A value handed to a placeholder: a Python object to bind, an entry of
    the dictionary given for named placeholders, a string the method has
    built itself, or the SQL keyword [CURRENT_TIMESTAMP]. *)
Inductive param : Type :=
| Bind (v : pyval)
| Named (data : pydict) (name : string)
| Str (c : sqlval)
| CurrentTimestamp.

(** [Named data name] is the placeholder [:name] of a statement executed
    with the dictionary [data]: a missing entry is a [ProgrammingError]. *)
Definition bind_one (now : string) (p : param) : result sqlval :=
  match p with
  | Bind v => bind_param v
  | Named data name =>
      match dict_lookup name data with
      | Some v => bind_param v
      | None => Raise ProgrammingError
      end
  | Str c => Ok c
  | CurrentTimestamp => Ok (SText now)
  end.

Fixpoint bind_all (now : string) (ps : list (string * param))
    : result (list (string * sqlval)) :=
  match ps with
  | [] => Ok []
  | (c, p) :: ps' =>
      (v <- bind_one now p ;;
       vs <- bind_all now ps' ;;
       Ok ((c, v) :: vs))%py
  end.

Definition columns_exist (t : table) (cs : list string) : bool :=
  forallb (has_column t) cs.

(** An [INSERT] statement through [sqlite3]: prepared against the schema,
    then bound, then run. *)
Definition insert_stmt (mode : on_conflict) (name : string)
    (ps : list (string * param)) (now : string) (s : store) : result store :=
  on_table name (fun t =>
    if columns_exist t (map fst ps) then
      (assign <- bind_all now ps ;; insert_into mode assign now t)%py
    else Raise OperationalError) s.

Definition update_stmt (name : string) (sets cond : list (string * param))
    (now : string) (s : store) : result store :=
  on_table name (fun t =>
    if columns_exist t (map fst (sets ++ cond)) then
      (sets' <- bind_all now sets ;;
       cond' <- bind_all now cond ;;
       update_where sets' cond' t)%py
    else Raise OperationalError) s.

Definition select_stmt (c : string) (name : string)
    (cond : list (string * param)) (now : string) (s : store)
    : result (list sqlval) :=
  query_table name (fun t =>
    if columns_exist t (c :: map fst cond) then
      (cond' <- bind_all now cond ;; select_where c cond' t)%py
    else Raise OperationalError) s.

(** [str(v)] as [save_team] stores a statistic: a dictionary or a list has
    been replaced by its [json.dumps] text before. *)
Definition stat_text (v : pyval) : sqlval :=
  match v with
  | PNone => SText "None"
  | PBool true => SText "True"
  | PBool false => SText "False"
  | PInt n => SText (str_of_Z n)
  | PStr s => SText s
  | PList _ | PDict _ => SJson v
  end.

End Conn.

Declare Scope db_scope.
Delimit Scope db_scope with db.
Notation "x <- e ;; k" := (Conn.bind e (fun x => k))
  (at level 100, e at next level, right associativity) : db_scope.
Notation "e ;;; k" := (Conn.bind e (fun _ => k))
  (at level 100, right associativity) : db_scope.

(* ===================================================================== *)
(** * db/database.py                                                     *)
(* ===================================================================== *)

Module Database.
Import Sql Conn.

Definition col (n : string) : column := Column n false false.
Definition col_nn (n : string) : column := Column n true false.
Definition col_ts (n : string) : column := Column n false true.

(** The columns of [league_games] (statement 168-193). *)
Definition league_games_columns : list column :=
  [col "id"; col "league_key"; col "week"; col "home_team_key";
   col "away_team_key"; col "home_team_points"; col "away_team_points";
   col "home_team_projected_points"; col "away_team_projected_points";
   col "status"; col "game_start_time"; col "is_playoffs";
   col "is_consolation"; col "is_tied"; col "winner_team_key";
   col "matchup_recap_title"; col "home_team_manager";
   col "away_team_manager"; col_ts "updated_at"].

(** The sixteen tables of [_create_tables], in the order of the source
    (statements 28-323).  A table with [id INTEGER PRIMARY KEY
    AUTOINCREMENT] has no other uniqueness constraint. *)
Definition schema : list (string * (list column * string * bool)) :=
  [ ("players",
     ([col "player_key"; col_nn "sport_code"; col "name"; col "team";
       col "position"; col "status"; col "injury_note"; col "headshot_url";
       col "stats"; col_ts "last_updated"], "player_key", false));
    ("teams",
     ([col "team_key"; col_nn "sport_code"; col "name"; col "logo_url";
       col "stats"; col_ts "last_updated"], "team_key", false));
    ("leagues",
     ([col "league_key"; col_nn "sport_code"; col "name"; col "season";
       col "settings"; col "standings"; col_ts "last_updated"],
      "league_key", false));
    ("games",
     ([col "game_key"; col "game_id"; col_nn "sport_code"; col "name";
       col "season"; col "game_code"; col "game_type"; col "url";
       col "is_registration_over"; col "is_game_over"; col "is_offseason";
       col "editorial_season"; col "picks_status"; col "scenario_generator";
       col "contest_group_id"; col "alternate_start_deadline";
       col_ts "last_updated"], "game_key", false));
    ("league_standings",
     ([col "id"; col "league_key"; col "team_key"; col "team_name";
       col "rank"; col "playoff_seed"; col "wins"; col "losses"; col "ties";
       col "percentage"; col "points_for"; col "points_against";
       col "streak_type"; col "streak_value"; col "season"; col "sport_code";
       col_ts "updated_at"], "id", true));
    ("league_settings",
     ([col "league_key"; col "settings_json"; col_ts "updated_at"],
      "league_key", false));
    ("league_scoreboard",
     ([col "id"; col "league_key"; col "week"; col "scoreboard_json";
       col_ts "updated_at"], "id", true));
    ("league_rosters",
     ([col "id"; col "league_key"; col "team_key"; col "player_key";
       col "selected_position"; col "is_starting"; col "week";
       col_ts "updated_at"], "id", true));
    ("league_points",
     ([col "id"; col "league_key"; col "team_key"; col "week"; col "points";
       col_ts "updated_at"], "id", true));
    ("league_games", (league_games_columns, "id", true));
    ("league_schedules",
     ([col "id"; col "league_key"; col "week"; col "team_key";
       col "opponent_team_key"; col "is_home"; col "week_start";
       col "week_end"; col "is_playoffs"; col "is_consolation";
       col "is_tied"; col "status"; col "points"; col "projected_points";
       col "is_winner"; col "manager_name"; col "opponent_manager_name";
       col "matchup_recap_title"; col "division_id";
       col "opponent_division_id"; col "clinched_playoffs";
       col "opponent_clinched_playoffs"; col_ts "updated_at"], "id", true));
    ("league_draft_results",
     ([col "id"; col "league_key"; col "season"; col "round"; col "pick";
       col "team_key"; col "player_key"; col_ts "updated_at"], "id", true));
    ("team_managers",
     ([col "id"; col_nn "team_key"; col "manager_id"; col "nickname";
       col "guid"; col_ts "last_updated"], "id", true));
    ("team_stats",
     ([col "id"; col_nn "team_key"; col_nn "stat_key"; col "stat_value";
       col_ts "last_updated"], "id", true));
    ("sport_codes",
     ([col "game_code"; col_nn "sport"; col_nn "season";
       col_nn "season_type"; col_ts "last_updated"], "game_code", false));
    ("player_stats",
     ([col "id"; col_nn "player_key"; col_nn "league_key"; col "week";
       col "fantasy_points"; col "projected_points"; col "start_percentage";
       col "roster_percentage"; col "bye_week"; col "passing_yards";
       col "passing_touchdowns"; col "passing_interceptions";
       col "passing_attempts"; col "rushing_yards"; col "rushing_touchdowns";
       col "receptions"; col "receiving_yards"; col "receiving_touchdowns";
       col "targets"; col "misc_touchdowns"; col "two_point_conversions";
       col "fumbles_lost"; col "final_status"; col "opponent";
       col "game_status"; col_ts "updated_at"], "id", true)) ].

(** [_create_tables]: every [CREATE TABLE IF NOT EXISTS], then [commit]. *)
Definition _create_tables (s : store) : store :=
  fold_left (fun s '(name, (cols, pk, auto)) => create_table name cols pk auto s)
            schema s.

(** The rows [_init_sport_codes] inserts with [INSERT OR IGNORE]. *)
Definition default_codes : list (string * string * Z * string) :=
  [ ("449", "nfl", 2023, "regular");
    ("423", "nfl", 2022, "regular");
    ("406", "nfl", 2021, "regular");
    ("399", "nfl", 2020, "regular");
    ("390", "nfl", 2019, "regular") ].

Definition _init_sport_codes (now : string) (s : store) : store :=
  fold_left (fun s '(code, sport, season, stype) =>
    match insert_stmt OrIgnore "sport_codes"
            [("game_code", Bind (PStr code)); ("sport", Bind (PStr sport));
             ("season", Bind (PInt season)); ("season_type", Bind (PStr stype))]
            now s with
    | Ok s' => s'
    | Raise _ => s
    end) default_codes s.

(** [Database(db_path)]: connect to the file whose content is [file],
    create the missing tables and the default sport codes. *)
Definition __init__ (now : string) (file : store) : db :=
  Db true (_init_sport_codes now (_create_tables file)) None.

(** [close]. *)
Definition close (d : db) : db := Db false (tables d) (txn d).

(** [(c, data.get(c))] for each listed column. *)
Definition gets (data : pydict) (cs : list string) : list (string * param) :=
  map (fun c => (c, Bind (dict_get c data))) cs.

(**
<<
def save_player(self, player_data):
    try:
        stats = json.dumps(player_data.get('stats', {}))
        self.cursor.execute('INSERT OR REPLACE INTO players (...)', (...))
        self.conn.commit()
    except Exception as e:
        logger.error(f"Error saving player: {str(e)}")
        self.conn.rollback()
>> *)
Definition save_player_try (now : string) (player_data : pydict) : DB unit :=
  (let stats := SJson (dict_get_or "stats" (PDict []) player_data) in
   player_key <- lift (dict_item "player_key" player_data) ;;
   sport_code <- lift (dict_item "sport_code" player_data) ;;
   cursor_execute (insert_stmt OrReplace "players"
     ([("player_key", Bind player_key); ("sport_code", Bind sport_code)]
      ++ gets player_data ["name"; "team"; "position"; "status";
                           "injury_note"; "headshot_url"]
      ++ [("stats", Str stats); ("last_updated", CurrentTimestamp)]) now) ;;;
   conn_commit)%db.

Definition save_player (now : string) (player_data : pydict) : DB unit :=
  try_except (save_player_try now player_data)
    (fun e => logger_error "Error saving player: " e ;;; conn_rollback)%db.

(** One [INSERT OR REPLACE INTO team_stats] per statistic other than
    ['manager'], in the order of [team_data['stats'].items()]. *)
Fixpoint save_team_stats (now : string) (team_data : pydict)
    (items : pydict) : DB unit :=
  match items with
  | [] => ret tt
  | (stat_key, stat_value) :: items' =>
      ((if negb (String.eqb stat_key "manager") then
          team_key <- lift (dict_item "team_key" team_data) ;;
          cursor_execute (insert_stmt OrReplace "team_stats"
            [("team_key", Bind team_key); ("stat_key", Bind (PStr stat_key));
             ("stat_value", Str (stat_text stat_value));
             ("last_updated", CurrentTimestamp)] now)
        else ret tt) ;;;
       save_team_stats now team_data items')%db
  end.

(** [save_team]: the only save method that opens its transaction itself and
    that re-raises after logging and rolling back. *)
Definition save_team_try (now : string) (team_data : pydict) : DB unit :=
  (conn_begin ;;;
   let stats := SJson (dict_get_or "stats" (PDict []) team_data) in
   team_key <- lift (dict_item "team_key" team_data) ;;
   sport_code <- lift (dict_item "sport_code" team_data) ;;
   cursor_execute (insert_stmt OrReplace "teams"
     ([("team_key", Bind team_key); ("sport_code", Bind sport_code)]
      ++ gets team_data ["name"; "logo_url"]
      ++ [("stats", Str stats); ("last_updated", CurrentTimestamp)]) now) ;;;
   has_manager <- lift (if dict_has "stats" team_data
                        then py_contains "manager" (dict_get "stats" team_data)
                        else Ok false) ;;
   (if has_manager then
      manager <- lift (py_item "manager" (dict_get "stats" team_data)) ;;
      team_key <- lift (dict_item "team_key" team_data) ;;
      manager_id <- lift (py_get "manager_id" manager) ;;
      nickname <- lift (py_get "nickname" manager) ;;
      guid <- lift (py_get "guid" manager) ;;
      cursor_execute (insert_stmt OrReplace "team_managers"
        [("team_key", Bind team_key); ("manager_id", Bind manager_id);
         ("nickname", Bind nickname); ("guid", Bind guid);
         ("last_updated", CurrentTimestamp)] now)
    else ret tt) ;;;
   (if dict_has "stats" team_data then
      match dict_get "stats" team_data with
      | PDict items => save_team_stats now team_data items
      | _ => raise AttributeError
      end
    else ret tt) ;;;
   conn_commit)%db.

Definition save_team (now : string) (team_data : pydict) : DB unit :=
  try_except (save_team_try now team_data)
    (fun e => logger_error "Error saving team: " e ;;; conn_rollback ;;; raise e)%db.

Definition save_league_try (now : string) (league_data : pydict) : DB unit :=
  (let settings := SJson (dict_get_or "settings" (PDict []) league_data) in
   let standings := SJson (dict_get_or "standings" (PDict []) league_data) in
   league_key <- lift (dict_item "league_key" league_data) ;;
   sport_code <- lift (dict_item "sport_code" league_data) ;;
   cursor_execute (insert_stmt OrReplace "leagues"
     ([("league_key", Bind league_key); ("sport_code", Bind sport_code)]
      ++ gets league_data ["name"; "season"]
      ++ [("settings", Str settings); ("standings", Str standings);
          ("last_updated", CurrentTimestamp)]) now) ;;;
   conn_commit)%db.

Definition save_league (now : string) (league_data : pydict) : DB unit :=
  try_except (save_league_try now league_data)
    (fun e => logger_error "Error saving league: " e ;;; conn_rollback)%db.

Definition save_game_try (now : string) (game_data : pydict) : DB unit :=
  (game_key <- lift (dict_item "game_key" game_data) ;;
   sport_code <- lift (dict_item "sport_code" game_data) ;;
   cursor_execute (insert_stmt OrReplace "games"
     ([("game_key", Bind game_key)]
      ++ gets game_data ["game_id"]
      ++ [("sport_code", Bind sport_code)]
      ++ gets game_data ["name"; "season"; "game_code"; "game_type"; "url";
                         "is_registration_over"; "is_game_over";
                         "is_offseason"; "editorial_season"; "picks_status";
                         "scenario_generator"; "contest_group_id";
                         "alternate_start_deadline"]
      ++ [("last_updated", CurrentTimestamp)]) now) ;;;
   conn_commit)%db.

Definition save_game (now : string) (game_data : pydict) : DB unit :=
  try_except (save_game_try now game_data)
    (fun e => logger_error "Error saving game: " e ;;; conn_rollback)%db.

Definition save_league_standings_try (now : string) (standings_data : pydict) : DB unit :=
  (league_key <- lift (dict_item "league_key" standings_data) ;;
   team_key <- lift (dict_item "team_key" standings_data) ;;
   team_name <- lift (dict_item "team_name" standings_data) ;;
   cursor_execute (insert_stmt OrReplace "league_standings"
     ([("league_key", Bind league_key); ("team_key", Bind team_key);
       ("team_name", Bind team_name)]
      ++ gets standings_data ["rank"; "playoff_seed"; "wins"; "losses";
                              "ties"; "percentage"; "points_for";
                              "points_against"; "streak_type";
                              "streak_value"; "season"; "sport_code"]
      ++ [("updated_at", CurrentTimestamp)]) now) ;;;
   conn_commit)%db.

Definition save_league_standings (now : string) (standings_data : pydict) : DB unit :=
  try_except (save_league_standings_try now standings_data)
    (fun e => logger_error "Error saving league standings: " e ;;; conn_rollback)%db.

Definition save_league_settings_try (now : string) (settings_data : pydict) : DB unit :=
  (league_key <- lift (dict_item "league_key" settings_data) ;;
   cursor_execute (insert_stmt OrReplace "league_settings"
     [("league_key", Bind league_key);
      ("settings_json",
       Str (SJson (dict_get_or "settings" (PDict []) settings_data)));
      ("updated_at", CurrentTimestamp)] now) ;;;
   conn_commit)%db.

Definition save_league_settings (now : string) (settings_data : pydict) : DB unit :=
  try_except (save_league_settings_try now settings_data)
    (fun e => logger_error "Error saving league settings: " e ;;; conn_rollback)%db.

Definition save_league_scoreboard_try (now : string) (scoreboard_data : pydict) : DB unit :=
  (league_key <- lift (dict_item "league_key" scoreboard_data) ;;
   cursor_execute (insert_stmt OrReplace "league_scoreboard"
     ([("league_key", Bind league_key)]
      ++ gets scoreboard_data ["week"]
      ++ [("scoreboard_json",
           Str (SJson (dict_get_or "scoreboard" (PDict []) scoreboard_data)));
          ("updated_at", CurrentTimestamp)]) now) ;;;
   conn_commit)%db.

Definition save_league_scoreboard (now : string) (scoreboard_data : pydict) : DB unit :=
  try_except (save_league_scoreboard_try now scoreboard_data)
    (fun e => logger_error "Error saving league scoreboard: " e ;;; conn_rollback)%db.

Definition save_league_roster_try (now : string) (roster_data : pydict) : DB unit :=
  (league_key <- lift (dict_item "league_key" roster_data) ;;
   team_key <- lift (dict_item "team_key" roster_data) ;;
   player_key <- lift (dict_item "player_key" roster_data) ;;
   cursor_execute (insert_stmt OrReplace "league_rosters"
     [("league_key", Bind league_key); ("team_key", Bind team_key);
      ("player_key", Bind player_key);
      ("selected_position", Bind (dict_get "selected_position" roster_data));
      ("is_starting", Bind (dict_get_or "is_starting" (PInt 0) roster_data));
      ("week", Bind (dict_get "week" roster_data));
      ("updated_at", CurrentTimestamp)] now) ;;;
   conn_commit)%db.

Definition save_league_roster (now : string) (roster_data : pydict) : DB unit :=
  try_except (save_league_roster_try now roster_data)
    (fun e => logger_error "Error saving league roster: " e ;;; conn_rollback)%db.

Definition save_league_points_try (now : string) (points_data : pydict) : DB unit :=
  (league_key <- lift (dict_item "league_key" points_data) ;;
   team_key <- lift (dict_item "team_key" points_data) ;;
   week <- lift (dict_item "week" points_data) ;;
   points <- lift (dict_item "points" points_data) ;;
   cursor_execute (insert_stmt OrReplace "league_points"
     [("league_key", Bind league_key); ("team_key", Bind team_key);
      ("week", Bind week); ("points", Bind points);
      ("updated_at", CurrentTimestamp)] now) ;;;
   conn_commit)%db.

Definition save_league_points (now : string) (points_data : pydict) : DB unit :=
  try_except (save_league_points_try now points_data)
    (fun e => logger_error "Error saving league points: " e ;;; conn_rollback)%db.

(** The four columns [save_league_game] looks a game up by. *)
Definition game_key_params (game_data : pydict) (league_key : pyval)
    : list (string * param) :=
  ("league_key", Bind league_key)
  :: gets game_data ["week"; "home_team_key"; "away_team_key"].

(** The thirteen columns [save_league_game] writes besides the key. *)
Definition game_value_columns : list string :=
  ["home_team_points"; "away_team_points"; "home_team_projected_points";
   "away_team_projected_points"; "status"; "game_start_time"; "is_playoffs";
   "is_consolation"; "is_tied"; "winner_team_key"; "matchup_recap_title";
   "home_team_manager"; "away_team_manager"].

(**
<<
def save_league_game(self, game_data):
    try:
        self.cursor.execute('SELECT id FROM league_games WHERE league_key = ?
            AND week = ? AND home_team_key = ? AND away_team_key = ?', (...))
        existing_game = self.cursor.fetchone()
        if existing_game:
            self.cursor.execute('UPDATE league_games SET ... WHERE ...', (...))
        else:
            self.cursor.execute('INSERT INTO league_games (...) VALUES (...)', (...))
        self.conn.commit()
    except Exception as e:
        logger.error(f"Error saving league game: {str(e)}")
        self.conn.rollback()
>> *)
Definition save_league_game_try (now : string) (game_data : pydict) : DB unit :=
  (league_key <- lift (dict_item "league_key" game_data) ;;
   ids <- cursor_query (select_stmt "id" "league_games"
            (game_key_params game_data league_key) now) ;;
   match ids with
   | _ :: _ =>
       league_key <- lift (dict_item "league_key" game_data) ;;
       cursor_execute (update_stmt "league_games"
         (gets game_data game_value_columns
          ++ [("updated_at", CurrentTimestamp)])
         (game_key_params game_data league_key) now)
   | [] =>
       league_key <- lift (dict_item "league_key" game_data) ;;
       cursor_execute (insert_stmt OrAbort "league_games"
         (game_key_params game_data league_key
          ++ gets game_data game_value_columns
          ++ [("updated_at", CurrentTimestamp)]) now)
   end ;;;
   conn_commit)%db.

Definition save_league_game (now : string) (game_data : pydict) : DB unit :=
  try_except (save_league_game_try now game_data)
    (fun e => logger_error "Error saving league game: " e ;;; conn_rollback)%db.

Definition schedule_columns : list string :=
  ["league_key"; "week"; "team_key"; "opponent_team_key"; "is_home";
   "week_start"; "week_end"; "is_playoffs"; "is_consolation"; "is_tied";
   "status"; "points"; "projected_points"; "is_winner"; "manager_name";
   "opponent_manager_name"; "matchup_recap_title"; "division_id";
   "opponent_division_id"; "clinched_playoffs"; "opponent_clinched_playoffs"].

(** [(c, :c)] for each listed column of a statement with named
    placeholders. *)
Definition named (data : pydict) (cs : list string) : list (string * param) :=
  map (fun c => (c, Named data c)) cs.

Definition save_league_schedule_try (now : string) (schedule_data : pydict) : DB unit :=
  (conn_cursor ;;;
   cursor_execute (insert_stmt OrReplace "league_schedules"
     (named schedule_data schedule_columns
      ++ [("updated_at", CurrentTimestamp)]) now) ;;;
   conn_commit)%db.

Definition save_league_schedule (now : string) (schedule_data : pydict) : DB unit :=
  try_except (save_league_schedule_try now schedule_data)
    (fun e => logger_error "Error saving league schedule: " e ;;; conn_rollback)%db.

(** The loop of [save_league_draft_results]: one [INSERT OR REPLACE] per
    element, stopping at the first that raises. *)
Fixpoint save_draft_rows (now : string) (draft_results_data : list pydict)
    : DB unit :=
  match draft_results_data with
  | [] => ret tt
  | draft_result :: rest =>
      (league_key <- lift (dict_item "league_key" draft_result) ;;
       season <- lift (dict_item "season" draft_result) ;;
       round <- lift (dict_item "round" draft_result) ;;
       pick <- lift (dict_item "pick" draft_result) ;;
       team_key <- lift (dict_item "team_key" draft_result) ;;
       player_key <- lift (dict_item "player_key" draft_result) ;;
       cursor_execute (insert_stmt OrReplace "league_draft_results"
         [("league_key", Bind league_key); ("season", Bind season);
          ("round", Bind round); ("pick", Bind pick);
          ("team_key", Bind team_key); ("player_key", Bind player_key);
          ("updated_at", CurrentTimestamp)] now) ;;;
       save_draft_rows now rest)%db
  end.

Definition save_league_draft_results_try (now : string) (draft_results_data : list pydict) : DB unit :=
  (save_draft_rows now draft_results_data ;;; conn_commit)%db.

Definition save_league_draft_results (now : string) (draft_results_data : list pydict) : DB unit :=
  try_except (save_league_draft_results_try now draft_results_data)
    (fun e => logger_error "Error saving league draft results: " e ;;; conn_rollback)%db.

(** [save_sport_code] names the columns [start_date] and [end_date], which
    the [sport_codes] table of [_create_tables] does not have. *)
Definition save_sport_code_try (now : string) (code_data : pydict) : DB unit :=
  (game_code <- lift (dict_item "game_code" code_data) ;;
   sport <- lift (dict_item "sport" code_data) ;;
   season <- lift (dict_item "season" code_data) ;;
   season_type <- lift (dict_item "season_type" code_data) ;;
   cursor_execute (insert_stmt OrReplace "sport_codes"
     ([("game_code", Bind game_code); ("sport", Bind sport);
       ("season", Bind season); ("season_type", Bind season_type)]
      ++ gets code_data ["start_date"; "end_date"]) now) ;;;
   conn_commit)%db.

Definition save_sport_code (now : string) (code_data : pydict) : DB unit :=
  try_except (save_sport_code_try now code_data)
    (fun e => logger_error "Error saving sport code: " e ;;; conn_rollback)%db.

Definition player_stats_columns : list string :=
  ["player_key"; "league_key"; "week"; "fantasy_points"; "projected_points";
   "start_percentage"; "roster_percentage"; "bye_week"; "passing_yards";
   "passing_touchdowns"; "passing_interceptions"; "passing_attempts";
   "rushing_yards"; "rushing_touchdowns"; "receptions"; "receiving_yards";
   "receiving_touchdowns"; "targets"; "misc_touchdowns";
   "two_point_conversions"; "fumbles_lost"; "final_status"; "opponent";
   "game_status"].

Definition save_player_stats_try (now : string) (stats_data : pydict) : DB unit :=
  (cursor_execute (insert_stmt OrReplace "player_stats"
     (named stats_data player_stats_columns
      ++ [("updated_at", CurrentTimestamp)]) now) ;;;
   conn_commit)%db.

Definition save_player_stats (now : string) (stats_data : pydict) : DB unit :=
  try_except (save_player_stats_try now stats_data)
    (fun e => logger_error "Error saving player stats: " e ;;; conn_rollback)%db.

(** The rows of a table as this connection sees them (none when the table
    is missing). *)
Definition rows_of (name : string) (d : db) : list row :=
  match visible d !! name with
  | Some t => trows t
  | None => []
  end.

(** The rows of [name] whose columns [cond] hold the given values. *)
Definition rows_with (name : string) (cond : list (string * sqlval)) (d : db)
    : list row :=
  List.filter (row_matches cond) (rows_of name d).

End Database.

(* ===================================================================== *)
(** * The upsert of the specification                                    *)
(* ===================================================================== *)

Module Upsert.
Import Sql Conn Database.







End Upsert.

(* ===================================================================== *)
(** * yahoo_api.py                                                       *)
(* ===================================================================== *)

Module Api.

(** An HTTP response: its status code and the value [response.json()]
    returns, [None] when the body is not JSON. *)
Record response : Type := Response {
  status_code : Z;
  json_body : option pyval
}.

(** What a request does: it is answered, or the call raises. *)
Inductive outcome : Type :=
| Answers (r : response)
| Breaks (e : exn).

(** What writing the token file does: the file is written; [open] fails and
    the file stays as it was; or the dump fails after [open] has truncated
    the file. *)
Inductive write_outcome : Type :=
| Written
| OpenFailed
| DumpFailed.

(** Everything outside the repository that the client and the loader meet,
    as oracles asked in order: the fantasy service (the n-th [GET]), the
    token endpoint (the n-th [POST]), the file system (the n-th write of the
    token file), [random.uniform(0, 1)] (the n-th draw), and the two string
    built-ins [int(s)] and [s.isdigit()]. *)
Record env : Type := Env {
  on_get : nat -> outcome;
  on_post : nat -> outcome;
  on_write : nat -> write_outcome;
  on_random : nat -> Q;
  int_of_str : string -> option Z;
  isdigit : string -> bool
}.

(** The content of [.yahoo_tokens.json]. *)
Inductive file : Type :=
| NoFile
| Holds (token : pydict)
| Garbled.

(** What the client does to the outside, in order. *)
Inductive event : Type :=
| Get (url : string) (params : option pydict) (access_token : pyval)
| Post (refresh_token : pyval)
| SaveToken (token : pydict)
| Sleep (seconds : Q)
| ErrorLine (msg : string) (e : option exn).

(** The [YahooFantasyAPI] object and the little of the world it changes:
    [self.token], the access token the current [self.session] was built
    with, the token file, how many times each oracle has been asked, and the
    events so far. *)
Record client : Type := Client {
  token : pydict;
  session_token : pyval;
  token_file : file;
  n_get : nat;
  n_post : nat;
  n_write : nat;
  n_random : nat;
  trace : list event
}.

Definition M (A : Type) : Type := client -> result A * client.

Definition ret {A} (a : A) : M A := fun c => (Ok a, c).
Definition raise {A} (e : exn) : M A := fun c => (Raise e, c).
Definition lift {A} (r : result A) : M A := fun c => (r, c).

Definition bind {A B} (m : M A) (k : A -> M B) : M B :=
  fun c =>
    match m c with
    | (Ok a, c') => k a c'
    | (Raise e, c') => (Raise e, c')
    end.

Definition try_except {A} (body : M A) (handler : exn -> M A) : M A :=
  fun c =>
    match body c with
    | (Ok a, c') => (Ok a, c')
    | (Raise e, c') => handler e c'
    end.

Definition emit (ev : event) : M unit :=
  fun c => (Ok tt,
            Client (token c) (session_token c) (token_file c) (n_get c)
              (n_post c) (n_write c) (n_random c) (trace c ++ [ev])).

Definition logger_error (msg : string) (e : option exn) : M unit :=
  emit (ErrorLine msg e).

End Api.

Declare Scope api_scope.
Delimit Scope api_scope with api.
Notation "x <- e ;; k" := (Api.bind e (fun x => k))
  (at level 100, e at next level, right associativity) : api_scope.
Notation "e ;;; k" := (Api.bind e (fun _ => k))
  (at level 100, right associativity) : api_scope.

Module YahooFantasyAPI.
Import Api.

Definition BASE_URL : string :=
  "https://fantasysports.yahooapis.com/fantasy/v2".

(** [self.session.get(url, params=params)]. *)
Definition session_get (E : env) (url : string) (params : option pydict)
    : M response :=
  fun c =>
    let c' := Client (token c) (session_token c) (token_file c) (S (n_get c))
                (n_post c) (n_write c) (n_random c)
                (trace c ++ [Get url params (session_token c)]) in
    match on_get E (n_get c) with
    | Answers r => (Ok r, c')
    | Breaks e => (Raise e, c')
    end.

(** [requests.post(TOKEN_URL, data={'grant_type': 'refresh_token',
    'refresh_token': ...}, auth=...)]. *)
Definition requests_post (E : env) (refresh_token : pyval) : M response :=
  fun c =>
    let c' := Client (token c) (session_token c) (token_file c) (n_get c)
                (S (n_post c)) (n_write c) (n_random c)
                (trace c ++ [Post refresh_token]) in
    match on_post E (n_post c) with
    | Answers r => (Ok r, c')
    | Breaks e => (Raise e, c')
    end.

(** [response.raise_for_status()]. *)
Definition raise_for_status (r : response) : result unit :=
  if (400 <=? status_code r) && (status_code r <? 600)
  then Raise (HTTPError (status_code r)) else Ok tt.

(** [response.json()]. *)
Definition response_json (r : response) : result pyval :=
  match json_body r with
  | Some v => Ok v
  | None => Raise JSONDecodeError
  end.

(**
<<
def _save_token(self, token):
    try:
        with open('.yahoo_tokens.json', 'w') as f:
            json.dump(token, f)
    except Exception as e:
        logger.error(f"Error saving token: {str(e)}")
>> *)
Definition _save_token (E : env) (tok : pydict) : M unit :=
  fun c =>
    let written f evs :=
      Client (token c) (session_token c) f (n_get c) (n_post c)
        (S (n_write c)) (n_random c) (trace c ++ SaveToken tok :: evs) in
    match on_write E (n_write c) with
    | Written => (Ok tt, written (Holds tok) [])
    | OpenFailed =>
        (Ok tt, written (token_file c)
                  [ErrorLine "Error saving token: " (Some OSError)])
    | DumpFailed =>
        (Ok tt, written Garbled
                  [ErrorLine "Error saving token: " (Some OSError)])
    end.

(** [self.token.update(new_token)]: the answer of the token endpoint has to
    be a JSON object (the sequences of pairs that [dict.update] also takes
    are not modelled and raise here). *)
Definition update_token (new_token : pyval) : M unit :=
  fun c =>
    match new_token with
    | PDict e =>
        (Ok tt, Client (dict_update (token c) e) (session_token c)
                  (token_file c) (n_get c) (n_post c) (n_write c)
                  (n_random c) (trace c))
    | _ => (Raise TypeError, c)
    end.

(** [self.session = OAuth2Session(self.client_id, token=self.token, ...)]. *)
Definition new_session : M unit :=
  fun c =>
    (Ok tt, Client (token c) (dict_get "access_token" (token c))
              (token_file c) (n_get c) (n_post c) (n_write c) (n_random c)
              (trace c)).

Definition get_token : M pydict := fun c => (Ok (token c), c).

(**
<<
def _refresh_access_token(self):
    try:
        token_data = {'grant_type': 'refresh_token',
                      'refresh_token': self.token.get('refresh_token')}
        response = requests.post(self.TOKEN_URL, data=token_data, auth=(...))
        if response.status_code == 200:
            new_token = response.json()
            self.token.update(new_token)
            self._save_token(self.token)
            self.session = OAuth2Session(self.client_id, token=self.token, ...)
        else:
            logger.error(f"Token refresh failed with status code: ...")
    except Exception as e:
        logger.error(f"Error refreshing access token: {str(e)}")
        raise
>> *)
Definition _refresh_access_token (E : env) : M unit :=
  try_except
    (tok <- get_token ;;
     response <- requests_post E (dict_get "refresh_token" tok) ;;
     if status_code response =? 200 then
       new_token <- lift (response_json response) ;;
       update_token new_token ;;;
       tok' <- get_token ;;
       _save_token E tok' ;;;
       new_session
     else
       logger_error "Token refresh failed with status code: " None)%api
    (fun e => logger_error "Error refreshing access token: " (Some e) ;;;
              raise e)%api.

(** The message of the [except] clause of [make_request] that catches [e]
    (the request exceptions, the JSON decoding error, anything else). *)
Definition make_request_message (e : exn) : string :=
  match e with
  | HTTPError _ | RequestException => "HTTP error occurred: "
  | JSONDecodeError => "Error decoding response: "
  | _ => "Unexpected error: "
  end.

(** The first statement of [make_request]: a path is put after [BASE_URL]. *)
Definition full_url (url : string) : string :=
  if String.prefix "http" url then url else BASE_URL +:+ url.

(**
<<
def make_request(self, url, params=None):
    try:
        if not url.startswith('http'):
            url = f"{self.BASE_URL}{url}"
        response = self.session.get(url, params=params)
        if response.status_code == 401:
            self._refresh_access_token()
            response = self.session.get(url, params=params)
        response.raise_for_status()
        return response.json()
    except requests.exceptions.RequestException as e:
        logger.error(f"HTTP error occurred: {str(e)}"); raise
    except json.JSONDecodeError as e:
        logger.error(f"Error decoding response: {str(e)}"); raise
    except Exception as e:
        logger.error(f"Unexpected error: {str(e)}"); raise
>> *)
Definition make_request (E : env) (url : string) (params : option pydict)
    : M pyval :=
  try_except
    (let url := full_url url in
     response <- session_get E url params ;;
     response <- (if status_code response =? 401 then
                    _refresh_access_token E ;;;
                    session_get E url params
                  else ret response) ;;
     lift (raise_for_status response) ;;;
     lift (response_json response))%api
    (fun e => logger_error (make_request_message e) (Some e) ;;; raise e)%api.

(** The [sport_codes] argument of [get_games]: [None], one code, or a list
    of codes. *)
Inductive sport_codes_arg : Type :=
| NoCodes
| OneCode (code : string)
| Codes (codes : list string).

Definition SUPPORTED_SPORTS : list string := ["nfl"; "mlb"; "nba"; "nhl"].

(** [game_info.get('season') in map(str, seasons)]. *)
Definition season_listed (seasons : list Z) (game_info : pydict) : bool :=
  existsb (fun y => py_eq (PStr (str_of_Z y)) (dict_get "season" game_info))
          seasons.

(** One entry of [games.items()]: the game it adds to [games_list], if
    any. *)
Definition game_of_entry (E : env) (seasons : list Z)
    (entry : string * pyval) : option pydict :=
  let '(game_id, game_data) := entry in
  if isdigit E game_id then
    match game_data with
    | PDict gd =>
        if dict_has "game" gd then
          match dict_get "game" gd with
          | PList (PDict game_info :: _) =>
              match seasons with
              | [] => Some game_info
              | _ => if season_listed seasons game_info
                     then Some game_info else None
              end
          | _ => None
          end
        else None
    | _ => None
    end
  else None.

(** The games one response adds to [games_list]. *)
Definition games_in_response (E : env) (seasons : list Z) (response : pyval)
    : result (list pydict) :=
  if negb (truthy response) then Ok [] else
  (has <- py_contains "fantasy_content" response ;;
   if negb has then Ok [] else
   fantasy_content <- py_item "fantasy_content" response ;;
   games <- py_get_or "games" (PDict []) fantasy_content ;;
   match games with
   | PDict items => Ok (omap (game_of_entry E seasons) items)
   | _ => Ok []
   end)%py.

(** The loop [for sport in sport_codes] of [get_games]. *)
Fixpoint collect_games (E : env) (seasons : list Z) (sport_codes : list string)
    (games_list : list pydict) : M (list pydict) :=
  match sport_codes with
  | [] => ret games_list
  | sport :: rest =>
      (response <- make_request E
                     ("/games;out=metadata;game_codes=" +:+ sport) None ;;
       found <- lift (games_in_response E seasons response) ;;
       collect_games E seasons rest (games_list ++ found))%api
  end.

(** [lambda x: (x.get('code'), -int(x.get('season', 0)))]. *)
Definition sort_key (E : env) (x : pydict) : result (pyval * Z) :=
  (season <- py_int (int_of_str E) (dict_get_or "season" (PInt 0) x) ;;
   Ok (dict_get "code" x, - season))%py.

(**
<<
def get_games(self, sport_codes=None, seasons=None):
    if isinstance(sport_codes, str):
        sport_codes = [sport_codes]
    elif not sport_codes:
        sport_codes = list(self.SUPPORTED_SPORTS.keys())
    games_list = []
    for sport in sport_codes:
        ...
    sorted_games = sorted(games_list,
        key=lambda x: (x.get('code'), -int(x.get('season', 0))))
    return sorted_games
>>
    [seasons] is the list of years asked for, empty when the argument is
    [None]. *)
Definition get_games (E : env) (sport_codes : sport_codes_arg)
    (seasons : list Z) : M (list pydict) :=
  let sport_codes :=
    match sport_codes with
    | OneCode code => [code]
    | NoCodes | Codes [] => SUPPORTED_SPORTS
    | Codes codes => codes
    end in
  (games_list <- collect_games E seasons sport_codes [] ;;
   lift (py_sorted (sort_key E) games_list))%api.

(** What [get_players] returns. *)
Record players_page : Type := PlayersPage {
  players : list pydict;
  total_available : Z;
  new_players_found : Z;
  has_more : bool
}.

(** The body of [for item in player_data]: what one item adds to
    [player_info]. *)
Definition add_item (player_info : pydict) (item : pyval) : pydict :=
  match item with
  | PDict it =>
      if dict_has "player_key" it then
        dict_set "player_key" (dict_get "player_key" it) player_info
      else if dict_has "name" it
              && match dict_get "name" it with PDict _ => true | _ => false end
      then
        match dict_get "name" it with
        | PDict name => dict_set "name" (dict_get "full" name) player_info
        | _ => player_info
        end
      else if dict_has "editorial_team_full_name" it then
        dict_set "team" (dict_get "editorial_team_full_name" it) player_info
      else if dict_has "display_position" it then
        dict_set "position" (dict_get "display_position" it) player_info
      else if dict_has "status" it then
        dict_set "status" (dict_get "status" it) player_info
      else if dict_has "injury_note" it then
        dict_set "injury_note" (dict_get "injury_note" it) player_info
      else if dict_has "headshot" it
              && match dict_get "headshot" it with PDict _ => true | _ => false end
      then
        match dict_get "headshot" it with
        | PDict headshot =>
            dict_set "headshot_url" (dict_get "url" headshot) player_info
        | _ => player_info
        end
      else player_info
  | _ => player_info
  end.

(** [key in existing_player_keys] for a list of strings. *)
Definition key_listed (key : pyval) (existing : list string) : bool :=
  existsb (fun k => py_eq (PStr k) key) existing.

(** [player_info.get('player_key') and (not existing_player_keys or
    player_info['player_key'] not in existing_player_keys)]. *)
Definition is_new_player (existing : option (list string))
    (player_info : pydict) : bool :=
  truthy (dict_get "player_key" player_info)
  && match existing with
     | None | Some [] => true
     | Some keys => negb (key_listed (dict_get "player_key" player_info) keys)
     end.

(** The loop [for idx in range(count)] over one [players_data]: it stops at
    the first missing index. *)
Fixpoint scan_players (existing : option (list string))
    (players_data : pydict) (indices : list nat)
    (acc : list pydict * Z) : result (list pydict * Z) :=
  match indices with
  | [] => Ok acc
  | idx :: rest =>
      match dict_lookup (str_of_Z (Z.of_nat idx)) players_data with
      | None => Ok acc
      | Some entry =>
          (player_data <- py_get_or "player" (PList []) entry ;;
           match player_data with
           | PList ((_ :: _) as items) =>
               let player_info := fold_left add_item items [] in
               if is_new_player existing player_info then
                 scan_players existing players_data rest
                   (acc.1 ++ [player_info], acc.2 + 1)
               else scan_players existing players_data rest acc
           | _ => scan_players existing players_data rest acc
           end)%py
      end
  end.

(** The loop [for game_key, game_data in games_data.items()]: the state is
    [(players_list, new_players_found)] and [total_available]. *)
Fixpoint scan_games (E : env) (count : Z) (existing : option (list string))
    (entries : pydict) (acc : list pydict * Z) (total : Z)
    : result (list pydict * Z * Z) :=
  match entries with
  | [] => Ok (acc, total)
  | (_, game_data) :: rest =>
      match game_data with
      | PDict gd =>
          if dict_has "game" gd then
            match dict_get "game" gd with
            | PList (_ :: second :: _) =>
                (players_data <- py_get_or "players" (PDict []) second ;;
                 if negb (truthy players_data) then
                   scan_games E count existing rest acc total
                 else
                   match players_data with
                   | PDict pd =>
                       total' <- py_int (int_of_str E)
                                   (dict_get_or "count" (PInt 0) pd) ;;
                       acc' <- scan_players existing pd
                                 (seq 0 (Z.to_nat count)) acc ;;
                       scan_games E count existing rest acc' total'
                   | _ => scan_games E count existing rest acc total
                   end)%py
            | _ => scan_games E count existing rest acc total
            end
          else scan_games E count existing rest acc total
      | _ => scan_games E count existing rest acc total
      end
  end.

Definition empty_page : players_page := PlayersPage [] 0 0 false.

(** [get_players] after the request. *)
Definition players_of_response (E : env) (start count : Z)
    (existing : option (list string)) (response : pyval)
    : result players_page :=
  if negb (truthy response) then Ok empty_page else
  (has <- py_contains "fantasy_content" response ;;
   if negb has then Ok empty_page else
   fantasy_content <- py_item "fantasy_content" response ;;
   games_data <- py_get_or "games" (PDict []) fantasy_content ;;
   match games_data with
   | PDict ((_ :: _) as entries) =>
       found <- scan_games E count existing entries ([], 0) 0 ;;
       let '(players_list, new_players_found, total_available) := found in
       Ok (PlayersPage players_list total_available new_players_found
             (start + count <? total_available))
   | _ => Ok empty_page
   end)%py.

(**
<<
def get_players(self, sport_code='nfl', start=0, count=25,
                existing_player_keys=None):
    endpoint = f'/games;game_keys={sport_code}/players;start={start};count={count}'
    response = self.make_request(endpoint)
    ...
    has_more = (start + count) < total_available
    return {'players': players_list, 'total_available': total_available,
            'new_players_found': new_players_found, 'has_more': has_more}
>> *)
Definition get_players (E : env) (sport_code : string) (start count : Z)
    (existing_player_keys : option (list string)) : M players_page :=
  (response <- make_request E
                 ("/games;game_keys=" +:+ sport_code +:+ "/players;start="
                  +:+ str_of_Z start +:+ ";count=" +:+ str_of_Z count) None ;;
   lift (players_of_response E start count existing_player_keys response))%api.

End YahooFantasyAPI.

(* ===================================================================== *)
(** * load/load_players_data.py                                          *)
(* ===================================================================== *)

Module LoadPlayers.
Import Api YahooFantasyAPI.

(** [random.uniform(0, 1)]. *)
Definition random_uniform (E : env) : M Q :=
  fun c =>
    (Ok (on_random E (n_random c)),
     Client (token c) (session_token c) (token_file c) (n_get c) (n_post c)
       (n_write c) (S (n_random c)) (trace c)).

(** [time.sleep(seconds)]. *)
Definition time_sleep (seconds : Q) : M unit := emit (Sleep seconds).

(** [base_wait * (2 ** retry_count)]. *)
Definition backoff (base_wait : Q) (retry_count : Z) : Q :=
  (base_wait * inject_Z 2 ^ retry_count)%Q.

(**
<<
def wait_with_backoff(retry_count, base_wait=2):
    wait_time = base_wait * (2 ** retry_count) + random.uniform(0, 1)
    logger.info(f"Waiting {wait_time:.2f} seconds before retry...")
    time.sleep(wait_time)
>> *)
Definition wait_with_backoff (E : env) (retry_count : Z) (base_wait : Q)
    : M unit :=
  (jitter <- random_uniform E ;;
   let wait_time := (backoff base_wait retry_count + jitter)%Q in
   time_sleep wait_time)%api.

(** What [load_players_batch] returns: [(players, batch_count)],
    [(None, 0)], or the bare [None] of a function that ends without
    [return]. *)
Inductive batch : Type :=
| Batch (players : pydict) (batch_count : Z)
| NoBatch
| NoReturn.

(** What one pass of the [while] body does: return a value, or go round
    again with the given [retry_count]. *)
Inductive step : Type :=
| Return (b : batch)
| Continue (retry_count : Z).

(** [if retry_count < max_retries: retry_count += 1;
    wait_with_backoff(retry_count); continue] and, otherwise,
    [return None, 0]. *)
Definition retry_or_give_up (E : env) (retry_count max_retries : Z) : M step :=
  if retry_count <? max_retries then
    (wait_with_backoff E (retry_count + 1) 2 ;;; ret (Continue (retry_count + 1)))%api
  else ret (Return NoBatch).

(** [game_data[1]]. *)
Definition second_item (v : pyval) : result pyval :=
  match v with
  | PList l => list_item 1 l
  | PDict _ => Raise (KeyError "1")
  | PStr s => match String.get 1 s with
              | Some ch => Ok (PStr (String ch EmptyString))
              | None => Raise IndexError
              end
  | _ => Raise TypeError
  end.

(** The [try] block of the loop body. *)
Definition attempt (E : env) (game_key : string) (start count : Z)
    (retry_count max_retries : Z) : M step :=
  (let endpoint := "/game/" +:+ game_key +:+ "/players;start="
                   +:+ str_of_Z start +:+ ";count=" +:+ str_of_Z count in
   players_data <- make_request E endpoint None ;;
   missing <- lift (if negb (truthy players_data) then Ok true
                    else (has <- py_contains "fantasy_content" players_data ;;
                          Ok (negb has))%py) ;;
   if (missing : bool) then retry_or_give_up E retry_count max_retries else
   fantasy_content <- lift (py_item "fantasy_content" players_data) ;;
   game_data <- lift (py_get_or "game" (PList [PDict []]) fantasy_content) ;;
   n <- lift (py_len game_data) ;;
   if n <? 2 then retry_or_give_up E retry_count max_retries else
   second <- lift (second_item game_data) ;;
   players <- lift (py_get_or "players" (PDict []) second) ;;
   match players with
   | PDict ((_ :: _) as pd) =>
       batch_count <- lift (py_int (int_of_str E)
                              (dict_get_or "count" (PInt 0) pd)) ;;
       ret (Return (Batch pd batch_count))
   | _ => ret (Return NoBatch)
   end)%api.

(** One pass of the [while] body: the [try] block and its handler. *)
Definition loop_body (E : env) (game_key : string) (start count : Z)
    (retry_count max_retries : Z) : M step :=
  try_except (attempt E game_key start count retry_count max_retries)
    (fun e => logger_error "Error loading batch: " (Some e) ;;;
              retry_or_give_up E retry_count max_retries)%api.

(** [while retry_count <= max_retries: ...], at most [fuel] passes;
    [None] when the fuel runs out first. *)
Fixpoint while_loop (fuel : nat) (E : env) (game_key : string)
    (start count : Z) (retry_count max_retries : Z) : M (option batch) :=
  match fuel with
  | O => ret None
  | S fuel' =>
      if retry_count <=? max_retries then
        (s <- loop_body E game_key start count retry_count max_retries ;;
         match s with
         | Return b => ret (Some b)
         | Continue retry_count' =>
             while_loop fuel' E game_key start count retry_count' max_retries
         end)%api
      else ret (Some NoReturn)
  end.

(**
<<
def load_players_batch(yahoo_api, game_key, start, count,
                       existing_player_keys, max_retries=3):
    retry_count = 0
    while retry_count <= max_retries:
        try:
            ...
        except Exception as e:
            ...
>>
    The loop makes at most [max_retries + 1] passes and one more test of
    its condition, which is the fuel it is given here. *)
Definition load_players_batch (E : env) (game_key : string) (start count : Z)
    (max_retries : Z) : M (option batch) :=
  while_loop (S (Z.to_nat (max_retries + 1))) E game_key start count 0
    max_retries.

End LoadPlayers.

(* ===================================================================== *)
(** * db/dashboard.py: the queries                                       *)
(* ===================================================================== *)

Module Dashboard.

(** What a loading function hands to [pd.read_sql_query]: the SQL text and
    the bound parameters. *)
Record query : Type := Query {
  sql : string;
  params : list pyval
}.

(** The double quote, for the column aliases of [display_player_stats]. *)
Definition dq : string := String (Ascii.ascii_of_nat 34) EmptyString.

Definition quoted (s : string) : string := dq +:+ s +:+ dq.

(**
<<
def load_seasons():
    query = "SELECT DISTINCT season FROM leagues ORDER BY season DESC"
    seasons = pd.read_sql_query(query, conn)
>> *)
Definition load_seasons : query :=
  Query "SELECT DISTINCT season FROM leagues ORDER BY season DESC" [].

(**
<<
def load_leagues(season):
    query = f"SELECT league_key, name FROM leagues WHERE season = '{season}'"
    leagues = pd.read_sql_query(query, conn)
>>
    [season] is the string [str(season)] that the f-string interpolates. *)
Definition load_leagues (season : string) : query :=
  Query ("SELECT league_key, name FROM leagues WHERE season = '" +:+ season
         +:+ "'") [].

(**
<<
def load_table_data(query, params=None):
    if params:
        data = pd.read_sql_query(query, conn, params=params)
    else:
        data = pd.read_sql_query(query, conn)
>> *)
Definition load_table_data (query_text : string) (ps : list pyval) : query :=
  Query query_text ps.

(** The query of [display_player_stats(league_key, week)]: its text has the
    placeholders [?] and the two arguments are bound. *)
Definition player_stats_sql : string :=
  "
        SELECT 
            p.position as Pos,
            p.name as Player,
            p.team as Team,
            p.status as Status,
            p.headshot_url as HeadshotUrl,
            ps.bye_week as Bye,
            ROUND(ps.fantasy_points, 2) as " +:+ quoted "Fan Pts" +:+ ",
            ROUND(ps.projected_points, 2) as " +:+ quoted "Proj Pts" +:+ ",
            ps.start_percentage as " +:+ quoted "% Start" +:+ ",
            ps.roster_percentage as " +:+ quoted "% Ros" +:+ ",
            ps.passing_yards as " +:+ quoted "Pass Yds" +:+ ",
            ps.passing_touchdowns as " +:+ quoted "Pass TD" +:+ ",
            ps.passing_interceptions as Int,
            ps.passing_attempts as " +:+ quoted "Pass Att" +:+ ",
            ps.rushing_yards as " +:+ quoted "Rush Yds" +:+ ",
            ps.rushing_touchdowns as " +:+ quoted "Rush TD" +:+ ",
            ps.receptions as Rec,
            ps.receiving_yards as " +:+ quoted "Rec Yds" +:+ ",
            ps.receiving_touchdowns as " +:+ quoted "Rec TD" +:+ ",
            ps.targets as Tgt,
            ps.misc_touchdowns as " +:+ quoted "Misc TD" +:+ ",
            ps.two_point_conversions as " +:+ quoted "2PT" +:+ ",
            ps.fumbles_lost as Lost,
            ps.final_status as " +:+ quoted "Final" +:+ ",
            ps.opponent as Opp
        FROM players p
        JOIN player_stats ps ON p.player_key = ps.player_key
        WHERE ps.league_key = ? AND ps.week = ?
        ORDER BY ps.fantasy_points DESC
    ".

Definition display_player_stats (league_key : string) (week : Z) : query :=
  Query player_stats_sql [PStr league_key; PInt week].

(** [main], League Info tab:
<<
league_query = f'''
SELECT league_key, sport_code, name, season, settings, last_updated 
FROM leagues 
WHERE league_key = '{selected_league}'
'''
league_data = load_table_data(league_query)
>> *)
Definition league_query (selected_league : string) : query :=
  load_table_data
    ("
        SELECT league_key, sport_code, name, season, settings, last_updated 
        FROM leagues 
        WHERE league_key = '" +:+ selected_league +:+ "'
        ") [].

(** [main], the team selector:
<<
teams_query = f'''
SELECT DISTINCT t.name as team_name, t.team_key
FROM teams t
WHERE t.team_key LIKE '{selected_league}.t.%'
ORDER BY t.name
'''
teams_data = load_table_data(teams_query)
>> *)
Definition teams_query (selected_league : string) : query :=
  load_table_data
    ("
            SELECT DISTINCT t.name as team_name, t.team_key
            FROM teams t
            WHERE t.team_key LIKE '" +:+ selected_league +:+ ".t.%'
            ORDER BY t.name
            ") [].

End Dashboard.

(* ===================================================================== *)
(** * db/database.py: the queries that return rows as they are           *)
(* ===================================================================== *)

Module Queries.
Import Sql Conn Database.

Section Rows.

(** What the engine and the interpreter do with the rows of a statement
    that was prepared is not spelled out here: the order [ORDER BY] gives,
    the rows a [LIKE] pattern keeps, and [dict(row)] on a result tuple are
    left as functions. *)
Variable order_by : string -> list row -> list row.
Variable like : string -> sqlval -> bool.
Variable dict_of_row : row -> result pydict.

Fixpoint dicts_of_rows (rows : list row) : result (list pydict) :=
  match rows with
  | [] => Ok []
  | r :: rows' =>
      (d <- dict_of_row r ;; ds <- dicts_of_rows rows' ;; Ok (d :: ds))%py
  end.

(** A [SELECT * FROM name ...] that names the columns [cs]: prepared
    against the schema, then run. *)
Definition select_rows (name : string) (cs : list string)
    (run : table -> result (list row)) (s : store) : result (list row) :=
  query_table name (fun t =>
    if columns_exist t cs then run t else Raise OperationalError) s.

(**
<<
def get_all_games(self):
    conn = self.conn
    cursor = conn.cursor()
    cursor.execute("SELECT * FROM games ORDER BY created_at DESC")
    rows = cursor.fetchall()
    return [dict(row) for row in rows]
>>
    [get_all_leagues] and [get_all_teams] are the same on [leagues] and
    [teams]. *)
Definition get_all (name : string) : DB (list pydict) :=
  (conn_cursor ;;;
   rows <- cursor_query (select_rows name ["created_at"]
             (fun t => Ok (order_by "created_at" (trows t)))) ;;
   lift (dicts_of_rows rows))%db.

Definition get_all_games : DB (list pydict) := get_all "games".
Definition get_all_leagues : DB (list pydict) := get_all "leagues".
Definition get_all_teams : DB (list pydict) := get_all "teams".

(** The first [n] rows, all of them for a negative [LIMIT]. *)
Definition limit_rows (n : Z) (rows : list row) : list row :=
  if n <? 0 then rows else firstn (Z.to_nat n) rows.

(**
<<
def search_players(self, search_term, limit=10):
    conn = self.conn
    cursor = conn.cursor()
    query = '''SELECT * FROM players
               WHERE name LIKE ? OR editorial_team_full_name LIKE ?
               OR display_position LIKE ? LIMIT ?'''
    search_pattern = f"%{search_term}%"
    cursor.execute(query, (search_pattern, search_pattern, search_pattern, limit))
    rows = cursor.fetchall()
    return [dict(row) for row in rows]
>> *)
Definition search_players (search_term : string) (limit : Z)
    : DB (list pydict) :=
  (conn_cursor ;;;
   let search_pattern := "%" +:+ search_term +:+ "%" in
   rows <- cursor_query (select_rows "players"
             ["name"; "editorial_team_full_name"; "display_position"]
             (fun t =>
                (n <- bind_param (PInt limit) ;;
                 Ok (limit_rows (int_of_cell n)
                       (List.filter
                          (fun r => like search_pattern (row_get "name" r)
                                    || like search_pattern
                                         (row_get "editorial_team_full_name" r)
                                    || like search_pattern
                                         (row_get "display_position" r))
                          (trows t))))%py)) ;;
   lift (dicts_of_rows rows))%db.

(**
<<
def get_team_players(self, team_key):
    conn = self.conn
    cursor = conn.cursor()
    query = "SELECT * FROM players WHERE editorial_team_key = ?"
    cursor.execute(query, (team_key,))
    rows = cursor.fetchall()
    return [dict(row) for row in rows]
>> *)
Definition get_team_players (team_key : pyval) : DB (list pydict) :=
  (conn_cursor ;;;
   rows <- cursor_query (select_rows "players" ["editorial_team_key"]
             (fun t =>
                (k <- bind_param team_key ;;
                 Ok (List.filter (row_matches [("editorial_team_key", k)])
                                 (trows t)))%py)) ;;
   lift (dicts_of_rows rows))%db.

End Rows.

End Queries.

(* ===================================================================== *)
(** * db/data_manager.py: the save methods                               *)
(* ===================================================================== *)

Module DataManager.
Import Sql Conn Database.

(** The dictionary [{k1: v.get(f1), k2: v.get(f2), ...}], its values
    computed in order. *)
Fixpoint picked (fields : list (string * string)) (v : pyval)
    : result pydict :=
  match fields with
  | [] => Ok []
  | (k, f) :: fields' =>
      (x <- py_get f v ;; rest <- picked fields' v ;; Ok ((k, x) :: rest))%py
  end.

(** [data and 'league_key' in data]. *)
Definition has_key (key : string) (data : pyval) : result bool :=
  if truthy data then py_contains key data else Ok false.

(** [team.get(key, [{}])[0].get(field) if team.get(key) else None].  The
    value under [key] is true when it is indexed, so a list has a first
    element and the default is never used; a dictionary has no key [0]
    (its keys are strings; the integer is written as its text here), the
    first character of a string has no [get], a number has no index. *)
Definition first_of (key field : string) (team : pyval) : result pyval :=
  (present <- py_get key team ;;
   if truthy present then
     items <- py_get_or key (PList [PDict []]) team ;;
     match items with
     | PList l => (item <- list_item 0 l ;; py_get field item)
     | PDict _ => Raise (KeyError "0")
     | PStr _ => Raise AttributeError
     | _ => Raise TypeError
     end
   else Ok PNone)%py.

Section Methods.

(** [self.use_db], and the time of the n-th statement of a call. *)
Variable use_db : bool.
Variable now : nat -> string.

(**
<<
def save_leagues(self, leagues_data):
    if not self.use_db:
        return
    for league in leagues_data:
        league_data = {
            'league_key': league.get('league_key'),
            'name': league.get('name'),
            'game_code': league.get('game_code'),
            'season': league.get('season'),
            'num_teams': league.get('num_teams'),
            'league_type': league.get('league_type')
        }
        self.db.save_league(league_data)
>> *)
Fixpoint save_leagues_from (n : nat) (leagues_data : list pyval) : DB unit :=
  match leagues_data with
  | [] => ret tt
  | league :: rest =>
      (league_data <- lift (picked [("league_key", "league_key");
                                    ("name", "name");
                                    ("game_code", "game_code");
                                    ("season", "season");
                                    ("num_teams", "num_teams");
                                    ("league_type", "league_type")] league) ;;
       save_league (now n) league_data ;;;
       save_leagues_from (S n) rest)%db
  end.

Definition save_leagues (leagues_data : list pyval) : DB unit :=
  if negb use_db then ret tt else save_leagues_from 0 leagues_data.

(**
<<
def save_league_settings(self, settings_data):
    if not self.use_db:
        return
    if settings_data and 'league_key' in settings_data:
        self.db.save_league_settings({
            'league_key': settings_data['league_key'],
            'settings': settings_data
        })
>> *)
Definition save_league_settings (settings_data : pyval) : DB unit :=
  if negb use_db then ret tt else
  (has <- lift (has_key "league_key" settings_data) ;;
   if (has : bool) then
     league_key <- lift (py_item "league_key" settings_data) ;;
     Database.save_league_settings (now 0)
       [("league_key", league_key); ("settings", settings_data)]
   else ret tt)%db.

(**
<<
def save_league_standings(self, standings_data):
    if not self.use_db:
        return
    if standings_data and 'league_key' in standings_data:
        self.db.save_league_standings({
            'league_key': standings_data['league_key'],
            'standings': standings_data
        })
>> *)
Definition save_league_standings (standings_data : pyval) : DB unit :=
  if negb use_db then ret tt else
  (has <- lift (has_key "league_key" standings_data) ;;
   if (has : bool) then
     league_key <- lift (py_item "league_key" standings_data) ;;
     Database.save_league_standings (now 0)
       [("league_key", league_key); ("standings", standings_data)]
   else ret tt)%db.

(** The body of the loop of [save_teams], for the teams from the n-th on. *)
Fixpoint save_teams_from (n : nat) (teams : list pyval) : DB unit :=
  match teams with
  | [] => ret tt
  | team :: rest =>
      (team_key <- lift (py_get "team_key" team) ;;
       name <- lift (py_get "name" team) ;;
       logo_url <- lift (first_of "team_logos" "url" team) ;;
       manager_name <- lift (first_of "managers" "nickname" team) ;;
       save_team (now n)
         [("team_key", team_key); ("name", name); ("logo_url", logo_url);
          ("manager_name", manager_name)] ;;;
       save_teams_from (S n) rest)%db
  end.

(** [teams_data['teams'].get('0', {}).get('team', [])]. *)
Definition teams_of (teams_data : pyval) : result pyval :=
  (section <- py_item "teams" teams_data ;;
   first <- py_get_or "0" (PDict []) section ;;
   py_get_or "team" (PList []) first)%py.

(**
<<
def save_teams(self, teams_data):
    if not self.use_db:
        return
    if teams_data and 'teams' in teams_data:
        teams = teams_data['teams'].get('0', {}).get('team', [])
        for team in teams:
            team_data = {
                'team_key': team.get('team_key'),
                'name': team.get('name'),
                'logo_url': team.get('team_logos', [{}])[0].get('url')
                            if team.get('team_logos') else None,
                'manager_name': team.get('managers', [{}])[0].get('nickname')
                                if team.get('managers') else None
            }
            self.db.save_team(team_data)
>>
    The loop runs over the elements of a list or the keys of a dictionary;
    the first character of a string has no [get]; any other value is not
    iterable. *)
Definition save_teams (teams_data : pyval) : DB unit :=
  if negb use_db then ret tt else
  (has <- lift (has_key "teams" teams_data) ;;
   if (has : bool) then
     teams <- lift (teams_of teams_data) ;;
     match teams with
     | PList l => save_teams_from 0 l
     | PDict d => save_teams_from 0 (map (fun kv => PStr kv.1) d)
     | PStr s => if String.eqb s "" then ret tt else raise AttributeError
     | _ => raise TypeError
     end
   else ret tt)%db.

End Methods.

End DataManager.

(* ===================================================================== *)
(** * Properties of utils.py                                             *)
(* ===================================================================== *)

Section CalculateTrend.
Import Utils.

Lemma py_truediv_nonzero (a b : Q) :
  Qeq_bool b 0 = false -> py_truediv a b = Ok (a / b)%Q.
Proof. intros Hb. unfold py_truediv. now rewrite Hb. Qed.

Lemma calculate_trend_zero (current previous : Q) :
  (previous == 0)%Q ->
  calculate_trend current previous = Ok (if Qpos_b current then 100 else 0)%Q.
Proof.
  intros Hz. unfold calculate_trend.
  now rewrite (proj2 (Qeq_bool_iff previous 0) Hz).
Qed.

Lemma calculate_trend_nonzero (current previous : Q) :
  ~ (previous == 0)%Q ->
  calculate_trend current previous
  = Ok ((current - previous) / previous * 100)%Q.
Proof.
  intros Hnz. unfold calculate_trend.
  destruct (Qeq_bool previous 0) eqn:E.
  - exfalso. apply Hnz. now apply Qeq_bool_iff.
  - now rewrite py_truediv_nonzero.
Qed.



(** The division inside [calculate_trend] is the only operation that can
    raise, and it is never reached with a zero divisor. *)
Lemma calculate_trend_never_raises (current previous : Q) :
  is_ok (calculate_trend current previous) = true.
Proof.
  destruct (Qeq_dec previous 0) as [Hz | Hnz].
  - now rewrite calculate_trend_zero.
  - now rewrite calculate_trend_nonzero.
Qed.

Example calculate_trend_150_100 :
  calculate_trend 150 100 = Ok ((150 - 100) / 100 * 100)%Q
  /\ ((150 - 100) / 100 * 100 == 50)%Q.
Proof. split; reflexivity. Qed.

Example calculate_trend_zero_previous :
  calculate_trend 7 0 = Ok 100%Q /\ calculate_trend 0 0 = Ok 0%Q
  /\ calculate_trend (-3) 0 = Ok 0%Q.
Proof. repeat split. Qed.

End CalculateTrend.

(* ===================================================================== *)
(** * Properties of the persistence layer: errors and transactions       *)
(* ===================================================================== *)

Import Sql Conn Database.

(** A computation that works inside the transaction only: it does not
    commit, does not open or close the connection and writes no log line. *)
Definition pending_only {A} (m : DB A) : Prop :=
  forall d, tables (m d).1.2 = tables d
            /\ conn_open (m d).1.2 = conn_open d
            /\ (m d).2 = [].

(** A [try] block of a save method, run on an open connection: it leaves
    the connection open, logs nothing itself, and has committed nothing
    when it raises. *)
Definition try_block (m : DB unit) : Prop :=
  forall d, conn_open d = true ->
    conn_open (m d).1.2 = true
    /\ (m d).2 = []
    /\ (is_ok (m d).1.1 = false -> tables (m d).1.2 = tables d).

Lemma pending_only_ret {A} (a : A) : pending_only (ret a).
Proof. intros d. now cbn. Qed.

Lemma pending_only_raise {A} (e : exn) : pending_only (@raise A e).
Proof. intros d. now cbn. Qed.

Lemma pending_only_lift {A} (r : result A) : pending_only (lift r).
Proof. intros d. now cbn. Qed.

Lemma pending_only_cursor_execute stmt : pending_only (cursor_execute stmt).
Proof.
  intros d. unfold cursor_execute.
  destruct (conn_open d) eqn:E; [|now cbn].
  destruct (stmt (visible d)); cbn; now rewrite ?E.
Qed.

Lemma pending_only_cursor_query {A} (q : store -> result A) :
  pending_only (cursor_query q).
Proof.
  intros d. unfold cursor_query.
  destruct (conn_open d) eqn:E; cbn; now rewrite ?E.
Qed.

Lemma pending_only_conn_begin : pending_only conn_begin.
Proof.
  intros d. unfold conn_begin.
  destruct (conn_open d) eqn:E; [|now cbn].
  destruct (txn d); cbn; now rewrite ?E.
Qed.

Lemma pending_only_conn_cursor : pending_only conn_cursor.
Proof.
  intros d. unfold conn_cursor.
  destruct (conn_open d) eqn:E; cbn; now rewrite ?E.
Qed.

Lemma pending_only_bind {A B} (m : DB A) (k : A -> DB B) :
  pending_only m -> (forall a, pending_only (k a)) -> pending_only (Conn.bind m k).
Proof.
  intros Hm Hk d. unfold Conn.bind.
  specialize (Hm d). destruct (m d) as [[[a|e] d1] l1]; cbn in *.
  - specialize (Hk a d1). destruct (k a d1) as [[r d2] l2]; cbn in *.
    destruct Hm as (Ht1 & Ho1 & Hl1), Hk as (Ht2 & Ho2 & Hl2).
    subst l1 l2. now rewrite Ht2, Ht1, Ho2, Ho1.
  - exact Hm.
Qed.

Lemma try_block_of_pending (m : DB unit) : pending_only m -> try_block m.
Proof.
  intros Hm d Hopen. destruct (Hm d) as (Ht & Ho & Hl).
  rewrite Ho, Hl, Ht. tauto.
Qed.

Lemma try_block_commit : try_block conn_commit.
Proof. intros d Hopen. unfold conn_commit. rewrite Hopen. cbn. intuition congruence. Qed.

Lemma try_block_bind {A} (m : DB A) (k : A -> DB unit) :
  pending_only m -> (forall a, try_block (k a)) -> try_block (Conn.bind m k).
Proof.
  intros Hm Hk d Hopen. unfold Conn.bind.
  destruct (Hm d) as (Ht & Ho & Hl).
  destruct (m d) as [[[a|e] d1] l1]; cbn in *.
  - rewrite Hopen in Ho. specialize (Hk a d1 Ho).
    destruct (k a d1) as [[r d2] l2]; cbn in *.
    destruct Hk as (Ho2 & -> & Ht2). subst l1. rewrite <- Ht. tauto.
  - rewrite Ho, Hl, Ht. tauto.
Qed.

Lemma pending_only_save_team_stats now team_data items :
  pending_only (save_team_stats now team_data items).
Proof.
  induction items as [|[stat_key stat_value] items IH]; cbn [save_team_stats].
  - apply pending_only_ret.
  - apply pending_only_bind; [|intros _; exact IH].
    destruct (negb _); [|apply pending_only_ret].
    apply pending_only_bind; [apply pending_only_lift|intros ?].
    apply pending_only_cursor_execute.
Qed.

Lemma pending_only_save_draft_rows now rows :
  pending_only (save_draft_rows now rows).
Proof.
  induction rows as [|r rows IH]; cbn [save_draft_rows].
  - apply pending_only_ret.
  - repeat (apply pending_only_bind; [apply pending_only_lift|intros ?]).
    apply pending_only_bind; [apply pending_only_cursor_execute|intros _; exact IH].
Qed.

Ltac pending :=
  repeat first
    [ apply pending_only_ret | apply pending_only_raise
    | apply pending_only_lift | apply pending_only_cursor_execute
    | apply pending_only_cursor_query | apply pending_only_conn_begin
    | apply pending_only_conn_cursor | apply pending_only_save_team_stats
    | apply pending_only_save_draft_rows
    | apply pending_only_bind; [|intros ?]
    | match goal with
      | |- pending_only (if ?b then _ else _) => destruct b
      | |- pending_only (match ?x with _ => _ end) => destruct x
      end ].

Ltac try_block :=
  repeat first
    [ apply try_block_commit
    | apply try_block_bind; [pending|intros ?]
    | match goal with
      | |- try_block (match ?x with _ => _ end) => destruct x
      end ].

Lemma try_block_save_player now x : try_block (save_player_try now x).
Proof. unfold save_player_try. try_block. Qed.
Lemma try_block_save_team now x : try_block (save_team_try now x).
Proof. unfold save_team_try. try_block. Qed.
Lemma try_block_save_league now x : try_block (save_league_try now x).
Proof. unfold save_league_try. try_block. Qed.
Lemma try_block_save_game now x : try_block (save_game_try now x).
Proof. unfold save_game_try. try_block. Qed.
Lemma try_block_save_league_standings now x :
  try_block (save_league_standings_try now x).
Proof. unfold save_league_standings_try. try_block. Qed.
Lemma try_block_save_league_settings now x :
  try_block (save_league_settings_try now x).
Proof. unfold save_league_settings_try. try_block. Qed.
Lemma try_block_save_league_scoreboard now x :
  try_block (save_league_scoreboard_try now x).
Proof. unfold save_league_scoreboard_try. try_block. Qed.
Lemma try_block_save_league_roster now x :
  try_block (save_league_roster_try now x).
Proof. unfold save_league_roster_try. try_block. Qed.
Lemma try_block_save_league_points now x :
  try_block (save_league_points_try now x).
Proof. unfold save_league_points_try. try_block. Qed.
Lemma try_block_save_league_game now x :
  try_block (save_league_game_try now x).
Proof. unfold save_league_game_try. try_block. Qed.
Lemma try_block_save_league_schedule now x :
  try_block (save_league_schedule_try now x).
Proof. unfold save_league_schedule_try. try_block. Qed.
Lemma try_block_save_league_draft_results now x :
  try_block (save_league_draft_results_try now x).
Proof. unfold save_league_draft_results_try. try_block. Qed.
Lemma try_block_save_sport_code now x : try_block (save_sport_code_try now x).
Proof. unfold save_sport_code_try. try_block. Qed.
Lemma try_block_save_player_stats now x :
  try_block (save_player_stats_try now x).
Proof. unfold save_player_stats_try. try_block. Qed.

(** The handler shared by every save method but [save_team]: log the
    exception, roll back, return. *)
Lemma try_except_rollback (body : DB unit) (msg : string) (d : db) :
  try_block body -> conn_open d = true ->
  try_except body (fun e => logger_error msg e ;;; conn_rollback)%db d
  = match body d with
    | (Ok _, d1, _) => (Ok tt, d1, [])
    | (Raise e, _, _) => (Ok tt, Db true (tables d) None, [LogError msg e])
    end.
Proof.
  intros Hb Hopen. unfold try_except.
  destruct (Hb d Hopen) as (Ho & Hl & Ht).
  destruct (body d) as [[[[]|e] d1] l1]; cbn in *; subst l1; [reflexivity|].
  unfold Conn.bind, logger_error, conn_rollback. cbn.
  rewrite Ho. cbn. now rewrite Ht.
Qed.

(** The handler of [save_team]: log, roll back, re-raise. *)
Lemma try_except_reraise (body : DB unit) (msg : string) (d : db) :
  try_block body -> conn_open d = true ->
  try_except body
    (fun e => logger_error msg e ;;; conn_rollback ;;; raise e)%db d
  = match body d with
    | (Ok _, d1, _) => (Ok tt, d1, [])
    | (Raise e, _, _) => (Raise e, Db true (tables d) None, [LogError msg e])
    end.
Proof.
  intros Hb Hopen. unfold try_except.
  destruct (Hb d Hopen) as (Ho & Hl & Ht).
  destruct (body d) as [[[[]|e] d1] l1]; cbn in *; subst l1; [reflexivity|].
  unfold Conn.bind, logger_error, conn_rollback, raise. cbn.
  rewrite Ho. cbn. now rewrite Ht.
Qed.

(** What "catch, log, continue" means for a method [m] with [try] block
    [body]: when the block raises [e], the method still returns normally
    and its one log line is the error message with [e]. *)
Definition caught_and_logged (msg : string) (body m : DB unit) (d : db)
    : Prop :=
  match body d with
  | (Ok _, d1, _) => m d = (Ok tt, d1, [])
  | (Raise e, _, _) => exists d2, m d = (Ok tt, d2, [LogError msg e])
  end.

(** The same with the exception handed on to the caller after the log
    line. *)
Definition logged_and_reraised (msg : string) (body m : DB unit) (d : db)
    : Prop :=
  match body d with
  | (Ok _, d1, _) => m d = (Ok tt, d1, [])
  | (Raise e, _, _) => exists d2, m d = (Raise e, d2, [LogError msg e])
  end.

Lemma caught_and_logged_intro msg body d :
  try_block body -> conn_open d = true ->
  caught_and_logged msg body
    (try_except body (fun e => logger_error msg e ;;; conn_rollback)%db) d.
Proof.
  intros Hb Hopen. unfold caught_and_logged.
  rewrite (try_except_rollback body msg d Hb Hopen).
  destruct (body d) as [[[[]|e] d1] l1]; eauto.
Qed.

Lemma logged_and_reraised_intro msg body d :
  try_block body -> conn_open d = true ->
  logged_and_reraised msg body
    (try_except body
       (fun e => logger_error msg e ;;; conn_rollback ;;; raise e)%db) d.
Proof.
  intros Hb Hopen. unfold logged_and_reraised.
  rewrite (try_except_reraise body msg d Hb Hopen).
  destruct (body d) as [[[[]|e] d1] l1]; eauto.
Qed.

(** The state a failed save leaves: the committed tables of before, and no
    transaction open.  When no transaction was open before the call, that
    is the state of before. *)
Definition rolled_back (body m : DB unit) (d : db) : Prop :=
  is_ok (body d).1.1 = false ->
  (m d).1.2 = Db true (tables d) None
  /\ (txn d = None -> (m d).1.2 = d).

Lemma rolled_back_intro msg body d :
  try_block body -> conn_open d = true ->
  rolled_back body
    (try_except body (fun e => logger_error msg e ;;; conn_rollback)%db) d.
Proof.
  intros Hb Hopen Hfail.
  rewrite (try_except_rollback body msg d Hb Hopen).
  destruct (body d) as [[[[]|e] d1] l1]; cbn in *; [discriminate|].
  split; [reflexivity|]. intros Hclean.
  destruct d as [o t x]; cbn in *. now subst.
Qed.

Lemma rolled_back_reraise_intro msg body d :
  try_block body -> conn_open d = true ->
  rolled_back body
    (try_except body
       (fun e => logger_error msg e ;;; conn_rollback ;;; raise e)%db) d.
Proof.
  intros Hb Hopen Hfail.
  rewrite (try_except_reraise body msg d Hb Hopen).
  destruct (body d) as [[[[]|e] d1] l1]; cbn in *; [discriminate|].
  split; [reflexivity|]. intros Hclean.
  destruct d as [o t x]; cbn in *. now subst.
Qed.

(** The database a fresh [Database()] gives on an empty file. *)
Definition fresh_db : db := __init__ "2024-09-08 17:00:00" ∅.

(** C3.  On an open connection every save method except
    [save_team] returns normally for every input: an exception raised in
    its [try] block (by the SQL statement, its parameters or a missing
    dictionary entry) ends as one [logger.error] line and is not handed to
    the caller.  [save_team] logs the exception in the same way and then
    raises it again. *)
Theorem save_methods_catch_and_log (now : string) (d : db) :
  conn_open d = true ->
  (forall x, caught_and_logged "Error saving player: "
               (save_player_try now x) (save_player now x) d)
  /\ (forall x, caught_and_logged "Error saving league: "
                  (save_league_try now x) (save_league now x) d)
  /\ (forall x, caught_and_logged "Error saving game: "
                  (save_game_try now x) (save_game now x) d)
  /\ (forall x, caught_and_logged "Error saving league standings: "
                  (save_league_standings_try now x)
                  (save_league_standings now x) d)
  /\ (forall x, caught_and_logged "Error saving league settings: "
                  (save_league_settings_try now x)
                  (save_league_settings now x) d)
  /\ (forall x, caught_and_logged "Error saving league scoreboard: "
                  (save_league_scoreboard_try now x)
                  (save_league_scoreboard now x) d)
  /\ (forall x, caught_and_logged "Error saving league roster: "
                  (save_league_roster_try now x)
                  (save_league_roster now x) d)
  /\ (forall x, caught_and_logged "Error saving league points: "
                  (save_league_points_try now x)
                  (save_league_points now x) d)
  /\ (forall x, caught_and_logged "Error saving league game: "
                  (save_league_game_try now x) (save_league_game now x) d)
  /\ (forall x, caught_and_logged "Error saving league schedule: "
                  (save_league_schedule_try now x)
                  (save_league_schedule now x) d)
  /\ (forall x, caught_and_logged "Error saving league draft results: "
                  (save_league_draft_results_try now x)
                  (save_league_draft_results now x) d)
  /\ (forall x, caught_and_logged "Error saving sport code: "
                  (save_sport_code_try now x) (save_sport_code now x) d)
  /\ (forall x, caught_and_logged "Error saving player stats: "
                  (save_player_stats_try now x) (save_player_stats now x) d)
  /\ (forall x, logged_and_reraised "Error saving team: "
                  (save_team_try now x) (save_team now x) d).
Proof.
  intros Hopen.
  repeat split; intros x;
    first [ apply caught_and_logged_intro | apply logged_and_reraised_intro ];
    auto using try_block_save_player, try_block_save_team,
      try_block_save_league, try_block_save_game,
      try_block_save_league_standings, try_block_save_league_settings,
      try_block_save_league_scoreboard, try_block_save_league_roster,
      try_block_save_league_points, try_block_save_league_game,
      try_block_save_league_schedule, try_block_save_league_draft_results,
      try_block_save_sport_code, try_block_save_player_stats.
Qed.

(** A team whose [sport_code] is [None]: the [INSERT] into [teams] violates
    [NOT NULL]. *)
Definition team_without_sport : pydict :=
  [("team_key", PStr "449.l.1.t.1"); ("sport_code", PNone);
   ("name", PStr "Gridiron")].

(** C3, the claim as stated fails for [save_team]: the [IntegrityError] of
    its [INSERT] reaches the caller. *)
Lemma save_team_raises_to_caller :
  conn_open fresh_db = true
  /\ (save_team "2024-09-08 17:00:00" team_without_sport fresh_db).1.1
     = Raise IntegrityError.
Proof. split; vm_compute; reflexivity. Qed.

(** A player whose [sport_code] is [None], for which the [INSERT] into
    [players] violates [NOT NULL]. *)
Definition player_without_sport : pydict :=
  [("player_key", PStr "449.p.100"); ("sport_code", PNone)].

Lemma save_methods_catch_and_log_witness :
  conn_open fresh_db = true
  /\ caught_and_logged "Error saving player: "
       (save_player_try "2024-09-08 17:00:00" player_without_sport)
       (save_player "2024-09-08 17:00:00" player_without_sport) fresh_db.
Proof.
  split; [reflexivity|].
  exact (proj1 (save_methods_catch_and_log "2024-09-08 17:00:00" fresh_db
                  eq_refl) player_without_sport).
Defined.

(** On that input the [try] block raises [IntegrityError]; [save_player]
    returns normally and logs it. *)
Example save_player_logs_integrity_error :
  (save_player_try "2024-09-08 17:00:00" player_without_sport fresh_db).1.1
  = Raise IntegrityError
  /\ (save_player "2024-09-08 17:00:00" player_without_sport fresh_db).1.1
     = Ok tt
  /\ (save_player "2024-09-08 17:00:00" player_without_sport fresh_db).2
     = [LogError "Error saving player: " IntegrityError].
Proof. repeat split; vm_compute; reflexivity. Qed.

(** C8.  On an open connection, when the [try] block of a
    save method raises, the method leaves the committed tables of before
    the call and no open transaction: nothing the failed call did remains,
    a half-done batch of [save_league_draft_results] included.  When no
    transaction was open at the call, this is exactly the state of before
    the call. *)
Theorem failed_save_is_rolled_back (now : string) (d : db) :
  conn_open d = true ->
  (forall x, rolled_back (save_player_try now x) (save_player now x) d)
  /\ (forall x, rolled_back (save_team_try now x) (save_team now x) d)
  /\ (forall x, rolled_back (save_league_try now x) (save_league now x) d)
  /\ (forall x, rolled_back (save_game_try now x) (save_game now x) d)
  /\ (forall x, rolled_back (save_league_standings_try now x)
                  (save_league_standings now x) d)
  /\ (forall x, rolled_back (save_league_settings_try now x)
                  (save_league_settings now x) d)
  /\ (forall x, rolled_back (save_league_scoreboard_try now x)
                  (save_league_scoreboard now x) d)
  /\ (forall x, rolled_back (save_league_roster_try now x)
                  (save_league_roster now x) d)
  /\ (forall x, rolled_back (save_league_points_try now x)
                  (save_league_points now x) d)
  /\ (forall x, rolled_back (save_league_game_try now x)
                  (save_league_game now x) d)
  /\ (forall x, rolled_back (save_league_schedule_try now x)
                  (save_league_schedule now x) d)
  /\ (forall x, rolled_back (save_league_draft_results_try now x)
                  (save_league_draft_results now x) d)
  /\ (forall x, rolled_back (save_sport_code_try now x)
                  (save_sport_code now x) d)
  /\ (forall x, rolled_back (save_player_stats_try now x)
                  (save_player_stats now x) d).
Proof.
  intros Hopen.
  repeat match goal with |- _ /\ _ => split end; intros x;
    first [ apply rolled_back_intro | apply rolled_back_reraise_intro ];
    auto using try_block_save_player, try_block_save_team,
      try_block_save_league, try_block_save_game,
      try_block_save_league_standings, try_block_save_league_settings,
      try_block_save_league_scoreboard, try_block_save_league_roster,
      try_block_save_league_points, try_block_save_league_game,
      try_block_save_league_schedule, try_block_save_league_draft_results,
      try_block_save_sport_code, try_block_save_player_stats.
Qed.

(** A draft batch whose second pick has a dictionary where the pick number
    belongs: the first [INSERT] runs, the second cannot bind. *)
Definition broken_draft_batch : list pydict :=
  [ [("league_key", PStr "449.l.1"); ("season", PStr "2024");
     ("round", PInt 1); ("pick", PInt 1);
     ("team_key", PStr "449.l.1.t.1"); ("player_key", PStr "449.p.100")];
    [("league_key", PStr "449.l.1"); ("season", PStr "2024");
     ("round", PInt 1); ("pick", PDict []);
     ("team_key", PStr "449.l.1.t.2"); ("player_key", PStr "449.p.200")] ].

Lemma failed_save_is_rolled_back_witness :
  conn_open fresh_db = true
  /\ rolled_back
       (save_league_draft_results_try "2024-09-08 17:00:00" broken_draft_batch)
       (save_league_draft_results "2024-09-08 17:00:00" broken_draft_batch)
       fresh_db.
Proof.
  split; [reflexivity|].
  pose proof (failed_save_is_rolled_back "2024-09-08 17:00:00" fresh_db
                eq_refl) as H.
  exact (proj1 (proj2 (proj2 (proj2 (proj2 (proj2 (proj2 (proj2 (proj2
           (proj2 (proj2 (proj2 H))))))))))) broken_draft_batch).
Defined.

(** The half-done batch at work: the [try] block stops with the first
    pick inserted in the transaction, and the method leaves the table
    empty. *)
Example broken_draft_batch_leaves_nothing :
  let body := save_league_draft_results_try "2024-09-08 17:00:00"
                broken_draft_batch fresh_db in
  let call := save_league_draft_results "2024-09-08 17:00:00"
                broken_draft_batch fresh_db in
  body.1.1 = Raise InterfaceError
  /\ length (rows_of "league_draft_results" body.1.2) = 1%nat
  /\ call.1.1 = Ok tt
  /\ rows_of "league_draft_results" call.1.2 = []
  /\ call.1.2 = fresh_db.
Proof. repeat split; vm_compute; reflexivity. Qed.

(** [load_scoreboard_data.py] runs an [INSERT OR REPLACE INTO
    league_scoreboard] on [db.cursor] without committing, and then calls
    [save_league_points]: the save method starts inside the caller's open
    transaction. *)
Definition scoreboard_pending_db : db :=
  (cursor_execute (insert_stmt OrReplace "league_scoreboard"
     [("league_key", Bind (PStr "449.l.1")); ("week", Bind (PInt 1));
      ("scoreboard_json", Bind (PStr "{}"));
      ("updated_at", CurrentTimestamp)] "2024-09-08 17:00:00") fresh_db).1.2.

Definition unbindable_points : pydict :=
  [("league_key", PStr "449.l.1"); ("team_key", PStr "449.l.1.t.1");
   ("week", PInt 1); ("points", PDict [])].

(** C8, the claim as stated fails when the call starts inside an open
    transaction: the rollback of the failed [save_league_points] also
    discards the scoreboard row that was visible before the call. *)
Lemma failed_save_discards_pending_rows :
  let before := scoreboard_pending_db in
  let after := (save_league_points "2024-09-08 17:00:00" unbindable_points
                  before).1.2 in
  conn_open before = true
  /\ (save_league_points_try "2024-09-08 17:00:00" unbindable_points
        before).1.1 = Raise InterfaceError
  /\ length (rows_of "league_scoreboard" before) = 1%nat
  /\ rows_of "league_scoreboard" after = [].
Proof. repeat split; vm_compute; reflexivity. Qed.


(* ===================================================================== *)
(** * Properties of the persistence layer: keys and replacement          *)
(* ===================================================================== *)


(** A bound key that is not [NULL] equals itself in SQL. *)
Definition proper_key (k : sqlval) : Prop :=
  match k with SInt _ | SText _ => True | _ => False end.

Lemma sql_eqb_proper_refl k : proper_key k -> sql_eqb k k = true.
Proof.
  destruct k; cbn; try tauto; intros _.
  - apply Z.eqb_refl.
  - apply String.eqb_refl.
Qed.

Lemma proper_key_not_null k : proper_key k -> is_null k = false.
Proof. now destruct k. Qed.

Lemma filter_none {A} (p : A -> bool) (l : list A) :
  existsb p l = false -> List.filter p l = [].
Proof.
  induction l as [|a l IH]; cbn; [reflexivity|].
  destruct (p a); cbn; [discriminate|exact IH].
Qed.

Lemma filter_negb_filter {A} (p : A -> bool) (l : list A) :
  List.filter p (List.filter (fun a => negb (p a)) l) = [].
Proof.
  induction l as [|a l IH]; cbn; [reflexivity|].
  destruct (p a) eqn:E; cbn; [exact IH|]. now rewrite E.
Qed.

(** The cell a built row holds in a column the statement assigns. *)
Lemma build_row_assigned mode t assign now cols r c k :
  build_row mode t assign now cols = Some r ->
  existsb (fun col => String.eqb (cname col) c) cols = true ->
  row_lookup c assign = Some k ->
  is_null k = false ->
  row_get c r = k.
Proof.
  revert r. induction cols as [|col cols IH]; intros r Hb Hc Ha Hk;
    cbn in *; [discriminate|].
  destruct (check_notnull mode now col (new_cell t assign now col)) as [v|] eqn:Ev;
    [|discriminate].
  destruct (build_row mode t assign now cols) as [r'|]; [|discriminate].
  injection Hb as <-. unfold row_get. cbn.
  destruct (String.eqb (cname col) c) eqn:E.
  - apply String.eqb_eq in E. subst c.
    unfold new_cell in Ev. rewrite Ha, Hk, andb_false_r in Ev.
    unfold check_notnull in Ev. rewrite Hk, andb_false_r in Ev.
    now injection Ev as <-.
  - cbn in Hc. apply (IH r' eq_refl Hc Ha Hk).
Qed.

(** On a table with a declared key column, [INSERT OR REPLACE] of a row
    with a proper key leaves exactly one row with that key. *)
Lemma insert_or_replace_one_row assign now t t' k :
  has_column t (tpk t) = true ->
  row_lookup (tpk t) assign = Some k ->
  proper_key k ->
  insert_into OrReplace assign now t = Ok t' ->
  length (List.filter (fun r => sql_eqb (row_get (tpk t) r) k) (trows t'))
  = 1%nat.
Proof.
  intros Hcol Ha Hk. unfold insert_into.
  destruct (negb _); [discriminate|].
  destruct (build_row OrReplace t assign now (tcols t)) as [r|] eqn:Eb;
    [|discriminate].
  assert (Hr : row_get (tpk t) r = k).
  { apply (build_row_assigned _ _ _ _ _ _ _ _ Eb Hcol Ha).
    now apply proper_key_not_null. }
  rewrite Hr.
  destruct (existsb _ (trows t)) eqn:Ex; intros [= <-]; cbn [trows];
    rewrite List.filter_app; cbn; rewrite Hr, (sql_eqb_proper_refl k Hk).
  - now rewrite filter_negb_filter.
  - now rewrite (filter_none _ _ Ex).
Qed.

Definition roster_entry : pydict :=
  [("league_key", PStr "449.l.1"); ("team_key", PStr "449.l.1.t.1");
   ("player_key", PStr "449.p.100"); ("selected_position", PStr "QB");
   ("is_starting", PInt 1); ("week", PInt 1)].

Definition roster_entry_key : list (string * sqlval) :=
  [("league_key", SText "449.l.1"); ("team_key", SText "449.l.1.t.1");
   ("player_key", SText "449.p.100"); ("week", SInt 1)].

Definition player_record : pydict :=
  [("player_key", PStr "449.p.100"); ("sport_code", PStr "nfl");
   ("name", PStr "Pat Example")].

(** C1.  The same roster entry saved twice on a fresh database: both calls
    return normally and log nothing, and [league_rosters] then holds two
    rows with these key values (ids 1 and 2).  [league_rosters] has no
    key besides its auto-increment [id], so the [INSERT OR REPLACE] never
    finds a row to replace. *)
Theorem save_league_roster_twice_keeps_both_rows :
  let d1 := (save_league_roster "2024-09-08 17:00:00" roster_entry fresh_db).1.2 in
  let second := save_league_roster "2024-09-09 17:00:00" roster_entry d1 in
  second.1.1 = Ok tt
  /\ second.2 = []
  /\ map (row_get "id") (rows_with "league_rosters" roster_entry_key second.1.2)
     = [SInt 1; SInt 2].
Proof. repeat split; vm_compute; reflexivity. Qed.

(** On [players], whose key column is declared, the second save replaces
    the row of the first. *)
Example save_player_twice_keeps_one_row :
  let d1 := (save_player "2024-09-08 17:00:00" player_record fresh_db).1.2 in
  let d2 := (save_player "2024-09-09 17:00:00" player_record d1).1.2 in
  map (row_get "last_updated")
      (rows_with "players" [("player_key", SText "449.p.100")] d2)
  = [SText "2024-09-09 17:00:00"].
Proof. vm_compute. reflexivity. Qed.


(* ===================================================================== *)
(** * [save_league_game] against the upsert of the specification         *)
(* ===================================================================== *)

Import Upsert.





(** A bound parameter: [NULL], an integer or a text. *)
Definition plain (k : sqlval) : Prop :=
  match k with SJson _ => False | _ => True end.



Lemma sql_eqb_self_plain k : plain k -> is_null k = false -> sql_eqb k k = true.
Proof.
  destruct k; cbn; try discriminate; try tauto; intros _ _.
  - apply Z.eqb_refl.
  - apply String.eqb_refl.
Qed.





(** Split a list of named cells along a known list of names. *)
Ltac shape H :=
  repeat
    match type of H with
    | map fst ?l = _ :: _ =>
        let c := fresh "c" in let v := fresh "v" in let E := fresh "E" in
        destruct l as [|[c v] l]; [discriminate H|];
        cbn [map fst] in H; injection H as E H; subst c
    | map fst ?l = [] => destruct l; [clear H|discriminate H]
    end.







Lemma filter_all_true {A} (f : A -> bool) (l : list A) :
  existsb (fun a => negb (f a)) l = false -> List.filter f l = l.
Proof.
  induction l as [|a l IH]; cbn; [reflexivity|].
  destruct (f a); cbn; [|discriminate]. intros H. now rewrite IH.
Qed.










Lemma cursor_execute_open stmt d :
  conn_open d = true ->
  cursor_execute stmt d
  = match stmt (visible d) with
    | Ok s' => (Ok tt, Db true (tables d) (Some s'), [])
    | Raise e => (Raise e, Db true (tables d) (Some (visible d)), [])
    end.
Proof. intros H. unfold cursor_execute. now rewrite H. Qed.






















(* ===================================================================== *)
(** * Properties of the API client: the 401 path of [make_request]       *)
(* ===================================================================== *)

Import Api YahooFantasyAPI.

Definition is_get (ev : event) : bool :=
  match ev with Get _ _ _ => true | _ => false end.

Definition gets_of (evs : list event) : list event := List.filter is_get evs.

(** The events a call added to the trace. *)
Definition added (c c' : client) : list event :=
  drop (length (trace c)) (trace c').


(** What [make_request] makes of the response it ends with. *)
Definition deliver (o : outcome) : result pyval :=
  match o with
  | Breaks e => Raise e
  | Answers r => (_ <- raise_for_status r ;; response_json r)%py
  end.





Lemma added_after tok stok tf ng np nw nr tr tok' stok' tf' ng' np' nw' nr' l :
  added (Client tok stok tf ng np nw nr tr)
        (Client tok' stok' tf' ng' np' nw' nr' (tr ++ l)) = l.
Proof. unfold added. cbn. now rewrite drop_app_length. Qed.



(** When the second request fails too, its error reaches the caller. *)
Lemma deliver_error_status r :
  400 <= status_code r < 600 ->
  deliver (Answers r) = Raise (HTTPError (status_code r)).
Proof.
  intros [Hlo Hhi]. unfold deliver, raise_for_status.
  apply Z.leb_le in Hlo. apply Z.ltb_lt in Hhi. now rewrite Hlo, Hhi.
Qed.

Lemma deliver_exception e : deliver (Breaks e) = Raise e.
Proof. reflexivity. Qed.

(** A client with an expired access token and a refresh token. *)
Definition stale_client : client :=
  Client [("access_token", PStr "expired"); ("refresh_token", PStr "keep")]
         (PStr "expired") NoFile 0 0 0 0 [].


(** The service answers 401, then 200 with a body; the token endpoint
    grants a token. *)
Definition token_granted : env :=
  Env (fun n => match n with
                | O => Answers (Response 401 None)
                | _ => Answers (Response 200
                                  (Some (PDict [("fantasy_content", PDict [])])))
                end)
      (fun _ => Answers (Response 200
                           (Some (PDict [("access_token", PStr "fresh")]))))
      (fun _ => Written) (fun _ => 0%Q) (fun _ => None) (fun _ => false).



(** The granted token at work: two requests, the second with the new
    access token, and the merged token in the file. *)
Example token_granted_run :
  let out := make_request token_granted "/users;use_login=1/games" None
               stale_client in
  out.1 = Ok (PDict [("fantasy_content", PDict [])])
  /\ gets_of (trace out.2)
     = [Get (full_url "/users;use_login=1/games") None (PStr "expired");
        Get (full_url "/users;use_login=1/games") None (PStr "fresh")]
  /\ token_file out.2
     = Holds [("access_token", PStr "fresh"); ("refresh_token", PStr "keep")].
Proof. repeat split; vm_compute; reflexivity. Qed.

(* ===================================================================== *)
(** * Properties of the player loader: retries and waits                 *)
(* ===================================================================== *)

Import LoadPlayers.

Definition sleeps_of (evs : list event) : list Q :=
  omap (fun ev => match ev with Sleep q => Some q | _ => None end) evs.

(** A computation that draws no random number and does not sleep. *)
Definition quiet (c c' : client) : Prop :=
  n_random c' = n_random c /\ sleeps_of (trace c') = sleeps_of (trace c).

Definition calm {A} (m : M A) : Prop := forall c, quiet c (m c).2.

Lemma quiet_refl c : quiet c c.
Proof. now split. Qed.

Lemma quiet_trans c1 c2 c3 : quiet c1 c2 -> quiet c2 c3 -> quiet c1 c3.
Proof. intros [H1 H2] [H3 H4]. split; congruence. Qed.

Lemma calm_ret {A} (a : A) : calm (Api.ret a).
Proof. intros c. apply quiet_refl. Qed.
Lemma calm_raise {A} e : calm (@Api.raise A e).
Proof. intros c. apply quiet_refl. Qed.
Lemma calm_lift {A} (r : result A) : calm (Api.lift r).
Proof. intros c. apply quiet_refl. Qed.
Lemma calm_get_token : calm get_token.
Proof. intros c. apply quiet_refl. Qed.
Lemma calm_new_session : calm new_session.
Proof. intros c. now split. Qed.
Lemma calm_update_token v : calm (update_token v).
Proof. intros c. unfold update_token. destruct v; now split. Qed.

Lemma calm_bind {A B} (m : M A) (k : A -> M B) :
  calm m -> (forall a, calm (k a)) -> calm (Api.bind m k).
Proof.
  intros Hm Hk c. unfold Api.bind. specialize (Hm c).
  destruct (m c) as [[a|e] c1]; cbn in *; [|exact Hm].
  exact (quiet_trans _ _ _ Hm (Hk a c1)).
Qed.

Lemma calm_try_except {A} (m : M A) (h : exn -> M A) :
  calm m -> (forall e, calm (h e)) -> calm (Api.try_except m h).
Proof.
  intros Hm Hh c. unfold Api.try_except. specialize (Hm c).
  destruct (m c) as [[a|e] c1]; cbn in *; [exact Hm|].
  exact (quiet_trans _ _ _ Hm (Hh e c1)).
Qed.

Lemma sleeps_of_snoc l ev :
  sleeps_of (l ++ [ev])
  = sleeps_of l ++ match ev with Sleep q => [q] | _ => [] end.
Proof. unfold sleeps_of. rewrite omap_app. cbn. now destruct ev. Qed.

Lemma calm_logger_error msg e : calm (Api.logger_error msg e).
Proof.
  intros c. split; [reflexivity|]. cbn.
  now rewrite sleeps_of_snoc, app_nil_r.
Qed.

Lemma calm_session_get E url params : calm (session_get E url params).
Proof.
  intros c. unfold session_get.
  destruct (on_get E (n_get c)); (split; [reflexivity|]); cbn;
    now rewrite sleeps_of_snoc, app_nil_r.
Qed.

Lemma calm_requests_post E rt : calm (requests_post E rt).
Proof.
  intros c. unfold requests_post.
  destruct (on_post E (n_post c)); (split; [reflexivity|]); cbn;
    now rewrite sleeps_of_snoc, app_nil_r.
Qed.

Lemma calm__save_token E tok : calm (_save_token E tok).
Proof.
  intros c. unfold _save_token.
  destruct (on_write E (n_write c)); (split; [reflexivity|]); cbn;
    unfold sleeps_of; rewrite omap_app; cbn; now rewrite app_nil_r.
Qed.

Ltac calm :=
  repeat first
    [ apply calm_ret | apply calm_raise | apply calm_lift | apply calm_get_token
    | apply calm_new_session | apply calm_update_token
    | apply calm_logger_error | apply calm_session_get
    | apply calm_requests_post | apply calm__save_token
    | apply calm_try_except; [|intros ?]
    | apply calm_bind; [|intros ?]
    | match goal with
      | |- calm (if ?b then _ else _) => destruct b
      | |- calm (match ?x with _ => _ end) => destruct x
      end ].

Lemma calm__refresh_access_token E : calm (_refresh_access_token E).
Proof. unfold _refresh_access_token. calm. Qed.

Lemma calm_make_request E url params : calm (make_request E url params).
Proof.
  unfold make_request. apply calm_try_except; [|intros e; calm].
  apply calm_bind; [apply calm_session_get|intros r].
  apply calm_bind; [|intros r'; calm].
  destruct (status_code r =? 401); [|apply calm_ret].
  apply calm_bind; [apply calm__refresh_access_token|intros _].
  apply calm_session_get.
Qed.

(** What one pass of the loop body may do, started with [retry_count = r]:
    raise (inside the [try] block only), return a batch or [(None, 0)], or
    go round again after one wait, which is the wait of retry [r + 1]. *)
Definition pass_effect (E : env) (r max : Z) (c : client)
    (out : result step * client) : Prop :=
  match out.1 with
  | Raise _ => quiet c out.2
  | Ok (Return b) => b <> NoReturn /\ quiet c out.2
  | Ok (Continue r') =>
      r' = r + 1 /\ r < max
      /\ n_random out.2 = S (n_random c)
      /\ sleeps_of (trace out.2)
         = sleeps_of (trace c)
           ++ [(backoff 2 (r + 1) + on_random E (n_random c))%Q]
  end.

Definition passes_as (E : env) (r max : Z) (m : M step) : Prop :=
  forall c, pass_effect E r max c (m c).

Lemma pass_effect_after E r max c c1 out :
  quiet c c1 -> pass_effect E r max c1 out -> pass_effect E r max c out.
Proof.
  intros [Hn Hs]. unfold pass_effect.
  destruct out.1 as [[b|r']|e].
  - intros [Hb Hq]. split; [exact Hb|]. exact (quiet_trans _ _ _ (conj Hn Hs) Hq).
  - intros (-> & Hlt & Hn' & Hs'). rewrite Hn', Hs', Hn, Hs. auto.
  - intros Hq. exact (quiet_trans _ _ _ (conj Hn Hs) Hq).
Qed.

Lemma passes_as_bind {A} E r max (m : M A) (k : A -> M step) :
  calm m -> (forall a, passes_as E r max (k a)) ->
  passes_as E r max (Api.bind m k).
Proof.
  intros Hm Hk c. unfold Api.bind. specialize (Hm c).
  destruct (m c) as [[a|e] c1] eqn:Em; cbn in Hm.
  - exact (pass_effect_after _ _ _ _ _ _ Hm (Hk a c1)).
  - exact Hm.
Qed.

Lemma passes_as_return E r max b :
  b <> NoReturn -> passes_as E r max (Api.ret (Return b)).
Proof. intros Hb c. cbn. split; [exact Hb|apply quiet_refl]. Qed.

Lemma passes_as_retry_or_give_up E r max :
  passes_as E r max (retry_or_give_up E r max).
Proof.
  intros c. unfold retry_or_give_up.
  destruct (r <? max) eqn:Hlt.
  - apply Z.ltb_lt in Hlt. cbn.
    repeat split; try assumption. now rewrite sleeps_of_snoc.
  - cbn. split; [discriminate|apply quiet_refl].
Qed.

Ltac passes :=
  repeat first
    [ apply passes_as_retry_or_give_up
    | apply passes_as_return; discriminate
    | apply passes_as_bind;
      [first [apply calm_make_request | apply calm_lift]|intros ?]
    | match goal with
      | |- passes_as _ _ _ (if ?b then _ else _) => destruct b
      | |- passes_as _ _ _ (match ?x with _ => _ end) => destruct x
      end ].

Lemma passes_as_attempt E gk start count r max :
  passes_as E r max (attempt E gk start count r max).
Proof. unfold attempt. passes. Qed.

(** The loop body never raises: its handler catches everything. *)
Lemma loop_body_effect E gk start count r max c :
  let out := loop_body E gk start count r max c in
  is_ok out.1 = true /\ pass_effect E r max c out.
Proof.
  cbv zeta. unfold loop_body, Api.try_except.
  pose proof (passes_as_attempt E gk start count r max c) as Ha.
  destruct (attempt E gk start count r max c) as [[s|e] c1]; cbn in Ha.
  - split; [reflexivity|exact Ha].
  - assert (Hh : passes_as E r max
                   (Api.logger_error "Error loading batch: " (Some e) ;;;
                    retry_or_give_up E r max)%api).
    { apply passes_as_bind; [apply calm_logger_error|intros _].
      apply passes_as_retry_or_give_up. }
    specialize (Hh c1). split.
    + unfold Api.bind, retry_or_give_up. cbn. now destruct (r <? max).
    + exact (pass_effect_after _ _ _ _ _ _ Ha Hh).
Qed.

(** How many times the loop body (one attempt of the request) runs. *)
Fixpoint attempts_made (fuel : nat) (E : env) (gk : string) (start count : Z)
    (r max : Z) (c : client) : nat :=
  match fuel with
  | O => O
  | S fuel' =>
      if r <=? max then
        match loop_body E gk start count r max c with
        | (Ok (Continue r'), c') =>
            S (attempts_made fuel' E gk start count r' max c')
        | _ => 1%nat
        end
      else O
  end.

(** The waits before the retries [r + 1], [r + 2], ..., [r + m], the n-th
    random draw being the jitter of the n-th wait. *)
Definition retry_waits (E : env) (r : Z) (n0 m : nat) : list Q :=
  map (fun i => (backoff 2 (r + Z.of_nat (S i)) + on_random E (n0 + i))%Q)
      (seq 0 m).

Lemma retry_waits_cons E r n0 m :
  retry_waits E r n0 (S m)
  = (backoff 2 (r + 1) + on_random E n0)%Q :: retry_waits E (r + 1) (S n0) m.
Proof.
  unfold retry_waits. cbn [seq map]. f_equal.
  - now rewrite Nat.add_0_r.
  - rewrite <- seq_shift, map_map. apply map_ext. intros i.
    f_equal; [f_equal; lia|f_equal; lia].
Qed.

Lemma while_loop_spec E gk start count max fuel :
  forall r c,
    r <= max ->
    (Z.to_nat (max - r) < fuel)%nat ->
    exists b c' m,
      while_loop fuel E gk start count r max c = (Ok (Some b), c')
      /\ b <> NoReturn
      /\ attempts_made fuel E gk start count r max c = S m
      /\ (m <= Z.to_nat (max - r))%nat
      /\ sleeps_of (trace c')
         = sleeps_of (trace c) ++ retry_waits E r (n_random c) m.
Proof.
  induction fuel as [|fuel IH]; intros r c Hr Hfuel; [lia|].
  cbn [while_loop attempts_made].
  assert (Hle : (r <=? max) = true) by now apply Z.leb_le.
  rewrite Hle. unfold Api.bind.
  destruct (loop_body_effect E gk start count r max c) as [Hok Heff].
  destruct (loop_body E gk start count r max c) as [[[b|r']|e] c1];
    cbn in Hok, Heff; [| |discriminate].
  - destruct Heff as [Hb [_ Hs]].
    exists b, c1, 0%nat. cbn. rewrite app_nil_r. repeat split; auto. lia.
  - destruct Heff as (-> & Hlt & Hn & Hs).
    destruct (IH (r + 1) c1 ltac:(lia) ltac:(lia)) as (b & c' & m & Hw & Hb & Ha & Hm & Hs').
    exists b, c', (S m). rewrite Hw, Ha. repeat split; auto; [lia|].
    rewrite Hs', Hs, retry_waits_cons, Hn, <- app_assoc. reflexivity.
Qed.

Lemma backoff_2 k : 0 <= k -> (backoff 2 k == inject_Z (2 * 2 ^ k))%Q.
Proof.
  intros Hk. unfold backoff.
  rewrite inject_Z_mult, (Zpower_Qpower 2 k Hk). reflexivity.
Qed.

(** With jitters between 0 and 1, a wait exceeds its exponential part by at
    most one second. *)
Lemma retry_wait_bounds E k n :
  (0 <= on_random E n <= 1)%Q ->
  (backoff 2 k <= backoff 2 k + on_random E n <= backoff 2 k + 1)%Q.
Proof.
  intros [Hlo Hhi]. split.
  - rewrite <- (Qplus_0_r (backoff 2 k)) at 1.
    apply Qplus_le_compat; [apply Qle_refl|exact Hlo].
  - apply Qplus_le_compat; [apply Qle_refl|exact Hhi].
Qed.


(** The service cannot be reached and every jitter is half a second. *)
Definition always_down : env :=
  Env (fun _ => Breaks RequestException) (fun _ => Breaks RequestException)
      (fun _ => Written) (fun _ => (1 # 2)%Q) (fun _ => None) (fun _ => false).

Definition anonymous_client : client := Client [] PNone NoFile 0 0 0 0 [].



(** The unreachable service at work: four attempts, three waits of 4.5, 8.5
    and 16.5 seconds, and [(None, 0)]. *)
Example always_down_run :
  let out := load_players_batch always_down "449" 0 25 3 anonymous_client in
  out.1 = Ok (Some NoBatch)
  /\ n_get out.2 = 4%nat
  /\ attempts_made 5 always_down "449" 0 25 0 3 anonymous_client = 4%nat
  /\ sleeps_of (trace out.2) = [(9 # 2)%Q; (17 # 2)%Q; (33 # 2)%Q].
Proof. repeat split; vm_compute; reflexivity. Qed.

(* ===================================================================== *)
(** * Properties of the dashboard queries                                *)
(* ===================================================================== *)

Import Dashboard.

Lemma append_cons (ch : Ascii.ascii) (a b : string) :
  String ch a +:+ b = String ch (a +:+ b).
Proof. reflexivity. Qed.

Lemma length_append (a b : string) :
  String.length (a +:+ b) = (String.length a + String.length b)%nat.
Proof.
  induction a as [|ch a IH]; [reflexivity|].
  rewrite append_cons. cbn [String.length Nat.add]. now rewrite IH.
Qed.

(** A common suffix cancels. *)
Lemma append_inj_r (a b s : string) : a +:+ s = b +:+ s -> a = b.
Proof.
  revert b. induction a as [|ch a IH]; intros [|ch' b] H.
  - reflexivity.
  - apply (f_equal String.length) in H.
    rewrite !length_append in H. cbn [String.length] in H. lia.
  - apply (f_equal String.length) in H.
    rewrite !length_append in H. cbn [String.length] in H. lia.
  - rewrite !append_cons in H. injection H as -> H. f_equal. now apply IH.
Qed.

(** A text built as [prefix + value + suffix] tells the value. *)
Lemma interpolation_inj (prefix suffix a b : string) :
  prefix +:+ a +:+ suffix = prefix +:+ b +:+ suffix -> a = b.
Proof.
  intros H. apply String.app_inj in H. now apply append_inj_r in H.
Qed.

(** C5.  The dashboard queries that bind parameters submit a
    constant SQL text: [load_seasons], and [display_player_stats], whose
    league key and week reach the engine as bound parameters only.
    [load_table_data] submits the text it is given, with the parameters it
    is given.  [load_leagues] binds nothing and interpolates the season into
    the text, as the league and team queries of [main] do with the selected
    league: different values give different SQL texts. *)
Theorem dashboard_queries_text :
  (forall league_key week league_key' week',
      sql (display_player_stats league_key week)
      = sql (display_player_stats league_key' week'))
  /\ (forall league_key week,
         params (display_player_stats league_key week)
         = [PStr league_key; PInt week])
  /\ params load_seasons = []
  /\ (forall text ps,
         sql (load_table_data text ps) = text
         /\ params (load_table_data text ps) = ps)
  /\ (forall season season',
         sql (load_leagues season) = sql (load_leagues season') <->
         season = season')
  /\ (forall season, params (load_leagues season) = [])
  /\ (forall league league',
         sql (league_query league) = sql (league_query league') <->
         league = league')
  /\ (forall league league',
         sql (teams_query league) = sql (teams_query league') <->
         league = league').
Proof.
  repeat match goal with |- _ /\ _ => split end; try reflexivity.
  - intros text ps. now split.
  - intros s s'. split; [|now intros ->].
    unfold load_leagues. cbn [sql]. apply interpolation_inj.
  - intros s s'. split; [|now intros ->].
    unfold league_query, load_table_data. cbn [sql]. apply interpolation_inj.
  - intros s s'. split; [|now intros ->].
    unfold teams_query, load_table_data. cbn [sql]. apply interpolation_inj.
Qed.

(** C5, the claim as stated fails for [load_leagues]: two seasons give two
    SQL texts, and nothing is bound. *)
Lemma load_leagues_text_depends_on_season :
  sql (load_leagues "2023")
  = "SELECT league_key, name FROM leagues WHERE season = '2023'"
  /\ sql (load_leagues "2024")
     = "SELECT league_key, name FROM leagues WHERE season = '2024'"
  /\ String.eqb (sql (load_leagues "2023")) (sql (load_leagues "2024")) = false
  /\ params (load_leagues "2023") = [].
Proof. repeat split. Qed.

(** A season string that closes the quote becomes part of the SQL text. *)
Example load_leagues_text_is_not_escaped :
  sql (load_leagues "2023' OR '1'='1")
  = "SELECT league_key, name FROM leagues WHERE season = '2023' OR '1'='1'".
Proof. reflexivity. Qed.

(* ===================================================================== *)
(** * Properties of the API client: the page [get_players] returns       *)
(* ===================================================================== *)

(** What the loops of [get_players] keep true of [(players_list,
    new_players_found)]: the counter is the length of the list, and every
    player in the list passed the test of the last [if]. *)
Definition counted (existing : option (list string)) (acc : list pydict * Z)
    : Prop :=
  acc.2 = Z.of_nat (length acc.1)
  /\ Forall (fun p => is_new_player existing p = true) acc.1.

Lemma counted_snoc existing acc p :
  counted existing acc -> is_new_player existing p = true ->
  counted existing (acc.1 ++ [p], acc.2 + 1).
Proof.
  intros [Hn Hall] Hp. split; cbn.
  - rewrite length_app, Hn. cbn. lia.
  - apply Forall_app. split; [exact Hall|]. now constructor.
Qed.

Lemma scan_players_counted existing pd indices :
  forall acc acc',
    counted existing acc ->
    scan_players existing pd indices acc = Ok acc' ->
    counted existing acc'.
Proof.
  induction indices as [|idx rest IH]; intros acc acc' Hacc H.
  - injection H as <-. exact Hacc.
  - change (scan_players existing pd (idx :: rest) acc) with
      (match dict_lookup (str_of_Z (Z.of_nat idx)) pd with
       | None => Ok acc
       | Some entry =>
           Py.bind (py_get_or "player" (PList []) entry) (fun player_data =>
             match player_data with
             | PList ((_ :: _) as items) =>
                 if is_new_player existing (fold_left add_item items [])
                 then scan_players existing pd rest
                        (acc.1 ++ [fold_left add_item items []], acc.2 + 1)
                 else scan_players existing pd rest acc
             | _ => scan_players existing pd rest acc
             end)
       end) in H.
    destruct (dict_lookup _ pd) as [entry|]; [|injection H as <-; exact Hacc].
    destruct (py_get_or "player" (PList []) entry) as [pdata|e];
      [|discriminate H].
    unfold Py.bind in H.
    destruct pdata as [| | | |[|item items]|]; try exact (IH acc acc' Hacc H).
    destruct (is_new_player existing (fold_left add_item (item :: items) []))
      eqn:Enew; [|exact (IH acc acc' Hacc H)].
    exact (IH _ _ (counted_snoc existing acc _ Hacc Enew) H).
Qed.

Lemma scan_games_counted E count existing entries :
  forall acc total acc' total',
    counted existing acc ->
    scan_games E count existing entries acc total = Ok (acc', total') ->
    counted existing acc'.
Proof.
  induction entries as [|[k game_data] rest IH]; intros acc total acc' total' Hacc H.
  - injection H as <- _. exact Hacc.
  - pose proof (IH acc total acc' total' Hacc) as Hskip.
    change (scan_games E count existing ((k, game_data) :: rest) acc total) with
      (match game_data with
       | PDict gd =>
           if dict_has "game" gd then
             match dict_get "game" gd with
             | PList (_ :: second :: _) =>
                 Py.bind (py_get_or "players" (PDict []) second) (fun players_data =>
                   if negb (truthy players_data) then
                     scan_games E count existing rest acc total
                   else
                     match players_data with
                     | PDict pd =>
                         Py.bind (py_int (int_of_str E)
                                    (dict_get_or "count" (PInt 0) pd)) (fun total' =>
                         Py.bind (scan_players existing pd
                                    (seq 0 (Z.to_nat count)) acc) (fun acc' =>
                         scan_games E count existing rest acc' total'))
                     | _ => scan_games E count existing rest acc total
                     end)
             | _ => scan_games E count existing rest acc total
             end
           else scan_games E count existing rest acc total
       | _ => scan_games E count existing rest acc total
       end) in H.
    destruct game_data as [| | | | |gd]; try exact (Hskip H).
    destruct (dict_has "game" gd); [|exact (Hskip H)].
    destruct (dict_get "game" gd) as [| | | |[|first [|second more]]|];
      try exact (Hskip H).
    destruct (py_get_or "players" (PDict []) second) as [pdata|e];
      [|discriminate H].
    unfold Py.bind at 1 in H.
    destruct (negb (truthy pdata)); [exact (Hskip H)|].
    destruct pdata as [| | | | |pd]; try exact (Hskip H).
    destruct (py_int (int_of_str E) (dict_get_or "count" (PInt 0) pd)) as [t|e];
      [|discriminate H].
    unfold Py.bind at 1 in H.
    destruct (scan_players existing pd (seq 0 (Z.to_nat count)) acc) as [acc1|e] eqn:Es;
      [|discriminate H].
    unfold Py.bind in H.
    apply (IH acc1 t acc' total'); [|exact H].
    exact (scan_players_counted existing pd _ acc acc1 Hacc Es).
Qed.




(** A page of two players, of which the caller already has the first. *)
Definition two_players_response : pyval :=
  PDict [("fantasy_content",
    PDict [("games",
      PDict [("0",
        PDict [("game",
          PList [PDict [("game_key", PStr "449")];
                 PDict [("players",
                   PDict [("0", PDict [("player",
                             PList [PDict [("player_key", PStr "449.p.100")];
                                    PDict [("name", PDict [("full", PStr "A. Back")])]])]);
                          ("1", PDict [("player",
                             PList [PDict [("player_key", PStr "449.p.200")];
                                    PDict [("display_position", PStr "WR")]])]);
                          ("count", PInt 40)])]])])])])].

Definition two_players : env :=
  Env (fun _ => Answers (Response 200 (Some two_players_response)))
      (fun _ => Breaks RequestException)
      (fun _ => Written) (fun _ => 0%Q) (fun _ => None) (fun _ => false).

Definition signed_in : client :=
  Client [("access_token", PStr "valid")] (PStr "valid") NoFile 0 0 0 0 [].


(* ===================================================================== *)
(** * Properties of the API client: the order of [get_games]             *)
(* ===================================================================== *)

(** ** Induction on values *)

(** The induction principle of [pyval], with the hypothesis for the
    elements of a list and for the values of a dictionary. *)
Definition pyval_ind' (P : pyval -> Prop)
    (HNone : P PNone) (HBool : forall b, P (PBool b))
    (HInt : forall n, P (PInt n)) (HStr : forall s, P (PStr s))
    (HList : forall l, Forall P l -> P (PList l))
    (HDict : forall d, Forall (fun kv => P kv.2) d -> P (PDict d))
    : forall v, P v :=
  fix go (v : pyval) : P v :=
    match v with
    | PNone => HNone
    | PBool b => HBool b
    | PInt n => HInt n
    | PStr s => HStr s
    | PList l =>
        HList l ((fix all (l : list pyval) : Forall P l :=
                    match l with
                    | [] => @List.Forall_nil _ P
                    | x :: l' => @List.Forall_cons _ P x l' (go x) (all l')
                    end) l)
    | PDict d =>
        HDict d ((fix all (d : list (string * pyval))
                    : Forall (fun kv => P kv.2) d :=
                    match d with
                    | [] => @List.Forall_nil _ _
                    | kv :: d' => @List.Forall_cons _ (fun kv => P kv.2) kv d' (go kv.2) (all d')
                    end) d)
    end.

(** ** [==] is symmetric *)

(** The two loops of [py_eq] on dictionaries, by name. *)
Definition sub_l (eq : pyval -> pyval -> bool) (e : pydict) : pydict -> bool :=
  fix sub_l (d : pydict) : bool :=
    match d with
    | [] => true
    | (k, v) :: d' =>
        match dict_lookup k e with Some w => eq v w | None => false end
        && sub_l d'
    end.

Definition find_eq (eq : pyval -> pyval -> bool) (k : string) (w : pyval)
    : pydict -> bool :=
  fix find (d : pydict) : bool :=
    match d with
    | [] => false
    | (k', v) :: d' => if String.eqb k' k then eq v w else find d'
    end.

Definition sub_r (eq : pyval -> pyval -> bool) (d : pydict) : pydict -> bool :=
  fix sub_r (e : pydict) : bool :=
    match e with
    | [] => true
    | (k, w) :: e' => find_eq eq k w d && sub_r e'
    end.

Fixpoint eq_items (l m : list pyval) : bool :=
  match l, m with
  | [], [] => true
  | x :: l', y :: m' => py_eq x y && eq_items l' m'
  | _, _ => false
  end.

Fixpoint lt_items (l m : list pyval) : option bool :=
  match l, m with
  | [], [] => Some false
  | [], _ :: _ => Some true
  | _ :: _, [] => Some false
  | x :: l', y :: m' => if py_eq x y then lt_items l' m' else py_lt x y
  end.

Lemma py_eq_list l m : py_eq (PList l) (PList m) = eq_items l m.
Proof. reflexivity. Qed.

Lemma py_lt_list l m : py_lt (PList l) (PList m) = lt_items l m.
Proof. reflexivity. Qed.

Lemma py_eq_dict d e :
  py_eq (PDict d) (PDict e)
  = (length d =? length e)%nat && sub_l py_eq e d && sub_r py_eq d e.
Proof. reflexivity. Qed.

Lemma find_eq_lookup eq k w d :
  find_eq eq k w d
  = match dict_lookup k d with Some v => eq v w | None => false end.
Proof.
  induction d as [|[k' v] d IH]; [reflexivity|]. cbn.
  destruct (String.eqb k' k); [reflexivity|exact IH].
Qed.

Lemma dict_lookup_Forall (P : pyval -> Prop) k d v :
  Forall (fun kv => P kv.2) d -> dict_lookup k d = Some v -> P v.
Proof.
  induction 1 as [|[k' v'] d Hv _ IH]; cbn; [discriminate|].
  destruct (String.eqb k' k); [|exact IH].
  intros [= <-]. exact Hv.
Qed.

Lemma py_eq_sym a : forall b, py_eq a b = py_eq b a.
Proof.
  induction a as [|x|x|s|l IH|d IH] using pyval_ind'; intros b.
  - now destruct b.
  - destruct b as [|y|y| | |]; try reflexivity; cbn.
    + now destruct x, y.
    + apply Z.eqb_sym.
  - destruct b as [|y|y| | |]; try reflexivity; cbn; apply Z.eqb_sym.
  - destruct b as [| | |t| |]; try reflexivity. cbn. apply String.eqb_sym.
  - destruct b as [| | | |m|]; try reflexivity. rewrite !py_eq_list.
    revert m. induction IH as [|x l Hx _ IHl]; intros [|y m]; try reflexivity.
    cbn. now rewrite Hx, IHl.
  - destruct b as [| | | | |e]; try reflexivity. rewrite !py_eq_dict.
    rewrite (Nat.eqb_sym (length e) (length d)).
    rewrite <- !andb_assoc. f_equal.
    rewrite andb_comm. f_equal.
    + (* the entries of [e], looked up in [d] *)
      induction e as [|[k w] e IHe]; [reflexivity|]. cbn.
      rewrite IHe, find_eq_lookup. f_equal.
      destruct (dict_lookup k d) as [v|] eqn:Ek; [|reflexivity].
      apply (dict_lookup_Forall (fun v => forall b, py_eq v b = py_eq b v) k d v IH Ek).
    + (* the entries of [d], looked up in [e] *)
      induction IH as [|[k v] d Hv _ IHd]; [reflexivity|]. cbn.
      rewrite IHd, find_eq_lookup. f_equal.
      destruct (dict_lookup k e) as [w|]; [|reflexivity]. apply Hv.
Qed.

(** ** [<] decides between unequal values it can compare *)

Lemma str_ltb_total s t :
  str_ltb s t = false -> String.eqb s t = false -> str_ltb t s = true.
Proof.
  unfold str_ltb. intros Hlt Hne.
  rewrite String.compare_antisym.
  destruct (String.compare s t) eqn:Ec; cbn; try reflexivity; try discriminate.
  apply String.compare_eq_iff in Ec. subst t.
  now rewrite String.eqb_refl in Hne.
Qed.

Lemma py_lt_total a :
  forall b, py_lt a b = Some false -> py_eq a b = false -> py_lt b a = Some true.
Proof.
  induction a as [|x|x|s|l IH|d IH] using pyval_ind'; intros b.
  - now destruct b.
  - destruct b as [|y|y| | |]; try discriminate; cbn; intros [= Hlt] Hne; f_equal.
    + now destruct x, y.
    + apply Z.ltb_lt. apply Z.ltb_ge in Hlt. apply Z.eqb_neq in Hne. lia.
  - destruct b as [|y|y| | |]; try discriminate; cbn; intros [= Hlt] Hne; f_equal;
      apply Z.ltb_lt; apply Z.ltb_ge in Hlt; apply Z.eqb_neq in Hne; lia.
  - destruct b as [| | |t| |]; try discriminate. cbn. intros [= Hlt] Hne. f_equal.
    now apply str_ltb_total.
  - destruct b as [| | | |m|]; try discriminate.
    rewrite !py_lt_list, py_eq_list.
    revert m. induction IH as [|x l Hx _ IHl]; intros [|y m]; cbn;
      try discriminate; try reflexivity.
    rewrite (py_eq_sym y x).
    destruct (py_eq x y) eqn:Exy; cbn.
    + apply IHl.
    + intros Hlt _. now apply Hx.
  - now destruct b.
Qed.

(** ** The order of the sort keys *)

(** [a <= b] on sort keys, as the sort leaves two neighbours: the codes are
    equal and the numbers are in order, or the first code is less. *)
Definition key_le (a b : pyval * Z) : Prop :=
  (py_eq a.1 b.1 = true /\ a.2 <= b.2)
  \/ (py_eq a.1 b.1 = false /\ py_lt a.1 b.1 = Some true).

Lemma key_lt_true_le a b : key_lt a b = Some true -> key_le a b.
Proof.
  unfold key_lt, key_le. destruct (py_eq a.1 b.1).
  - intros [= H]. left. split; [reflexivity|]. apply Z.ltb_lt in H. lia.
  - intros H. right. now split.
Qed.

Lemma key_lt_false_le a b : key_lt b a = Some false -> key_le a b.
Proof.
  unfold key_lt, key_le. rewrite (py_eq_sym b.1 a.1).
  destruct (py_eq a.1 b.1) eqn:E.
  - intros [= H]. left. split; [reflexivity|]. now apply Z.ltb_ge in H.
  - intros H. right. split; [reflexivity|].
    apply py_lt_total; [exact H|]. now rewrite py_eq_sym.
Qed.

(** ** [sorted] *)

Section Sorting.
Context {A : Type}.

Definition keyed_le (x y : A * (pyval * Z)) : Prop := key_le x.2 y.2.

Lemma insert_by_key_hd (x a : A * (pyval * Z)) l r :
  insert_by_key x l = Ok r ->
  keyed_le a x -> HdRel keyed_le a l -> HdRel keyed_le a r.
Proof.
  destruct l as [|y l]; cbn.
  - intros [= <-] Hax _. now constructor.
  - destruct (key_lt y.2 x.2) as [[|]|]; [| |discriminate].
    + destruct (insert_by_key x l) as [r'|e]; cbn; [|discriminate].
      intros [= <-] _ Hay. inversion Hay; subst. now constructor.
    + intros [= <-] Hax _. now constructor.
Qed.

Lemma insert_by_key_sorted (x : A * (pyval * Z)) l :
  forall r, insert_by_key x l = Ok r ->
            Sorted keyed_le l -> Sorted keyed_le r.
Proof.
  induction l as [|y l IH]; intros r; cbn.
  - intros [= <-] _. repeat constructor.
  - destruct (key_lt y.2 x.2) as [[|]|] eqn:Elt; [| |discriminate].
    + destruct (insert_by_key x l) as [r'|e] eqn:Er; cbn; [|discriminate].
      intros [= <-] Hs. inversion Hs as [|? ? Hl Hhd]; subst.
      constructor; [now apply IH|].
      apply (insert_by_key_hd x y l r' Er); [|exact Hhd].
      now apply key_lt_true_le.
    + intros [= <-] Hs. constructor; [exact Hs|].
      constructor. now apply key_lt_false_le.
Qed.

Lemma sort_by_key_sorted (l : list (A * (pyval * Z))) :
  forall r, sort_by_key l = Ok r -> Sorted keyed_le r.
Proof.
  induction l as [|x l IH]; intros r; cbn.
  - intros [= <-]. constructor.
  - destruct (sort_by_key l) as [r'|e]; cbn; [|discriminate].
    intros Hr. apply (insert_by_key_sorted x r' r Hr). now apply IH.
Qed.

(** The sort keeps the elements, so what holds of all of them. *)
Lemma insert_by_key_Forall (P : A * (pyval * Z) -> Prop) x l :
  forall r, insert_by_key x l = Ok r -> P x -> Forall P l -> Forall P r.
Proof.
  induction l as [|y l IH]; intros r; cbn.
  - intros [= <-] Hx _. now constructor.
  - destruct (key_lt y.2 x.2) as [[|]|]; [| |discriminate].
    + destruct (insert_by_key x l) as [r'|e]; cbn; [|discriminate].
      intros [= <-] Hx Hl. inversion Hl; subst. constructor; [assumption|].
      now apply IH.
    + intros [= <-] Hx Hl. now constructor.
Qed.

Lemma sort_by_key_Forall (P : A * (pyval * Z) -> Prop) l :
  forall r, sort_by_key l = Ok r -> Forall P l -> Forall P r.
Proof.
  induction l as [|x l IH]; intros r; cbn.
  - now intros [= <-].
  - destruct (sort_by_key l) as [r'|e]; cbn; [|discriminate].
    intros Hr Hl. inversion Hl; subst.
    apply (insert_by_key_Forall P x r' r Hr); [assumption|]. now apply IH.
Qed.

Variable key : A -> result (pyval * Z).

Lemma with_keys_keys l :
  forall r, with_keys key l = Ok r -> Forall (fun p => key p.1 = Ok p.2) r.
Proof.
  induction l as [|x l IH]; intros r; cbn.
  - intros [= <-]. constructor.
  - destruct (key x) as [k|e] eqn:Ek; cbn; [|discriminate].
    destruct (with_keys key l) as [r'|e]; cbn; [|discriminate].
    intros [= <-]. constructor; [exact Ek|]. now apply IH.
Qed.

(** Two neighbours of the sorted list: both have a key, and the keys are in
    order. *)
Definition by_key (a b : A) : Prop :=
  exists ka kb, key a = Ok ka /\ key b = Ok kb /\ key_le ka kb.

Lemma Sorted_map_fst (r : list (A * (pyval * Z))) :
  Forall (fun p => key p.1 = Ok p.2) r ->
  Sorted keyed_le r -> Sorted by_key (map fst r).
Proof.
  induction r as [|x r IH]; cbn; intros Hk Hs; [constructor|].
  inversion Hk as [|? ? Hx Hr]; subst. inversion Hs as [|? ? Hs' Hhd]; subst.
  constructor; [now apply IH|].
  destruct r as [|y r]; cbn; constructor.
  inversion Hhd; subst. inversion Hr; subst.
  exists x.2, y.2. repeat split; assumption.
Qed.

Lemma py_sorted_sorted l r :
  py_sorted key l = Ok r -> Sorted by_key r.
Proof.
  unfold py_sorted.
  destruct (with_keys key l) as [keyed|e] eqn:Ek; cbn; [|discriminate].
  destruct (sort_by_key keyed) as [sorted|e] eqn:Es; cbn; [|discriminate].
  intros [= <-]. apply Sorted_map_fst.
  - apply (sort_by_key_Forall _ keyed sorted Es). now apply with_keys_keys with l.
  - now apply sort_by_key_sorted with keyed.
Qed.

End Sorting.

(** ** [get_games] *)

(** [x.get('code')] and [int(x.get('season', 0))] of a game. *)
Definition code (x : pydict) : pyval := dict_get "code" x.

Definition season (E : env) (x : pydict) : result Z :=
  py_int (int_of_str E) (dict_get_or "season" (PInt 0) x).

(** [a] may stand before [b]: both seasons are numbers, and the code of [a]
    is less than that of [b], or the codes are equal and the season of [a]
    is the later or the same. *)
Definition in_order (E : env) (a b : pydict) : Prop :=
  exists sa sb,
    season E a = Ok sa /\ season E b = Ok sb
    /\ ((py_eq (code a) (code b) = false /\ py_lt (code a) (code b) = Some true)
        \/ (py_eq (code a) (code b) = true /\ sb <= sa)).

Lemma by_key_in_order E a b : by_key (sort_key E) a b -> in_order E a b.
Proof.
  intros (ka & kb & Ha & Hb & Hle). unfold sort_key in Ha, Hb.
  fold (season E a) in Ha. fold (season E b) in Hb.
  destruct (season E a) as [sa|e] eqn:Ea; cbn in Ha; [|discriminate].
  destruct (season E b) as [sb|e] eqn:Eb; cbn in Hb; [|discriminate].
  injection Ha as <-. injection Hb as <-.
  exists sa, sb. split; [exact Ea|]. split; [exact Eb|].
  destruct Hle as [[Heq Hle]|[Hne Hlt]]; cbn in *.
  - right. split; [exact Heq|lia].
  - left. now split.
Qed.

Lemma Sorted_impl {A} (R S : A -> A -> Prop) (l : list A) :
  (forall a b, R a b -> S a b) -> Sorted R l -> Sorted S l.
Proof.
  intros HRS. induction 1 as [|x l _ IH Hhd]; constructor; [exact IH|].
  destruct Hhd; constructor. now apply HRS.
Qed.

(** C10.  Whatever the service answers, the list [get_games] returns is
    sorted: of two neighbours, the code of the first is less than the code
    of the second, or the codes are equal and the season of the first is
    the later or the same. *)
Theorem get_games_sorted (E : env) (sport_codes : sport_codes_arg)
    (seasons : list Z) (c c' : client) (games : list pydict) :
  get_games E sport_codes seasons c = (Ok games, c') ->
  Sorted (in_order E) games.
Proof.
  unfold get_games, Api.bind, Api.lift. cbv zeta.
  destruct (collect_games E seasons _ [] c) as [[games_list|e] c1]; [|discriminate].
  intros [= H _].
  apply (Sorted_impl (by_key (sort_key E))); [apply by_key_in_order|].
  exact (py_sorted_sorted (sort_key E) games_list games H).
Qed.

(** With string codes, as the service sends them: the codes ascend in the
    order of [str], and equal codes have their seasons descending. *)
Corollary in_order_str E a b s t :
  in_order E a b -> code a = PStr s -> code b = PStr t ->
  exists sa sb,
    season E a = Ok sa /\ season E b = Ok sb
    /\ (str_ltb s t = true \/ (s = t /\ sb <= sa)).
Proof.
  intros (sa & sb & Ha & Hb & H) Hs Ht. exists sa, sb.
  split; [exact Ha|]. split; [exact Hb|].
  rewrite Hs, Ht in H. cbn in H.
  destruct H as [[_ [= Hlt]]|[Heq Hle]]; [now left|].
  right. split; [now apply String.eqb_eq|exact Hle].
Qed.

(** [int(s)] and [s.isdigit()] on ASCII digits. *)
Fixpoint digits_value (s : string) (acc : Z) : option Z :=
  match s with
  | EmptyString => Some acc
  | String ch s' =>
      match Ascii.is_nat ch with
      | Some d => digits_value s' (10 * acc + Z.of_nat d)
      | None => None
      end
  end.

Definition decimal (s : string) : option Z :=
  match s with EmptyString => None | _ => digits_value s 0 end.

Definition game_entry (code season game_key : string) : pyval :=
  PDict [("game", PList [PDict [("game_key", PStr game_key);
                                ("code", PStr code);
                                ("season", PStr season)]])].

Definition games_response (entries : list pyval) : pyval :=
  PDict [("fantasy_content",
          PDict [("games",
                  PDict (imap (fun i e => (str_of_Z (Z.of_nat i), e)) entries
                         ++ [("count", PInt (Z.of_nat (length entries)))]))])].

(** The service lists two football seasons, oldest first, then one baseball
    season. *)
Definition two_sports : env :=
  Env (fun n => match n with
                | O => Answers (Response 200 (Some (games_response
                         [game_entry "nfl" "2023" "423";
                          game_entry "nfl" "2024" "449"])))
                | _ => Answers (Response 200 (Some (games_response
                         [game_entry "mlb" "2024" "431"])))
                end)
      (fun _ => Breaks RequestException)
      (fun _ => Written) (fun _ => 0%Q) decimal
      (fun s => match decimal s with Some _ => true | None => false end).

Definition game_info (code season game_key : string) : pydict :=
  [("game_key", PStr game_key); ("code", PStr code); ("season", PStr season)].

(** The run on [two_sports]: baseball first, then football from the latest
    season down. *)
Lemma get_games_sorted_witness :
  let out := get_games two_sports (Codes ["nfl"; "mlb"]) [] signed_in in
  let games := [game_info "mlb" "2024" "431"; game_info "nfl" "2024" "449";
                game_info "nfl" "2023" "423"] in
  out = (Ok games, out.2) /\ Sorted (in_order two_sports) games.
Proof.
  cbv zeta. split; [vm_compute; reflexivity|].
  refine (get_games_sorted two_sports (Codes ["nfl"; "mlb"]) [] signed_in _ _ _).
  vm_compute; reflexivity.
Defined.

(* ===================================================================== *)
(** * The persistence layer after [close]                                *)
(* ===================================================================== *)

Module ClosedFacts.
Import Py Sql Conn Database.

(** On a closed [Database] object a computation [m] stops with an exception
    before it has changed or logged anything. *)
Definition fails_closed {A} (m : DB A) : Prop :=
  forall d, conn_open d = false -> exists e, m d = (Raise e, d, []).

(** It passes without a trace, if it passes. *)
Definition passes_closed {A} (m : DB A) : Prop :=
  forall d, conn_open d = false ->
    (exists e, m d = (Raise e, d, [])) \/ (exists a, m d = (Ok a, d, [])).

Lemma passes_closed_lift {A} (r : result A) : passes_closed (lift r).
Proof. intros d _. destruct r as [a|e]; [right|left]; eauto. Qed.

Lemma passes_closed_ret {A} (a : A) : passes_closed (ret a).
Proof. intros d _. right. now exists a. Qed.

Lemma fails_closed_passes {A} (m : DB A) : fails_closed m -> passes_closed m.
Proof. intros H d Hd. left. now apply H. Qed.

Lemma fails_closed_raise {A} e : fails_closed (@raise A e).
Proof. intros d _. now exists e. Qed.

Lemma fails_closed_cursor_execute stmt : fails_closed (cursor_execute stmt).
Proof. intros d Hd. unfold cursor_execute. rewrite Hd. eauto. Qed.

Lemma fails_closed_cursor_query {A} (q : store -> result A) :
  fails_closed (cursor_query q).
Proof. intros d Hd. unfold cursor_query. rewrite Hd. eauto. Qed.

Lemma fails_closed_conn_begin : fails_closed conn_begin.
Proof. intros d Hd. unfold conn_begin. rewrite Hd. eauto. Qed.

Lemma fails_closed_conn_commit : fails_closed conn_commit.
Proof. intros d Hd. unfold conn_commit. rewrite Hd. eauto. Qed.

Lemma fails_closed_conn_cursor : fails_closed conn_cursor.
Proof. intros d Hd. unfold conn_cursor. rewrite Hd. eauto. Qed.

Lemma fails_closed_bind {A B} (m : DB A) (k : A -> DB B) :
  fails_closed m -> fails_closed (Conn.bind m k).
Proof.
  intros Hm d Hd. destruct (Hm d Hd) as [e He]. exists e.
  unfold Conn.bind. now rewrite He.
Qed.

Lemma fails_closed_after {A B} (m : DB A) (k : A -> DB B) :
  passes_closed m -> (forall a, fails_closed (k a)) ->
  fails_closed (Conn.bind m k).
Proof.
  intros Hm Hk d Hd. unfold Conn.bind.
  destruct (Hm d Hd) as [[e He]|[a Ha]].
  - exists e. now rewrite He.
  - rewrite Ha. destruct (Hk a d Hd) as [e He]. exists e. now rewrite He.
Qed.

Lemma passes_closed_bind {A B} (m : DB A) (k : A -> DB B) :
  passes_closed m -> (forall a, passes_closed (k a)) ->
  passes_closed (Conn.bind m k).
Proof.
  intros Hm Hk d Hd. unfold Conn.bind.
  destruct (Hm d Hd) as [[e He]|[a Ha]].
  - left. exists e. now rewrite He.
  - rewrite Ha. destruct (Hk a d Hd) as [[e He]|[b Hb]].
    + left. exists e. now rewrite He.
    + right. exists b. now rewrite Hb.
Qed.

Lemma passes_closed_save_team_stats now team_data items :
  passes_closed (save_team_stats now team_data items).
Proof.
  induction items as [|[stat_key stat_value] items IH]; cbn [save_team_stats].
  - apply passes_closed_ret.
  - apply passes_closed_bind; [|intros _; exact IH].
    destruct (negb _); [|apply passes_closed_ret].
    apply passes_closed_bind; [apply passes_closed_lift|intros ?].
    apply fails_closed_passes, fails_closed_cursor_execute.
Qed.

Lemma passes_closed_save_draft_rows now rows :
  passes_closed (save_draft_rows now rows).
Proof.
  induction rows as [|r rows IH]; cbn [save_draft_rows].
  - apply passes_closed_ret.
  - repeat (apply passes_closed_bind; [apply passes_closed_lift|intros ?]).
    apply passes_closed_bind; [|intros _; exact IH].
    apply fails_closed_passes, fails_closed_cursor_execute.
Qed.

Ltac passes_closed :=
  repeat first
    [ apply passes_closed_ret | apply passes_closed_lift
    | apply passes_closed_save_team_stats
    | apply passes_closed_save_draft_rows
    | apply fails_closed_passes; fails_closed
    | apply passes_closed_bind; [|intros ?]
    | match goal with
      | |- passes_closed (if ?b then _ else _) => destruct b
      | |- passes_closed (match ?x with _ => _ end) => destruct x
      end ]
with fails_closed :=
  first
    [ apply fails_closed_raise | apply fails_closed_cursor_execute
    | apply fails_closed_cursor_query | apply fails_closed_conn_begin
    | apply fails_closed_conn_commit | apply fails_closed_conn_cursor
    | apply fails_closed_bind; fails_closed
    | apply fails_closed_after; [passes_closed|intros ?; fails_closed]
    | match goal with
      | |- fails_closed (match ?x with _ => _ end) => destruct x; fails_closed
      end ].

(** A save method on a closed object: the [try] block fails, the handler
    logs the exception, and [self.conn.rollback()] on the [None] that
    [close] has left in [self.conn] raises [AttributeError]. *)
Definition save_raises_closed (msg : string) (m : DB unit) : Prop :=
  forall d, exists e,
    m (close d) = (Raise AttributeError, close d, [LogError msg e]).

Lemma save_raises_closed_intro msg body (rest : exn -> DB unit) :
  fails_closed body ->
  save_raises_closed msg
    (try_except body
       (fun e => logger_error msg e ;;; (conn_rollback ;;; rest e))%db).
Proof.
  intros Hb d. destruct (Hb (close d) eq_refl) as [e He]. exists e.
  unfold try_except. rewrite He. reflexivity.
Qed.

Lemma save_raises_closed_plain msg body :
  fails_closed body ->
  save_raises_closed msg
    (try_except body (fun e => logger_error msg e ;;; conn_rollback)%db).
Proof.
  intros Hb d. destruct (Hb (close d) eq_refl) as [e He]. exists e.
  unfold try_except. rewrite He. reflexivity.
Qed.

(** X1.  After [close], every save method raises [AttributeError] to its
    caller, whatever it is given: the [try] block fails before anything is
    written, the handler logs that exception, and its
    [self.conn.rollback()] finds [None] in [self.conn].  The object is left
    as [close] left it. *)
Theorem save_after_close_raises (now : string) :
  (forall x, save_raises_closed "Error saving player: " (save_player now x))
  /\ (forall x, save_raises_closed "Error saving team: " (save_team now x))
  /\ (forall x, save_raises_closed "Error saving league: " (save_league now x))
  /\ (forall x, save_raises_closed "Error saving game: " (save_game now x))
  /\ (forall x, save_raises_closed "Error saving league standings: "
                  (save_league_standings now x))
  /\ (forall x, save_raises_closed "Error saving league settings: "
                  (save_league_settings now x))
  /\ (forall x, save_raises_closed "Error saving league scoreboard: "
                  (save_league_scoreboard now x))
  /\ (forall x, save_raises_closed "Error saving league roster: "
                  (save_league_roster now x))
  /\ (forall x, save_raises_closed "Error saving league points: "
                  (save_league_points now x))
  /\ (forall x, save_raises_closed "Error saving league game: "
                  (save_league_game now x))
  /\ (forall x, save_raises_closed "Error saving league schedule: "
                  (save_league_schedule now x))
  /\ (forall x, save_raises_closed "Error saving league draft results: "
                  (save_league_draft_results now x))
  /\ (forall x, save_raises_closed "Error saving sport code: "
                  (save_sport_code now x))
  /\ (forall x, save_raises_closed "Error saving player stats: "
                  (save_player_stats now x)).
Proof.
  repeat match goal with |- _ /\ _ => split end; intros x.
  2: { apply save_raises_closed_intro. unfold save_team_try. fails_closed. }
  all: apply save_raises_closed_plain.
  - unfold save_player_try. fails_closed.
  - unfold save_league_try. fails_closed.
  - unfold save_game_try. fails_closed.
  - unfold save_league_standings_try. fails_closed.
  - unfold save_league_settings_try. fails_closed.
  - unfold save_league_scoreboard_try. fails_closed.
  - unfold save_league_roster_try. fails_closed.
  - unfold save_league_points_try. fails_closed.
  - unfold save_league_game_try. fails_closed.
  - unfold save_league_schedule_try. fails_closed.
  - unfold save_league_draft_results_try. fails_closed.
  - unfold save_sport_code_try. fails_closed.
  - unfold save_player_stats_try. fails_closed.
Qed.

End ClosedFacts.

(* ===================================================================== *)
(** * Opening a database file                                            *)
(* ===================================================================== *)

Module InitFacts.
Import Py Sql Conn Database.

(** The declaration of a table: its columns, key column and whether the key
    is auto-incremented. *)
Definition shape (t : table) : list column * string * bool :=
  (tcols t, tpk t, tauto t).

(** [s'] holds everything [s] holds: each table of [s] is still there with
    its declaration and its rows, in order, possibly followed by new rows;
    only [sport_codes] may have grown. *)
Definition grown (s s' : store) : Prop :=
  forall name t, s !! name = Some t ->
    exists t', s' !! name = Some t' /\ shape t' = shape t
               /\ (exists new_rows, trows t' = trows t ++ new_rows)
               /\ (name <> "sport_codes" -> t' = t).

Lemma grown_refl s : grown s s.
Proof.
  intros name t Ht. exists t.
  split; [exact Ht|]. split; [reflexivity|]. split; [|reflexivity].
  exists []. now rewrite app_nil_r.
Qed.

Lemma grown_trans s1 s2 s3 : grown s1 s2 -> grown s2 s3 -> grown s1 s3.
Proof.
  intros H12 H23 name t Ht.
  destruct (H12 name t Ht) as (t2 & Ht2 & Hs2 & [n2 Hr2] & He2).
  destruct (H23 name t2 Ht2) as (t3 & Ht3 & Hs3 & [n3 Hr3] & He3).
  exists t3. split; [exact Ht3|]. split; [now rewrite Hs3|]. split.
  - exists (n2 ++ n3). now rewrite Hr3, Hr2, app_assoc.
  - intros Hn. now rewrite (He3 Hn), (He2 Hn).
Qed.

Lemma create_table_grown name cols pk auto s :
  grown s (create_table name cols pk auto s).
Proof.
  unfold create_table. destruct (s !! name) eqn:E; [apply grown_refl|].
  intros n t Ht. exists t. split.
  - rewrite lookup_insert_ne; [exact Ht|]. intros ->. congruence.
  - split; [reflexivity|]. split; [|reflexivity].
    exists []. now rewrite app_nil_r.
Qed.

Lemma _create_tables_grown s : grown s (_create_tables s).
Proof.
  unfold _create_tables. generalize schema. intros l. revert s.
  induction l as [|[name [[cols pk] auto]] l IH]; intros s; cbn.
  - apply grown_refl.
  - eapply grown_trans; [apply create_table_grown|apply IH].
Qed.

(** [INSERT OR IGNORE] adds a row at the end or leaves the table alone. *)
Lemma insert_or_ignore_rows assign now t t' :
  insert_into OrIgnore assign now t = Ok t' ->
  shape t' = shape t /\ exists new_rows, trows t' = trows t ++ new_rows.
Proof.
  unfold insert_into. destruct (negb _); [discriminate|].
  destruct (build_row OrIgnore t assign now (tcols t)) as [r|].
  - destruct (existsb _ (trows t)); intros [= <-]; split; try reflexivity.
    + exists []. now rewrite app_nil_r.
    + now exists [r].
  - intros [= <-]. split; [reflexivity|]. exists []. now rewrite app_nil_r.
Qed.

Lemma insert_or_ignore_grown name ps now s s' :
  insert_stmt OrIgnore name ps now s = Ok s' ->
  name = "sport_codes" -> grown s s'.
Proof.
  unfold insert_stmt, on_table. intros H ->.
  destruct (s !! "sport_codes") as [t|] eqn:Et; [|discriminate].
  destruct (columns_exist t (map fst ps)); [|discriminate].
  destruct (bind_all now ps) as [assign|e]; [|discriminate]. cbn in H.
  destruct (insert_into OrIgnore assign now t) as [t'|e] eqn:Ei; [|discriminate].
  injection H as <-.
  destruct (insert_or_ignore_rows _ _ _ _ Ei) as [Hs Hr].
  intros n t0 Ht0. destruct (decide (n = "sport_codes")) as [->|Hn].
  - exists t'. rewrite lookup_insert_eq. rewrite Et in Ht0. injection Ht0 as <-.
    split; [reflexivity|]. split; [exact Hs|]. split; [exact Hr|congruence].
  - exists t0. rewrite lookup_insert_ne by congruence.
    split; [exact Ht0|]. split; [reflexivity|]. split; [|reflexivity].
    exists []. now rewrite app_nil_r.
Qed.

Lemma _init_sport_codes_grown now s : grown s (_init_sport_codes now s).
Proof.
  unfold _init_sport_codes. generalize default_codes. intros l. revert s.
  induction l as [|[[[code sport] season] stype] l IH]; intros s; cbn.
  - apply grown_refl.
  - destruct (insert_stmt OrIgnore "sport_codes" _ now s) as [s'|e] eqn:Ei.
    + eapply grown_trans; [|apply IH].
      now apply (insert_or_ignore_grown _ _ _ _ _ Ei).
    + apply IH.
Qed.

(** X2.  [Database(db_path)] loses nothing of the file it opens: every
    table of the file is still there with its declaration and its rows in
    their order; only [sport_codes] can have new rows after them.  The
    object starts open, with no transaction. *)
Theorem __init___keeps_rows (now : string) (file : store) :
  grown file (tables (__init__ now file))
  /\ conn_open (__init__ now file) = true
  /\ txn (__init__ now file) = None.
Proof.
  unfold __init__. cbn [tables conn_open txn].
  split; [|split; reflexivity].
  eapply grown_trans; [apply _create_tables_grown|apply _init_sport_codes_grown].
Qed.

(** ** Opening the same file again *)

(** The declaration [_create_tables] gives [sport_codes]. *)
Definition sport_codes_shape : list column * string * bool :=
  ([col "game_code"; col_nn "sport"; col_nn "season"; col_nn "season_type";
    col_ts "last_updated"], "game_code", false).

Definition declared_sport_codes (s : store) : Prop :=
  exists t, s !! "sport_codes" = Some t /\ shape t = sport_codes_shape.

(** [sport_codes] has a row for [code]. *)
Definition has_code (code : string) (s : store) : Prop :=
  exists t, s !! "sport_codes" = Some t
            /\ existsb (fun r => sql_eqb (row_get "game_code" r) (SText code))
                       (trows t) = true.

(** One row of the [executemany] of [_init_sport_codes]. *)
Definition init_code (now : string) (s : store)
    (c : string * string * Z * string) : store :=
  let '(code, sport, season, stype) := c in
  match insert_stmt OrIgnore "sport_codes"
          [("game_code", Bind (PStr code)); ("sport", Bind (PStr sport));
           ("season", Bind (PInt season)); ("season_type", Bind (PStr stype))]
          now s with
  | Ok s' => s'
  | Raise _ => s
  end.

Lemma _init_sport_codes_fold now s :
  _init_sport_codes now s = fold_left (init_code now) default_codes s.
Proof.
  unfold _init_sport_codes. generalize default_codes. intros l. revert s.
  induction l as [|[[[code sport] season] stype] l IH]; intros s; cbn;
    [reflexivity|apply IH].
Qed.

Definition fits (c : string * string * Z * string) : Prop :=
  - 2 ^ 63 <= c.1.2 < 2 ^ 63.

Lemma init_code_cases now s code sport season stype :
  declared_sport_codes s -> fits (code, sport, season, stype) ->
  exists t,
    s !! "sport_codes" = Some t /\ shape t = sport_codes_shape
    /\ init_code now s (code, sport, season, stype)
       = if existsb (fun r => sql_eqb (row_get "game_code" r) (SText code))
                    (trows t)
         then <["sport_codes" := t]> s
         else <["sport_codes" :=
                  Table (tcols t) (tpk t) (tauto t)
                    (trows t ++ [[("game_code", SText code);
                                  ("sport", SText sport);
                                  ("season", SInt season);
                                  ("season_type", SText stype);
                                  ("last_updated", SText now)]])
                    (tseq t)]> s.
Proof.
  intros (t & Ht & Hs) Hfit. exists t. split; [exact Ht|]. split; [exact Hs|].
  unfold init_code, insert_stmt, on_table. rewrite Ht.
  destruct t as [cols pk auto rows seq]. injection Hs as -> -> ->.
  unfold fits in Hfit. cbn in Hfit.
  assert (Hb : bind_param (PInt season) = Ok (SInt season)).
  { unfold bind_param.
    destruct (- 2 ^ 63 <=? season) eqn:E1; [|apply Z.leb_gt in E1; lia].
    destruct (season <? 2 ^ 63) eqn:E2; [reflexivity|apply Z.ltb_ge in E2; lia]. }
  cbn -[Z.pow bind_param]. rewrite Hb. cbn.
  unfold insert_into. cbn.
  destruct (existsb _ rows); reflexivity.
Qed.

Lemma init_code_declared now s c :
  declared_sport_codes s -> fits c -> declared_sport_codes (init_code now s c).
Proof.
  destruct c as [[[code sport] season] stype]. intros Hd Hfit.
  destruct (init_code_cases now s code sport season stype Hd Hfit)
    as (t & Ht & Hs & ->).
  destruct (existsb (fun r => sql_eqb (row_get "game_code" r) (SText code))
             (trows t)).
  - exists t. now rewrite lookup_insert_eq.
  - eexists. rewrite lookup_insert_eq. split; [reflexivity|exact Hs].
Qed.

Lemma init_code_has_code now s code sport season stype :
  declared_sport_codes s -> fits (code, sport, season, stype) ->
  has_code code (init_code now s (code, sport, season, stype)).
Proof.
  intros Hd Hfit.
  destruct (init_code_cases now s code sport season stype Hd Hfit)
    as (t & Ht & Hs & ->).
  destruct (existsb (fun r => sql_eqb (row_get "game_code" r) (SText code))
             (trows t)) eqn:Ex.
  - exists t. now rewrite lookup_insert_eq.
  - eexists. rewrite lookup_insert_eq. split; [reflexivity|]. cbn.
    rewrite existsb_app. cbn. rewrite String.eqb_refl. now rewrite !orb_true_r.
Qed.

Lemma init_code_keeps_code now s c code' :
  declared_sport_codes s -> fits c ->
  has_code code' s -> has_code code' (init_code now s c).
Proof.
  destruct c as [[[code sport] season] stype]. intros Hd Hfit (t' & Ht' & Hc).
  destruct (init_code_cases now s code sport season stype Hd Hfit)
    as (t & Ht & Hs & ->).
  rewrite Ht in Ht'. injection Ht' as <-.
  destruct (existsb (fun r => sql_eqb (row_get "game_code" r) (SText code))
             (trows t)).
  - exists t. now rewrite lookup_insert_eq.
  - eexists. rewrite lookup_insert_eq. split; [reflexivity|]. cbn.
    rewrite existsb_app, Hc. reflexivity.
Qed.

Lemma init_code_known now s code sport season stype :
  declared_sport_codes s -> fits (code, sport, season, stype) ->
  has_code code s -> init_code now s (code, sport, season, stype) = s.
Proof.
  intros Hd Hfit (t' & Ht' & Hc).
  destruct (init_code_cases now s code sport season stype Hd Hfit)
    as (t & Ht & Hs & ->).
  rewrite Ht in Ht'. injection Ht' as <-. rewrite Hc.
  now apply insert_id.
Qed.

(** After the loop every code of the list has its row. *)
Lemma init_codes_all now l :
  forall s, declared_sport_codes s -> Forall fits l ->
    declared_sport_codes (fold_left (init_code now) l s)
    /\ (forall code, has_code code s ->
                     has_code code (fold_left (init_code now) l s))
    /\ Forall (fun c => has_code c.1.1.1 (fold_left (init_code now) l s)) l.
Proof.
  induction l as [|c l IH]; intros s Hd Hfit; cbn.
  - split; [exact Hd|]. split; [auto|constructor].
  - inversion Hfit as [|? ? Hc Hl]; subst.
    destruct (IH (init_code now s c) (init_code_declared now s c Hd Hc) Hl)
      as (Hd' & Hkeep & Hall).
    split; [exact Hd'|]. split.
    + intros code Hcode. apply Hkeep. now apply init_code_keeps_code.
    + constructor; [|exact Hall]. apply Hkeep.
      destruct c as [[[code sport] season] stype]. now apply init_code_has_code.
Qed.

(** A second pass over codes that all have their rows changes nothing. *)
Lemma init_codes_known now l :
  forall s, declared_sport_codes s -> Forall fits l ->
    Forall (fun c => has_code c.1.1.1 s) l ->
    fold_left (init_code now) l s = s.
Proof.
  induction l as [|c l IH]; intros s Hd Hfit Hall; cbn; [reflexivity|].
  inversion Hfit; subst. inversion Hall; subst.
  destruct c as [[[code sport] season] stype].
  rewrite init_code_known by assumption. now apply IH.
Qed.

Lemma default_codes_fit : Forall fits default_codes.
Proof. repeat constructor; cbn; lia. Qed.

(** What [_create_tables] leaves under a name: the table that was there,
    else the empty table of the first declaration with that name. *)
Abbreviation create_all l s :=
  (fold_left (fun s '(name, (cols, pk, auto)) => create_table name cols pk auto s)
             l s) (only parsing).

Definition declared (l : list (string * (list column * string * bool)))
    (n : string) : option table :=
  match List.find (fun d => String.eqb d.1 n) l with
  | Some (_, (cols, pk, auto)) => Some (Table cols pk auto [] 0)
  | None => None
  end.

Lemma create_all_lookup l n :
  forall s, create_all l s !! n
            = match s !! n with Some t => Some t | None => declared l n end.
Proof.
  induction l as [|[name [[cols pk] auto]] l IH]; intros s; cbn.
  - now destruct (s !! n).
  - rewrite IH.
    unfold create_table, declared. cbn.
    destruct (String.eqb name n) eqn:E.
    + apply String.eqb_eq in E. subst n.
      destruct (s !! name) eqn:Es; [now rewrite Es|].
      now rewrite lookup_insert_eq.
    + apply String.eqb_neq in E.
      destruct (s !! name) eqn:Es; [reflexivity|].
      rewrite lookup_insert_ne by exact E. reflexivity.
Qed.

(** [CREATE TABLE IF NOT EXISTS] on a store that has all the tables. *)
Lemma create_all_present l :
  forall s, Forall (fun d => is_Some (s !! d.1)) l -> create_all l s = s.
Proof.
  induction l as [|[name [[cols pk] auto]] l IH]; intros s Hall; cbn;
    [reflexivity|].
  inversion Hall as [|? ? [t Ht] Hl]; subst. cbn in Ht.
  unfold create_table. rewrite Ht. now apply IH.
Qed.

Lemma grown_is_Some s s' n : grown s s' -> is_Some (s !! n) -> is_Some (s' !! n).
Proof. intros Hg [t Ht]. destruct (Hg n t Ht) as (t' & Ht' & _). eauto. Qed.

Lemma create_all_names l s :
  Forall (fun d => is_Some (create_all l s !! d.1)) l.
Proof.
  apply List.Forall_forall. intros [name [[cols pk] auto]] Hin.
  rewrite create_all_lookup. cbn [fst].
  destruct (s !! name); [eauto|]. unfold declared.
  destruct (List.find (fun d => String.eqb d.1 name) l)
    as [[n' [[c' p'] a']]|] eqn:Ef; [eauto|].
  exfalso. apply (List.find_none _ _ Ef) in Hin. cbn [fst] in Hin.
  now rewrite String.eqb_refl in Hin.
Qed.

Lemma _create_tables_declared s :
  (forall t, s !! "sport_codes" = Some t -> shape t = sport_codes_shape) ->
  declared_sport_codes (_create_tables s).
Proof.
  intros Hs. unfold declared_sport_codes.
  unfold _create_tables. rewrite create_all_lookup.
  destruct (s !! "sport_codes") as [t|] eqn:Et.
  - exists t. split; [reflexivity|]. now apply Hs.
  - exists (Table (sport_codes_shape.1.1) "game_code" false [] 0).
    split; [vm_compute; reflexivity|reflexivity].
Qed.

(** X3.  Opening the file a [Database] object has left gives the same
    content, at whatever time: no table is created and no default sport
    code is inserted again.  The file may have been empty or hold any
    tables, as long as a [sport_codes] table in it is declared as
    [_create_tables] declares it. *)
Theorem reopen_changes_nothing (now now' : string) (file : store) :
  (forall t, file !! "sport_codes" = Some t -> shape t = sport_codes_shape) ->
  __init__ now' (tables (__init__ now file)) = __init__ now file.
Proof.
  intros Hs. unfold __init__. cbn [tables]. f_equal.
  set (s1 := _create_tables file).
  assert (Hd1 : declared_sport_codes s1).
  { now apply _create_tables_declared. }
  rewrite (_init_sport_codes_fold now s1).
  destruct (init_codes_all now default_codes s1 Hd1 default_codes_fit)
    as (Hd2 & _ & Hall).
  set (s2 := fold_left (init_code now) default_codes s1) in *.
  assert (Hc : _create_tables s2 = s2).
  { unfold _create_tables. apply create_all_present.
    refine (List.Forall_impl _ _ (create_all_names schema file)).
    intros d Hd. apply (grown_is_Some s1 s2).
    - unfold s2. rewrite <- _init_sport_codes_fold.
      apply _init_sport_codes_grown.
    - unfold s1, _create_tables. exact Hd. }
  rewrite Hc, _init_sport_codes_fold.
  apply init_codes_known; [exact Hd2|exact default_codes_fit|exact Hall].
Qed.

Lemma reopen_changes_nothing_witness :
  (forall t, (∅ : store) !! "sport_codes" = Some t -> shape t = sport_codes_shape)
  /\ __init__ "2024-09-09 08:00:00" (tables (__init__ "2024-09-08 17:00:00" ∅))
     = __init__ "2024-09-08 17:00:00" ∅.
Proof.
  assert (H : forall t, (∅ : store) !! "sport_codes" = Some t ->
                        shape t = sport_codes_shape).
  { intros t Ht. rewrite lookup_empty in Ht. discriminate. }
  split; [exact H|].
  exact (reopen_changes_nothing "2024-09-08 17:00:00" "2024-09-09 08:00:00" ∅ H).
Defined.
End InitFacts.

(* ===================================================================== *)
(** * [save_sport_code]                                                  *)
(* ===================================================================== *)

Module SportCodeFacts.
Import Py Sql Conn Database.

(** X4.  [save_sport_code] stores nothing, whatever it is given: its
    statement names the columns [start_date] and [end_date], and on a
    [sport_codes] table without a [start_date] column (the table of
    [_create_tables] has none) the call ends in the handler: one error line,
    a rollback to the committed tables, and a normal return. *)
Theorem save_sport_code_stores_nothing (now : string) (code_data : pydict)
    (d : db) :
  conn_open d = true ->
  (forall t, visible d !! "sport_codes" = Some t ->
             has_column t "start_date" = false) ->
  exists e,
    save_sport_code now code_data d
    = (Ok tt, Db true (tables d) None, [LogError "Error saving sport code: " e]).
Proof.
  intros Hopen Hcols. unfold save_sport_code.
  rewrite (try_except_rollback _ _ d (try_block_save_sport_code now code_data) Hopen).
  unfold save_sport_code_try, Conn.bind, Conn.lift.
  destruct (dict_item "game_code" code_data) as [game_code|e]; [|eauto].
  destruct (dict_item "sport" code_data) as [sport|e]; [|eauto].
  destruct (dict_item "season" code_data) as [season|e]; [|eauto].
  destruct (dict_item "season_type" code_data) as [season_type|e]; [|eauto].
  unfold cursor_execute. rewrite Hopen.
  unfold insert_stmt, on_table.
  destruct (visible d !! "sport_codes") as [t|] eqn:Et; [|eauto].
  assert (Hc : columns_exist t
                 (map fst ([("game_code", Bind game_code); ("sport", Bind sport);
                            ("season", Bind season);
                            ("season_type", Bind season_type)]
                           ++ gets code_data ["start_date"; "end_date"])) = false).
  { cbn. rewrite (Hcols t eq_refl). now rewrite !andb_false_r. }
  rewrite Hc. cbn. eauto.
Qed.

Lemma save_sport_code_stores_nothing_witness :
  let code := [("game_code", PStr "461"); ("sport", PStr "nfl");
               ("season", PInt 2025); ("season_type", PStr "regular")] in
  conn_open fresh_db = true
  /\ exists e,
       save_sport_code "2025-09-04 20:00:00" code fresh_db
       = (Ok tt, Db true (tables fresh_db) None,
          [LogError "Error saving sport code: " e]).
Proof.
  cbv zeta. split; [reflexivity|].
  refine (save_sport_code_stores_nothing _ _ fresh_db eq_refl _).
  intros t Ht. vm_compute in Ht. injection Ht as <-. reflexivity.
Defined.
End SportCodeFacts.

(* ===================================================================== *)
(** * The queries that name columns the tables do not have               *)
(* ===================================================================== *)

Module QueryFacts.
Import Py Sql Conn Database Queries.

(** The table [name], where the connection sees one, has no column [c]. *)
Definition lacks (d : db) (name c : string) : Prop :=
  forall t, visible d !! name = Some t -> has_column t c = false.

Section Rows.
Variable order_by : string -> list row -> list row.
Variable like : string -> sqlval -> bool.
Variable dict_of_row : row -> result pydict.

Lemma select_rows_missing_column d name cs c run :
  lacks d name c -> In c cs ->
  select_rows name cs run (visible d) = Raise OperationalError.
Proof.
  intros Hl Hin. unfold select_rows, query_table.
  destruct (visible d !! name) as [t|] eqn:Et; [|reflexivity].
  assert (Hc : columns_exist t cs = false).
  { unfold columns_exist. apply not_true_is_false. intros Hall.
    rewrite forallb_forall in Hall. specialize (Hall c Hin).
    rewrite (Hl t Et) in Hall. discriminate. }
  now rewrite Hc.
Qed.

Lemma get_all_missing_column d name :
  conn_open d = true -> lacks d name "created_at" ->
  get_all order_by dict_of_row name d = (Raise OperationalError, d, []).
Proof.
  intros Hopen Hl. unfold get_all, Conn.bind, conn_cursor, cursor_query.
  rewrite Hopen. cbn.
  rewrite (select_rows_missing_column d name _ "created_at");
    [now rewrite ?Hopen|exact Hl|now left].
Qed.

(** X5.  On an open connection, [get_all_games], [get_all_leagues] and
    [get_all_teams] raise [OperationalError] when their table has no
    [created_at] column, and so do [search_players] and [get_team_players]
    when [players] has no [editorial_team_full_name] or
    [editorial_team_key] column, for every argument and every content: the
    statement cannot be prepared.  None of them catches the exception. *)
Theorem queries_on_missing_columns_raise (d : db) :
  conn_open d = true ->
  (lacks d "games" "created_at" ->
   get_all_games order_by dict_of_row d = (Raise OperationalError, d, []))
  /\ (lacks d "leagues" "created_at" ->
      get_all_leagues order_by dict_of_row d = (Raise OperationalError, d, []))
  /\ (lacks d "teams" "created_at" ->
      get_all_teams order_by dict_of_row d = (Raise OperationalError, d, []))
  /\ (lacks d "players" "editorial_team_full_name" ->
      forall search_term limit,
        search_players like dict_of_row search_term limit d
        = (Raise OperationalError, d, []))
  /\ (lacks d "players" "editorial_team_key" ->
      forall team_key,
        get_team_players dict_of_row team_key d
        = (Raise OperationalError, d, [])).
Proof.
  intros Hopen.
  repeat match goal with |- _ /\ _ => split end.
  - now apply get_all_missing_column.
  - now apply get_all_missing_column.
  - now apply get_all_missing_column.
  - intros Hl search_term limit.
    unfold search_players, Conn.bind, conn_cursor, cursor_query. rewrite Hopen.
    cbn.
    rewrite (select_rows_missing_column d "players" _ "editorial_team_full_name");
      [now rewrite ?Hopen|exact Hl|right; now left].
  - intros Hl team_key.
    unfold get_team_players, Conn.bind, conn_cursor, cursor_query. rewrite Hopen.
    cbn.
    rewrite (select_rows_missing_column d "players" _ "editorial_team_key");
      [now rewrite ?Hopen|exact Hl|now left].
Qed.

End Rows.

(** How to check [lacks] on the fresh database. *)
Lemma fresh_db_lacks name c :
  match visible fresh_db !! name with
  | Some t => has_column t c
  | None => false
  end = false ->
  lacks fresh_db name c.
Proof. intros H t Ht. now rewrite Ht in H. Qed.

Lemma queries_on_missing_columns_raise_witness :
  let order_by := fun (_ : string) (rows : list row) => rows in
  let like := fun (_ : string) (_ : sqlval) => true in
  let dict_of_row := fun (_ : row) => @Raise pydict TypeError in
  conn_open fresh_db = true
  /\ get_all_games order_by dict_of_row fresh_db
     = (Raise OperationalError, fresh_db, [])
  /\ get_all_leagues order_by dict_of_row fresh_db
     = (Raise OperationalError, fresh_db, [])
  /\ get_all_teams order_by dict_of_row fresh_db
     = (Raise OperationalError, fresh_db, [])
  /\ search_players like dict_of_row "Pat" 10 fresh_db
     = (Raise OperationalError, fresh_db, [])
  /\ get_team_players dict_of_row (PStr "449.l.1.t.1") fresh_db
     = (Raise OperationalError, fresh_db, []).
Proof.
  cbv zeta. split; [reflexivity|].
  pose proof (queries_on_missing_columns_raise
                (fun _ rows => rows) (fun _ _ => true)
                (fun _ => Raise TypeError) fresh_db eq_refl)
    as (H1 & H2 & H3 & H4 & H5).
  split; [apply H1, fresh_db_lacks; vm_compute; reflexivity|].
  split; [apply H2, fresh_db_lacks; vm_compute; reflexivity|].
  split; [apply H3, fresh_db_lacks; vm_compute; reflexivity|].
  split; [apply H4, fresh_db_lacks; vm_compute; reflexivity|].
  apply H5, fresh_db_lacks; vm_compute; reflexivity.
Defined.
End QueryFacts.

(* ===================================================================== *)
(** * [save_player]: what a successful save leaves                       *)
(* ===================================================================== *)

Module PlayerFacts.
Import Py Sql Conn Database.







End PlayerFacts.

(* ===================================================================== *)
(** * [save_league_draft_results]: what a successful batch leaves        *)
(* ===================================================================== *)

Module DraftFacts.
Import Py Sql Conn Database.














End DraftFacts.

(* ===================================================================== *)
(** * [make_request]: the plain path, and what a call can do at most     *)
(* ===================================================================== *)

Module RequestFacts.
Import Py Api YahooFantasyAPI.

(** ** [make_request] when the first answer is not a 401 *)





(** ** What a call of [make_request] can do at most *)






End RequestFacts.

(* ===================================================================== *)
(** * [_refresh_access_token]: what becomes of the token                 *)
(* ===================================================================== *)

Module RefreshFacts.
Import Py Api YahooFantasyAPI.

(** ** [dict.update] *)



(** ** [_refresh_access_token] *)


End RefreshFacts.

(* ===================================================================== *)
(** * [get_games]: the games it returns                                  *)
(* ===================================================================== *)

Module GamesFacts.
Import Py Api YahooFantasyAPI.

(** ** [sorted] keeps the elements *)

Lemma insert_by_key_perm {A} (x : A * (pyval * Z)) l :
  forall r, insert_by_key x l = Ok r -> Permutation (x :: l) r.
Proof.
  induction l as [|y l IH]; intros r; cbn.
  - intros [= <-]. reflexivity.
  - destruct (key_lt y.2 x.2) as [[|]|]; [| |discriminate].
    + destruct (insert_by_key x l) as [r'|e]; cbn; [|discriminate].
      intros [= <-]. rewrite perm_swap. constructor. now apply IH.
    + intros [= <-]. reflexivity.
Qed.

Lemma sort_by_key_perm {A} (l : list (A * (pyval * Z))) :
  forall r, sort_by_key l = Ok r -> Permutation l r.
Proof.
  induction l as [|x l IH]; intros r; cbn.
  - intros [= <-]. reflexivity.
  - destruct (sort_by_key l) as [r'|e]; cbn; [|discriminate].
    intros Hr. rewrite <- (insert_by_key_perm x r' r Hr).
    constructor. now apply IH.
Qed.

Lemma with_keys_fst {A} (key : A -> result (pyval * Z)) l :
  forall r, with_keys key l = Ok r -> map fst r = l.
Proof.
  induction l as [|x l IH]; intros r; cbn.
  - now intros [= <-].
  - destruct (key x) as [k|e]; cbn; [|discriminate].
    destruct (with_keys key l) as [r'|e]; cbn; [|discriminate].
    intros [= <-]. cbn. f_equal. now apply IH.
Qed.

Lemma py_sorted_perm {A} (key : A -> result (pyval * Z)) l r :
  py_sorted key l = Ok r -> Permutation l r.
Proof.
  unfold py_sorted.
  destruct (with_keys key l) as [keyed|e] eqn:Ek; cbn; [|discriminate].
  destruct (sort_by_key keyed) as [sorted|e] eqn:Es; cbn; [|discriminate].
  intros [= <-]. rewrite <- (with_keys_fst key l keyed Ek).
  apply Permutation_map. now apply sort_by_key_perm.
Qed.

(** ** The season filter *)

(** A game passes the filter of [get_games]: no seasons were asked for, or
    its season is one of them. *)
Definition wanted (seasons : list Z) (game_info : pydict) : Prop :=
  seasons = [] \/ season_listed seasons game_info = true.

Lemma game_of_entry_wanted E seasons entry game_info :
  game_of_entry E seasons entry = Some game_info -> wanted seasons game_info.
Proof.
  destruct entry as [game_id game_data]. unfold game_of_entry, wanted.
  destruct (isdigit E game_id); [|discriminate].
  destruct game_data as [| | | | |gd]; try discriminate.
  destruct (dict_has "game" gd); [|discriminate].
  destruct (dict_get "game" gd) as [| | | |[|[| | | | |gi] rest]|];
    try discriminate.
  destruct seasons as [|y seasons].
  - intros _. now left.
  - destruct (season_listed (y :: seasons) gi) eqn:El; [|discriminate].
    intros [= <-]. now right.
Qed.

Lemma games_in_response_wanted E seasons response found :
  games_in_response E seasons response = Ok found ->
  Forall (wanted seasons) found.
Proof.
  unfold games_in_response.
  destruct (negb (truthy response)); [intros [= <-]; constructor|].
  destruct (py_contains "fantasy_content" response) as [has|e]; cbn;
    [|discriminate].
  destruct (negb has); [intros [= <-]; constructor|].
  destruct (py_item "fantasy_content" response) as [fc|e]; cbn; [|discriminate].
  destruct (py_get_or "games" (PDict []) fc) as [games|e]; cbn; [|discriminate].
  destruct games as [| | | | |items]; intros [= <-]; try constructor.
  induction items as [|entry items IH]; cbn; [constructor|].
  destruct (game_of_entry E seasons entry) as [gi|] eqn:Eg; cbn; [|exact IH].
  constructor; [|exact IH]. now apply (game_of_entry_wanted E seasons entry).
Qed.

Lemma collect_games_wanted E seasons sport_codes :
  forall games_list c collected c',
    Forall (wanted seasons) games_list ->
    collect_games E seasons sport_codes games_list c = (Ok collected, c') ->
    Forall (wanted seasons) collected.
Proof.
  induction sport_codes as [|sport rest IH]; intros games_list c collected c' Hl;
    cbn [collect_games].
  - unfold ret. now intros [= <- _].
  - unfold bind at 1.
    destruct (make_request E _ None c) as [[response|e] c1]; [|discriminate].
    unfold bind at 1, lift.
    destruct (games_in_response E seasons response) as [found|e] eqn:Ef;
      [|discriminate].
    apply IH. apply Forall_app. split; [exact Hl|].
    now apply (games_in_response_wanted E seasons response).
Qed.

(** The sport codes [get_games] asks for. *)
Definition requested (sport_codes : sport_codes_arg) : list string :=
  match sport_codes with
  | OneCode code => [code]
  | NoCodes | Codes [] => SUPPORTED_SPORTS
  | Codes codes => codes
  end.

(** X11.  The list [get_games] returns holds exactly the games its loop
    collected from the answers for the requested sport codes (all four
    supported sports when none is given), each as often as collected: the
    sort drops and adds nothing.  When seasons are given, every returned
    game has its [season] among them (as strings). *)
Theorem get_games_keeps_wanted_games (E : env) (sport_codes : sport_codes_arg)
    (seasons : list Z) (c c' : client) (games : list pydict) :
  get_games E sport_codes seasons c = (Ok games, c') ->
  exists collected,
    collect_games E seasons (requested sport_codes) [] c = (Ok collected, c')
    /\ Permutation collected games
    /\ Forall (wanted seasons) games.
Proof.
  unfold get_games, bind, lift. cbv zeta. fold (requested sport_codes).
  destruct (collect_games E seasons (requested sport_codes) [] c)
    as [[collected|e] c1] eqn:Ec; [|discriminate].
  intros [= H <-]. exists collected. split; [reflexivity|].
  pose proof (py_sorted_perm _ _ _ H) as Hp. split; [exact Hp|].
  rewrite <- Hp.
  apply (collect_games_wanted E seasons (requested sport_codes) [] c collected c1);
    [constructor|exact Ec].
Qed.

Lemma get_games_keeps_wanted_games_witness :
  let out := get_games two_sports (Codes ["nfl"; "mlb"]) [2024] signed_in in
  let games := [game_info "mlb" "2024" "431"; game_info "nfl" "2024" "449"] in
  out = (Ok games, out.2)
  /\ exists collected,
       collect_games two_sports [2024] ["nfl"; "mlb"] [] signed_in
       = (Ok collected, out.2)
       /\ Permutation collected games
       /\ Forall (wanted [2024]) games.
Proof.
  cbv zeta. split; [vm_compute; reflexivity|].
  refine (get_games_keeps_wanted_games two_sports (Codes ["nfl"; "mlb"]) [2024]
            signed_in _ _ _).
  vm_compute; reflexivity.
Defined.
End GamesFacts.

(* ===================================================================== *)
(** * [get_players]: the players of a page                               *)
(* ===================================================================== *)

Module PlayersFacts.
Import Py Api YahooFantasyAPI.

(** ** How many players [get_players] can return *)

Lemma scan_players_length existing pd indices :
  forall acc acc',
    scan_players existing pd indices acc = Ok acc' ->
    (length acc'.1 <= length acc.1 + length indices)%nat.
Proof.
  induction indices as [|idx rest IH]; intros acc acc' H.
  - injection H as <-. lia.
  - change (scan_players existing pd (idx :: rest) acc) with
      (match dict_lookup (str_of_Z (Z.of_nat idx)) pd with
       | None => Ok acc
       | Some entry =>
           Py.bind (py_get_or "player" (PList []) entry) (fun player_data =>
             match player_data with
             | PList ((_ :: _) as items) =>
                 if is_new_player existing (fold_left add_item items [])
                 then scan_players existing pd rest
                        (acc.1 ++ [fold_left add_item items []], acc.2 + 1)
                 else scan_players existing pd rest acc
             | _ => scan_players existing pd rest acc
             end)
       end) in H.
    cbn [length].
    destruct (dict_lookup _ pd) as [entry|]; [|injection H as <-; lia].
    destruct (py_get_or "player" (PList []) entry) as [pdata|e];
      [|discriminate H].
    unfold Py.bind in H.
    destruct pdata as [| | | |[|item items]|];
      try (specialize (IH acc acc' H); lia).
    destruct (is_new_player existing (fold_left add_item (item :: items) []));
      [|specialize (IH acc acc' H); lia].
    specialize (IH _ acc' H). cbn [fst] in IH. rewrite length_app in IH.
    cbn in IH. lia.
Qed.

Lemma scan_games_length E count existing entries :
  forall acc total acc' total',
    scan_games E count existing entries acc total = Ok (acc', total') ->
    (length acc'.1 <= length acc.1 + length entries * Z.to_nat count)%nat.
Proof.
  induction entries as [|[k game_data] rest IH]; intros acc total acc' total' H.
  - injection H as <- _. cbn. lia.
  - assert (Hskip : scan_games E count existing rest acc total = Ok (acc', total') ->
                    (length acc'.1
                     <= length acc.1 + length ((k, game_data) :: rest) * Z.to_nat count)%nat).
    { intros H'. specialize (IH acc total acc' total' H'). cbn [length]. lia. }
    change (scan_games E count existing ((k, game_data) :: rest) acc total) with
      (match game_data with
       | PDict gd =>
           if dict_has "game" gd then
             match dict_get "game" gd with
             | PList (_ :: second :: _) =>
                 Py.bind (py_get_or "players" (PDict []) second) (fun players_data =>
                   if negb (truthy players_data) then
                     scan_games E count existing rest acc total
                   else
                     match players_data with
                     | PDict pd =>
                         Py.bind (py_int (int_of_str E)
                                    (dict_get_or "count" (PInt 0) pd)) (fun total' =>
                         Py.bind (scan_players existing pd
                                    (seq 0 (Z.to_nat count)) acc) (fun acc' =>
                         scan_games E count existing rest acc' total'))
                     | _ => scan_games E count existing rest acc total
                     end)
             | _ => scan_games E count existing rest acc total
             end
           else scan_games E count existing rest acc total
       | _ => scan_games E count existing rest acc total
       end) in H.
    destruct game_data as [| | | | |gd]; try exact (Hskip H).
    destruct (dict_has "game" gd); [|exact (Hskip H)].
    destruct (dict_get "game" gd) as [| | | |[|first [|second more]]|];
      try exact (Hskip H).
    destruct (py_get_or "players" (PDict []) second) as [pdata|e];
      [|discriminate H].
    unfold Py.bind at 1 in H.
    destruct (negb (truthy pdata)); [exact (Hskip H)|].
    destruct pdata as [| | | | |pd]; try exact (Hskip H).
    destruct (py_int (int_of_str E) (dict_get_or "count" (PInt 0) pd)) as [t|e];
      [|discriminate H].
    unfold Py.bind at 1 in H.
    destruct (scan_players existing pd (seq 0 (Z.to_nat count)) acc) as [acc1|e] eqn:Es;
      [|discriminate H].
    unfold Py.bind in H.
    specialize (IH acc1 t acc' total' H).
    pose proof (scan_players_length existing pd _ acc acc1 Es) as Hl.
    rewrite length_seq in Hl. cbn [length]. lia.
Qed.

(** The number of games the response lists. *)
Definition games_listed (response : pyval) : nat :=
  match py_item "fantasy_content" response with
  | Ok fantasy_content =>
      match py_get_or "games" (PDict []) fantasy_content with
      | Ok (PDict entries) => length entries
      | _ => 0%nat
      end
  | Raise _ => 0%nat
  end.

Lemma players_of_response_keys E start count existing response page :
  players_of_response E start count existing response = Ok page ->
  counted existing (players page, new_players_found page)
  /\ (length (players page) <= games_listed response * Z.to_nat count)%nat.
Proof.
  intros H.
  assert (Hempty : counted existing (players empty_page,
                                     new_players_found empty_page)
                   /\ (length (players empty_page)
                       <= games_listed response * Z.to_nat count)%nat).
  { cbn. split; [split; [reflexivity|constructor]|lia]. }
  unfold players_of_response in H. unfold games_listed.
  destruct (negb (truthy response)); [now injection H as <-|].
  destruct (py_contains "fantasy_content" response) as [has|e]; cbn in H;
    [|discriminate].
  destruct (negb has); [now injection H as <-|].
  destruct (py_item "fantasy_content" response) as [fc|e]; cbn in H;
    [|discriminate].
  destruct (py_get_or "games" (PDict []) fc) as [games|e]; cbn in H;
    [|discriminate].
  destruct games as [| | | | |[|entry entries]]; try (now injection H as <-).
  destruct (scan_games E count existing (entry :: entries) ([], 0) 0)
    as [[[pl nf] total]|e] eqn:Es; cbn in H; [|discriminate].
  injection H as <-. cbn [players new_players_found]. split.
  - apply (scan_games_counted E count existing (entry :: entries) ([], 0) 0
             (pl, nf) total); [|exact Es].
    split; [reflexivity|constructor].
  - apply (scan_games_length E count existing (entry :: entries) ([], 0) 0
             (pl, nf) total Es).
Qed.

(** X12.  Every player [get_players] returns has a [player_key] that is
    not empty, and the page holds at most [count] players for each game the
    response lists (none for [count <= 0]). *)
Theorem get_players_keys_and_count (E : env) (sport_code : string)
    (start count : Z) (existing : option (list string)) (c c' : client)
    (page : players_page) :
  get_players E sport_code start count existing c = (Ok page, c') ->
  Forall (fun p => truthy (dict_get "player_key" p) = true) (players page)
  /\ exists response,
       (length (players page) <= games_listed response * Z.to_nat count)%nat
       /\ (make_request E
             ("/games;game_keys=" +:+ sport_code +:+ "/players;start="
              +:+ str_of_Z start +:+ ";count=" +:+ str_of_Z count) None c).1
          = Ok response.
Proof.
  intros H. unfold get_players, bind, lift in H.
  destruct (make_request E _ None c) as [[response|e] c1]; [|discriminate].
  injection H as H _.
  destruct (players_of_response_keys E start count existing response page H)
    as [[_ Hnew] Hlen].
  split.
  - cbn in Hnew. eapply List.Forall_impl; [|exact Hnew].
    intros p Hp. unfold is_new_player in Hp. now apply andb_prop in Hp as [Hk _].
  - exists response. split; [exact Hlen|reflexivity].
Qed.

Lemma get_players_keys_and_count_witness :
  let out := get_players two_players "nfl" 0 25 None signed_in in
  let page := PlayersPage
                [[("player_key", PStr "449.p.100"); ("name", PStr "A. Back")];
                 [("player_key", PStr "449.p.200"); ("position", PStr "WR")]]
                40 2 true in
  out = (Ok page, out.2)
  /\ Forall (fun p => truthy (dict_get "player_key" p) = true) (players page)
  /\ exists response,
       (length (players page) <= games_listed response * Z.to_nat 25)%nat
       /\ (make_request two_players
             ("/games;game_keys=" +:+ "nfl" +:+ "/players;start="
              +:+ str_of_Z 0 +:+ ";count=" +:+ str_of_Z 25) None signed_in).1
          = Ok response.
Proof.
  cbv zeta. split; [vm_compute; reflexivity|].
  refine (get_players_keys_and_count two_players "nfl" 0 25 None signed_in _ _ _).
  vm_compute; reflexivity.
Defined.
End PlayersFacts.

(* ===================================================================== *)
(** * [save_league_game]: rows are updated in place or added            *)
(* ===================================================================== *)

Module GameFacts.
Import Py Sql Conn Database Upsert.





End GameFacts.

(* ===================================================================== *)
(** * What a save method can write                                      *)
(* ===================================================================== *)

Module FrameFacts.
Import Py Sql Conn Database.

(** The declaration of a table. *)
Definition shape (t : table) : list column * string * bool :=
  (tcols t, tpk t, tauto t).

(** [s'] differs from [s] in the rows of the tables [names] at most: every
    other table is the same, and no table is created, dropped or declared
    anew. *)
Definition rows_of_only (names : list string) (s s' : store) : Prop :=
  (forall name, ~ In name names -> s' !! name = s !! name)
  /\ (forall name, shape <$> (s' !! name) = shape <$> (s !! name)).

Lemma rows_of_only_refl names s : rows_of_only names s s.
Proof. now split. Qed.

Lemma rows_of_only_trans names s1 s2 s3 :
  rows_of_only names s1 s2 -> rows_of_only names s2 s3 ->
  rows_of_only names s1 s3.
Proof.
  intros [F1 S1] [F2 S2]. split; intros name.
  - intros Hn. now rewrite (F2 name Hn), (F1 name Hn).
  - now rewrite S2, S1.
Qed.

Lemma on_table_rows name names f s s' :
  In name names ->
  (forall t t', f t = Ok t' -> shape t' = shape t) ->
  on_table name f s = Ok s' -> rows_of_only names s s'.
Proof.
  intros Hin Hf. unfold on_table.
  destruct (s !! name) as [t|] eqn:Et; [|discriminate].
  destruct (f t) as [t'|e] eqn:Ef; cbn; [|discriminate].
  intros [= <-]. split; intros n.
  - intros Hn. apply lookup_insert_ne. intros ->. contradiction.
  - destruct (decide (name = n)) as [<-|Hne].
    + rewrite lookup_insert_eq, Et. cbn. f_equal. now apply Hf.
    + now rewrite lookup_insert_ne.
Qed.

Lemma insert_into_shape mode assign now t t' :
  insert_into mode assign now t = Ok t' -> shape t' = shape t.
Proof.
  unfold insert_into. destruct (negb _); [discriminate|].
  destruct (build_row mode t assign now (tcols t)) as [r|].
  - destruct (existsb _ (trows t)); destruct mode;
      try discriminate; now intros [= <-].
  - destruct mode; try discriminate. now intros [= <-].
Qed.

Lemma update_where_shape sets cond t t' :
  update_where sets cond t = Ok t' -> shape t' = shape t.
Proof.
  unfold update_where. destruct (negb _); [discriminate|].
  destruct (existsb _ _); [discriminate|]. now intros [= <-].
Qed.

Lemma insert_stmt_rows mode name names ps now s s' :
  In name names ->
  insert_stmt mode name ps now s = Ok s' -> rows_of_only names s s'.
Proof.
  intros Hin. unfold insert_stmt. apply on_table_rows; [exact Hin|].
  intros t t'. destruct (columns_exist t (map fst ps)); [|discriminate].
  destruct (bind_all now ps) as [assign|e]; cbn; [|discriminate].
  apply insert_into_shape.
Qed.

Lemma update_stmt_rows name names sets cond now s s' :
  In name names ->
  update_stmt name sets cond now s = Ok s' -> rows_of_only names s s'.
Proof.
  intros Hin. unfold update_stmt. apply on_table_rows; [exact Hin|].
  intros t t'. destruct (columns_exist t _); [|discriminate].
  destruct (bind_all now sets) as [sets'|e]; cbn; [|discriminate].
  destruct (bind_all now cond) as [cond'|e]; cbn; [|discriminate].
  apply update_where_shape.
Qed.

(** A computation inside the transaction that writes rows of [names] at
    most. *)
Definition writes_only {A} (names : list string) (m : DB A) : Prop :=
  forall d, rows_of_only names (visible d) (visible (m d).1.2).

Lemma writes_only_ret {A} names (a : A) : writes_only names (ret a).
Proof. intros d. apply rows_of_only_refl. Qed.

Lemma writes_only_raise {A} names e : writes_only names (@raise A e).
Proof. intros d. apply rows_of_only_refl. Qed.

Lemma writes_only_lift {A} names (r : result A) : writes_only names (lift r).
Proof. intros d. apply rows_of_only_refl. Qed.

Lemma writes_only_cursor_query {A} names (q : store -> result A) :
  writes_only names (cursor_query q).
Proof.
  intros d. unfold cursor_query.
  destruct (conn_open d); apply rows_of_only_refl.
Qed.

Lemma writes_only_conn_cursor names : writes_only names conn_cursor.
Proof.
  intros d. unfold conn_cursor. destruct (conn_open d); apply rows_of_only_refl.
Qed.

Lemma writes_only_conn_begin names : writes_only names conn_begin.
Proof.
  intros d. unfold conn_begin.
  destruct d as [[] t [x|]]; cbn; apply rows_of_only_refl.
Qed.

Lemma writes_only_insert mode name names ps now :
  In name names ->
  writes_only names (cursor_execute (insert_stmt mode name ps now)).
Proof.
  intros Hin d. unfold cursor_execute.
  destruct (conn_open d); [|apply rows_of_only_refl].
  destruct (insert_stmt mode name ps now (visible d)) as [s'|e] eqn:Es;
    cbn; [|apply rows_of_only_refl].
  now apply (insert_stmt_rows mode name names ps now).
Qed.

Lemma writes_only_update name names sets cond now :
  In name names ->
  writes_only names (cursor_execute (update_stmt name sets cond now)).
Proof.
  intros Hin d. unfold cursor_execute.
  destruct (conn_open d); [|apply rows_of_only_refl].
  destruct (update_stmt name sets cond now (visible d)) as [s'|e] eqn:Es;
    cbn; [|apply rows_of_only_refl].
  now apply (update_stmt_rows name names sets cond now).
Qed.

Lemma writes_only_bind {A B} names (m : DB A) (k : A -> DB B) :
  writes_only names m -> (forall a, writes_only names (k a)) ->
  writes_only names (Conn.bind m k).
Proof.
  intros Hm Hk d. unfold Conn.bind. specialize (Hm d).
  destruct (m d) as [[[a|e] d1] l1]; cbn in *; [|exact Hm].
  specialize (Hk a d1). destruct (k a d1) as [[r d2] l2]; cbn in *.
  now apply (rows_of_only_trans names _ (visible d1)).
Qed.

Lemma writes_only_save_team_stats names now team_data items :
  In "team_stats" names ->
  writes_only names (save_team_stats now team_data items).
Proof.
  intros Hin. induction items as [|[stat_key stat_value] items IH];
    cbn [save_team_stats].
  - apply writes_only_ret.
  - apply writes_only_bind; [|intros _; exact IH].
    destruct (negb _); [|apply writes_only_ret].
    apply writes_only_bind; [apply writes_only_lift|intros ?].
    now apply writes_only_insert.
Qed.

Lemma writes_only_save_draft_rows names now rows :
  In "league_draft_results" names ->
  writes_only names (save_draft_rows now rows).
Proof.
  intros Hin. induction rows as [|r rows IH]; cbn [save_draft_rows].
  - apply writes_only_ret.
  - repeat (apply writes_only_bind; [apply writes_only_lift|intros ?]).
    apply writes_only_bind; [|intros _; exact IH].
    now apply writes_only_insert.
Qed.

Ltac listed := cbn; tauto.

Ltac writes_only :=
  repeat first
    [ apply writes_only_ret | apply writes_only_raise
    | apply writes_only_lift | apply writes_only_cursor_query
    | apply writes_only_conn_cursor | apply writes_only_conn_begin
    | apply writes_only_insert; listed
    | apply writes_only_update; listed
    | apply writes_only_save_team_stats; listed
    | apply writes_only_save_draft_rows; listed
    | apply writes_only_bind; [|intros ?]
    | match goal with
      | |- writes_only _ (if ?b then _ else _) => destruct b
      | |- writes_only _ (match ?x with _ => _ end) => destruct x
      end ].

(** A [try] block on an open connection: when it returns it has committed,
    and the committed content is what the connection saw before with other
    rows in [names] at most; when it raises it has committed nothing. *)
Definition block_writes (names : list string) (m : DB unit) : Prop :=
  forall d, conn_open d = true ->
    match (m d).1.1 with
    | Ok _ => txn (m d).1.2 = None
              /\ rows_of_only names (visible d) (tables (m d).1.2)
    | Raise _ => tables (m d).1.2 = tables d
    end.

Lemma block_writes_commit names : block_writes names conn_commit.
Proof.
  intros d Hopen. unfold conn_commit. rewrite Hopen. cbn.
  split; [reflexivity|apply rows_of_only_refl].
Qed.

Lemma block_writes_bind {A} names (m : DB A) (k : A -> DB unit) :
  pending_only m -> writes_only names m ->
  (forall a, block_writes names (k a)) ->
  block_writes names (Conn.bind m k).
Proof.
  intros Hp Hw Hk d Hopen. unfold Conn.bind.
  destruct (Hp d) as (Ht & Ho & _). specialize (Hw d).
  destruct (m d) as [[[a|e] d1] l1]; cbn in *; [|exact Ht].
  rewrite Hopen in Ho. specialize (Hk a d1 Ho).
  destruct (k a d1) as [[[[]|e] d2] l2]; cbn in *.
  - destruct Hk as [Hx Hr]. split; [exact Hx|].
    now apply (rows_of_only_trans names _ (visible d1)).
  - now rewrite Hk.
Qed.

Ltac block_writes :=
  repeat first
    [ apply block_writes_commit
    | apply block_writes_bind; [pending|writes_only|intros ?]
    | match goal with
      | |- block_writes _ (match ?x with _ => _ end) => destruct x
      end ].

(** What a save method leaves, on an open connection: no transaction, and
    as committed content either what the connection saw before the call
    with other rows in [names] at most (the save went through), or the
    committed content of before (it failed and rolled back). *)
Definition saves_rows_of (names : list string) (m : DB unit) : Prop :=
  forall d, conn_open d = true ->
    txn (m d).1.2 = None
    /\ (rows_of_only names (visible d) (tables (m d).1.2)
        \/ tables (m d).1.2 = tables d).

Lemma saves_rows_of_rollback names body msg :
  try_block body -> block_writes names body ->
  saves_rows_of names
    (try_except body (fun e => logger_error msg e ;;; conn_rollback)%db).
Proof.
  intros Hb Hw d Hopen.
  rewrite (try_except_rollback body msg d Hb Hopen).
  specialize (Hw d Hopen).
  destruct (body d) as [[[[]|e] d1] l1]; cbn in *.
  - destruct Hw as [Hx Hr]. split; [exact Hx|now left].
  - split; [reflexivity|now right].
Qed.

Lemma saves_rows_of_reraise names body msg :
  try_block body -> block_writes names body ->
  saves_rows_of names
    (try_except body
       (fun e => logger_error msg e ;;; conn_rollback ;;; raise e)%db).
Proof.
  intros Hb Hw d Hopen.
  rewrite (try_except_reraise body msg d Hb Hopen).
  specialize (Hw d Hopen).
  destruct (body d) as [[[[]|e] d1] l1]; cbn in *.
  - destruct Hw as [Hx Hr]. split; [exact Hx|now left].
  - split; [reflexivity|now right].
Qed.

(** X14.  On an open connection a save method ends with no transaction
    open and writes rows of its own table only ([save_team] of [teams],
    [team_managers] and [team_stats]): after it, the committed content is
    either what the connection saw before the call, with other rows in
    that table at most, or, when the save failed, the committed content of
    before.  No save method creates or drops a table or changes a
    declaration. *)
Theorem save_methods_write_their_tables (now : string) :
  (forall x, saves_rows_of ["players"] (save_player now x))
  /\ (forall x, saves_rows_of ["teams"; "team_managers"; "team_stats"]
                  (save_team now x))
  /\ (forall x, saves_rows_of ["leagues"] (save_league now x))
  /\ (forall x, saves_rows_of ["games"] (save_game now x))
  /\ (forall x, saves_rows_of ["league_standings"]
                  (save_league_standings now x))
  /\ (forall x, saves_rows_of ["league_settings"]
                  (save_league_settings now x))
  /\ (forall x, saves_rows_of ["league_scoreboard"]
                  (save_league_scoreboard now x))
  /\ (forall x, saves_rows_of ["league_rosters"] (save_league_roster now x))
  /\ (forall x, saves_rows_of ["league_points"] (save_league_points now x))
  /\ (forall x, saves_rows_of ["league_games"] (save_league_game now x))
  /\ (forall x, saves_rows_of ["league_schedules"]
                  (save_league_schedule now x))
  /\ (forall x, saves_rows_of ["league_draft_results"]
                  (save_league_draft_results now x))
  /\ (forall x, saves_rows_of ["sport_codes"] (save_sport_code now x))
  /\ (forall x, saves_rows_of ["player_stats"] (save_player_stats now x)).
Proof.
  repeat match goal with |- _ /\ _ => split end; intros x.
  2: { apply saves_rows_of_reraise; [apply try_block_save_team|].
       unfold save_team_try. block_writes. }
  all: apply saves_rows_of_rollback.
  all: first
    [ apply try_block_save_player | apply try_block_save_league
    | apply try_block_save_game | apply try_block_save_league_standings
    | apply try_block_save_league_settings
    | apply try_block_save_league_scoreboard
    | apply try_block_save_league_roster | apply try_block_save_league_points
    | apply try_block_save_league_game | apply try_block_save_league_schedule
    | apply try_block_save_league_draft_results
    | apply try_block_save_sport_code | apply try_block_save_player_stats
    | idtac ].
  - unfold save_player_try. block_writes.
  - unfold save_league_try. block_writes.
  - unfold save_game_try. block_writes.
  - unfold save_league_standings_try. block_writes.
  - unfold save_league_settings_try. block_writes.
  - unfold save_league_scoreboard_try. block_writes.
  - unfold save_league_roster_try. block_writes.
  - unfold save_league_points_try. block_writes.
  - unfold save_league_game_try. block_writes.
  - unfold save_league_schedule_try. block_writes.
  - unfold save_league_draft_results_try. block_writes.
  - unfold save_sport_code_try. block_writes.
  - unfold save_player_stats_try. block_writes.
Qed.
End FrameFacts.

(* ===================================================================== *)
(** * How long [load_players_batch] can sleep                           *)
(* ===================================================================== *)

Module BackoffFacts.
Import Py Api YahooFantasyAPI LoadPlayers.

Definition total_wait (waits : list Q) : Q := fold_right Qplus 0%Q waits.

(** Every draw of [random.uniform(0, 1)] lies between 0 and 1. *)
Definition draws_in_range (E : env) : Prop :=
  forall n, (0 <= on_random E n <= 1)%Q.

Lemma retry_waits_total E r n0 m :
  0 <= r -> draws_in_range E ->
  (total_wait (retry_waits E r n0 m)
   <= inject_Z (2 ^ (r + 2) * (2 ^ Z.of_nat m - 1) + Z.of_nat m))%Q.
Proof.
  intros Hr HE. revert r n0 Hr.
  induction m as [|m IH]; intros r n0 Hr.
  - change (total_wait (retry_waits E r n0 0)) with (inject_Z 0).
    rewrite <- Zle_Qle. cbn [Z.of_nat]. rewrite Z.pow_0_r. lia.
  - rewrite retry_waits_cons. cbn [total_wait fold_right].
    fold (total_wait (retry_waits E (r + 1) (S n0) m)).
    specialize (IH (r + 1) (S n0) ltac:(lia)).
    destruct (HE n0) as [_ Hhi].
    rewrite (backoff_2 (r + 1)) by lia.
    assert (Hsum : (inject_Z (2 * 2 ^ (r + 1)) + on_random E n0
                    + total_wait (retry_waits E (r + 1) (S n0) m)
                    <= inject_Z (2 * 2 ^ (r + 1)) + 1
                       + inject_Z (2 ^ (r + 1 + 2) * (2 ^ Z.of_nat m - 1)
                                   + Z.of_nat m))%Q).
    { apply Qplus_le_compat; [|exact IH].
      apply Qplus_le_compat; [apply Qle_refl|exact Hhi]. }
    eapply Qle_trans; [exact Hsum|].
    change 1%Q with (inject_Z 1). rewrite <- !inject_Z_plus.
    rewrite <- Zle_Qle.
    rewrite Nat2Z.inj_succ, Z.pow_succ_r by lia.
    replace (r + 1 + 2) with (Z.succ (r + 2)) by lia.
    replace (r + 1) with (Z.pred (r + 2)) by lia.
    rewrite Z.pow_succ_r by lia.
    assert (H2 : 2 * 2 ^ Z.pred (r + 2) = 2 ^ (r + 2)).
    { rewrite <- Z.pow_succ_r by lia. f_equal. lia. }
    rewrite H2. nia.
Qed.

(** X15.  With [max_retries >= 0] and every draw of
    [random.uniform(0, 1)] between 0 and 1, one call of
    [load_players_batch] sleeps at most [max_retries] times and at most
    [4 * (2 ^ max_retries - 1) + max_retries] seconds in all: 31 seconds
    for the default of 3 retries. *)
Theorem load_players_batch_total_wait (E : env) (game_key : string)
    (start count max_retries : Z) (c : client) :
  0 <= max_retries -> draws_in_range E ->
  exists waits,
    sleeps_of (trace (load_players_batch E game_key start count max_retries c).2)
    = sleeps_of (trace c) ++ waits
    /\ (length waits <= Z.to_nat max_retries)%nat
    /\ (total_wait waits
        <= inject_Z (4 * (2 ^ max_retries - 1) + max_retries))%Q.
Proof.
  intros Hmax HE. unfold load_players_batch.
  destruct (while_loop_spec E game_key start count max_retries
              (S (Z.to_nat (max_retries + 1))) 0 c Hmax ltac:(lia))
    as (b & c' & m & Hw & _ & _ & Hm & Hs).
  rewrite Hw. cbn [snd].
  exists (retry_waits E 0 (n_random c) m). split; [exact Hs|].
  replace (max_retries - 0) with max_retries in Hm by lia.
  split; [unfold retry_waits; now rewrite length_map, length_seq|].
  eapply Qle_trans; [apply (retry_waits_total E 0 (n_random c) m ltac:(lia) HE)|].
  rewrite <- Zle_Qle. cbn [Z.add].
  assert (Hpow : 2 ^ Z.of_nat m <= 2 ^ max_retries).
  { apply Z.pow_le_mono_r; lia. }
  change (2 ^ (0 + 2)) with 4. lia.
Qed.

Lemma load_players_batch_total_wait_witness :
  (0 <= 3 /\ draws_in_range always_down)
  /\ exists waits,
       sleeps_of (trace (load_players_batch always_down "449" 0 25 3
                           anonymous_client).2)
       = sleeps_of (trace anonymous_client) ++ waits
       /\ (length waits <= Z.to_nat 3)%nat
       /\ (total_wait waits <= inject_Z (4 * (2 ^ 3 - 1) + 3))%Q.
Proof.
  assert (H0 : 0 <= 3) by lia.
  assert (HE : draws_in_range always_down).
  { intros n. cbn. split; discriminate. }
  split; [split; [exact H0|exact HE]|].
  exact (load_players_batch_total_wait always_down "449" 0 25 3
           anonymous_client H0 HE).
Defined.
End BackoffFacts.

(* ===================================================================== *)
(** * What the trend says about the two values                          *)
(* ===================================================================== *)

Module TrendFacts.
Import Py Utils.

End TrendFacts.

(* ===================================================================== *)
(** * [DataManager]: what its save methods hand to the database        *)
(* ===================================================================== *)

Module DataManagerFacts.
Import Py Sql Conn Database DataManager.

Definition is_dict (v : pyval) : bool :=
  match v with PDict _ => true | _ => false end.

(** [save_league] of a record without ['sport_code']. *)
Lemma save_league_without_sport_code now league_data k d :
  conn_open d = true ->
  dict_lookup "league_key" league_data = Some k ->
  dict_lookup "sport_code" league_data = None ->
  save_league now league_data d
  = (Ok tt, Db true (tables d) None,
     [LogError "Error saving league: " (KeyError "sport_code")]).
Proof.
  intros Hopen Hk Hsc. unfold save_league.
  rewrite (try_except_rollback _ _ d (try_block_save_league now league_data) Hopen).
  unfold save_league_try, Conn.bind, Conn.lift, dict_item.
  now rewrite Hk, Hsc.
Qed.

Definition league_line : log_entry :=
  LogError "Error saving league: " (KeyError "sport_code").

Lemma save_leagues_from_dicts now leagues : forall n d,
  conn_open d = true ->
  forallb is_dict leagues = true ->
  save_leagues_from now n leagues d
  = (Ok tt,
     match leagues with [] => d | _ => Db true (tables d) None end,
     map (fun _ => league_line) leagues).
Proof.
  induction leagues as [|league rest IH]; intros n d Hopen Hd; [reflexivity|].
  cbn in Hd. apply andb_prop in Hd as [Hl Hr].
  destruct league as [| | | | |ld]; try discriminate.
  change (save_leagues_from now n (PDict ld :: rest))
    with (league_data <- lift (picked [("league_key", "league_key");
                                    ("name", "name");
                                    ("game_code", "game_code");
                                    ("season", "season");
                                    ("num_teams", "num_teams");
                                    ("league_type", "league_type")] (PDict ld)) ;;
       save_league (now n) league_data ;;;
       save_leagues_from now (S n) rest)%db.
  unfold Conn.bind at 1, Conn.lift. cbn [picked py_get py_get_or Py.bind].
  unfold Conn.bind.
  rewrite (save_league_without_sport_code _ _ (dict_get_or "league_key" PNone ld) d Hopen);
    [|cbn; reflexivity|cbn; reflexivity].
  rewrite (IH (S n) (Db true (tables d) None) eq_refl Hr). cbn [tables].
  destruct rest; reflexivity.
Qed.

Lemma save_leagues_from_tables now leagues : forall n d,
  conn_open d = true ->
  tables (save_leagues_from now n leagues d).1.2 = tables d.
Proof.
  induction leagues as [|league rest IH]; intros n d Hopen; [reflexivity|].
  change (save_leagues_from now n (league :: rest))
    with (league_data <- lift (picked [("league_key", "league_key");
                                    ("name", "name");
                                    ("game_code", "game_code");
                                    ("season", "season");
                                    ("num_teams", "num_teams");
                                    ("league_type", "league_type")] league) ;;
       save_league (now n) league_data ;;;
       save_leagues_from now (S n) rest)%db.
  unfold Conn.bind at 1, Conn.lift.
  destruct league as [| | | | |ld]; try reflexivity.
  cbn [picked py_get py_get_or Py.bind].
  unfold Conn.bind.
  rewrite (save_league_without_sport_code _ _ (dict_get_or "league_key" PNone ld) d Hopen);
    [|cbn; reflexivity|cbn; reflexivity].
  specialize (IH (S n) (Db true (tables d) None) eq_refl).
  destruct (save_leagues_from now (S n) rest (Db true (tables d) None))
    as [[r d'] l]. exact IH.
Qed.

(** X17.  [DataManager.save_leagues] never stores a league.  The record it
    builds for [Database.save_league] has no ['sport_code'], so every call
    ends in that method's handler.  On an open connection, a list of
    dictionaries makes the call return normally with one line
    [Error saving league: 'sport_code'] per league and any open transaction
    rolled back; and whatever the argument and whether or not the database
    is in use, the committed tables are as before. *)
Theorem save_leagues_stores_nothing (now : nat -> string)
    (leagues_data : list pyval) (d : db) :
  conn_open d = true ->
  forallb is_dict leagues_data = true ->
  save_leagues true now leagues_data d
  = (Ok tt,
     match leagues_data with [] => d | _ => Db true (tables d) None end,
     map (fun _ => LogError "Error saving league: " (KeyError "sport_code"))
         leagues_data)
  /\ (forall use_db any,
        tables (save_leagues use_db now any d).1.2 = tables d).
Proof.
  intros Hopen Hd. split.
  - unfold save_leagues. cbn [negb].
    now apply save_leagues_from_dicts.
  - intros use_db any. unfold save_leagues. destruct use_db; [|reflexivity].
    now apply save_leagues_from_tables.
Qed.

Definition two_leagues : list pyval :=
  [PDict [("league_key", PStr "449.l.1"); ("name", PStr "Sunday League");
          ("sport_code", PStr "nfl"); ("season", PStr "2023")];
   PDict [("league_key", PStr "449.l.2")]].

Lemma save_leagues_stores_nothing_witness :
  let now := fun _ : nat => "2024-09-08 18:00:00" in
  (conn_open fresh_db = true /\ forallb is_dict two_leagues = true)
  /\ save_leagues true now two_leagues fresh_db
     = (Ok tt, Db true (tables fresh_db) None,
        [LogError "Error saving league: " (KeyError "sport_code");
         LogError "Error saving league: " (KeyError "sport_code")])
  /\ (forall use_db any,
        tables (save_leagues use_db now any fresh_db).1.2 = tables fresh_db).
Proof.
  cbv zeta. split; [split; reflexivity|].
  exact (save_leagues_stores_nothing (fun _ => "2024-09-08 18:00:00")
           two_leagues fresh_db eq_refl eq_refl).
Defined.

(** [save_league_standings] of a record without ['team_key']. *)
Lemma save_standings_without_team_key now standings_data k d :
  conn_open d = true ->
  dict_lookup "league_key" standings_data = Some k ->
  dict_lookup "team_key" standings_data = None ->
  Database.save_league_standings now standings_data d
  = (Ok tt, Db true (tables d) None,
     [LogError "Error saving league standings: " (KeyError "team_key")]).
Proof.
  intros Hopen Hk Hsc. unfold Database.save_league_standings.
  rewrite (try_except_rollback _ _ d
             (try_block_save_league_standings now standings_data) Hopen).
  unfold save_league_standings_try, Conn.bind, Conn.lift, dict_item.
  now rewrite Hk, Hsc.
Qed.

(** X18.  [DataManager.save_league_standings] never stores standings.  It
    hands [Database.save_league_standings] a record with the two keys
    ['league_key'] and ['standings'], and that method needs ['team_key'].
    On an open connection, a dictionary with a ['league_key'] makes the
    call return normally with the one line
    [Error saving league standings: 'team_key'] and any open transaction
    rolled back; and whatever the argument and whether or not the database
    is in use, the committed tables are as before. *)
Theorem save_league_standings_stores_nothing (now : nat -> string)
    (sd : pydict) (k : pyval) (d : db) :
  conn_open d = true ->
  dict_lookup "league_key" sd = Some k ->
  save_league_standings true now (PDict sd) d
  = (Ok tt, Db true (tables d) None,
     [LogError "Error saving league standings: " (KeyError "team_key")])
  /\ (forall use_db any,
        tables (save_league_standings use_db now any d).1.2 = tables d).
Proof.
  intros Hopen Hk.
  assert (Hcall : forall k any,
            Database.save_league_standings (now 0%nat)
              [("league_key", k); ("standings", any)] d
            = (Ok tt, Db true (tables d) None,
               [LogError "Error saving league standings: "
                         (KeyError "team_key")])).
  { intros k' any.
    now apply (save_standings_without_team_key _ _ k' d Hopen). }
  split.
  - unfold save_league_standings. cbn [negb].
    unfold Conn.bind, Conn.lift, has_key, py_contains, dict_has, py_item,
      dict_item.
    rewrite Hk.
    assert (Ht : truthy (PDict sd) = true)
      by (destruct sd; [discriminate|reflexivity]).
    rewrite Ht. now rewrite Hcall.
  - intros use_db any. unfold save_league_standings.
    destruct use_db; [|reflexivity].
    cbn [negb]. unfold Conn.bind at 1, Conn.lift.
    destruct (has_key "league_key" any) as [[|]|e]; try reflexivity.
    unfold Conn.bind.
    destruct (py_item "league_key" any) as [k'|e]; [|reflexivity].
    now rewrite Hcall.
Qed.

Definition standings_answer : pydict :=
  [("league_key", PStr "449.l.1");
   ("standings", PList [PDict [("team_key", PStr "449.l.1.t.1");
                               ("team_name", PStr "First");
                               ("rank", PInt 1)]])].

Lemma save_league_standings_stores_nothing_witness :
  let now := fun _ : nat => "2024-09-08 18:00:00" in
  (conn_open fresh_db = true
   /\ dict_lookup "league_key" standings_answer = Some (PStr "449.l.1"))
  /\ save_league_standings true now (PDict standings_answer) fresh_db
     = (Ok tt, Db true (tables fresh_db) None,
        [LogError "Error saving league standings: " (KeyError "team_key")])
  /\ (forall use_db any,
        tables (save_league_standings use_db now any fresh_db).1.2
        = tables fresh_db).
Proof.
  cbv zeta. split; [split; reflexivity|].
  exact (save_league_standings_stores_nothing (fun _ => "2024-09-08 18:00:00")
           standings_answer (PStr "449.l.1") fresh_db eq_refl eq_refl).
Defined.


(** What [save_team] raises for a record without ['sport_code']: its
    [BEGIN TRANSACTION] fails inside an open transaction, and otherwise the
    missing key does. *)
Definition save_team_error (d : db) : exn :=
  match txn d with
  | Some _ => OperationalError
  | None => KeyError "sport_code"
  end.

Lemma save_team_without_sport_code now team_data k d :
  conn_open d = true ->
  dict_lookup "team_key" team_data = Some k ->
  dict_lookup "sport_code" team_data = None ->
  save_team now team_data d
  = (Raise (save_team_error d), Db true (tables d) None,
     [LogError "Error saving team: " (save_team_error d)]).
Proof.
  intros Hopen Hk Hsc. unfold save_team.
  rewrite (try_except_reraise _ _ d (try_block_save_team now team_data) Hopen).
  unfold save_team_try, Conn.bind, Conn.lift, dict_item, conn_begin,
    save_team_error.
  rewrite Hopen. destruct (txn d); [reflexivity|].
  now rewrite Hk, Hsc.
Qed.

Lemma save_teams_from_tables now teams n d :
  conn_open d = true ->
  tables (save_teams_from now n teams d).1.2 = tables d.
Proof.
  intros Hopen. destruct teams as [|team rest]; [reflexivity|].
  change (save_teams_from now n (team :: rest))
    with (team_key <- lift (py_get "team_key" team) ;;
          name <- lift (py_get "name" team) ;;
          logo_url <- lift (first_of "team_logos" "url" team) ;;
          manager_name <- lift (first_of "managers" "nickname" team) ;;
          save_team (now n)
            [("team_key", team_key); ("name", name); ("logo_url", logo_url);
             ("manager_name", manager_name)] ;;;
          save_teams_from now (S n) rest)%db.
  unfold Conn.bind, Conn.lift.
  destruct (py_get "team_key" team) as [tk|]; [|reflexivity].
  destruct (py_get "name" team) as [nm|]; [|reflexivity].
  destruct (first_of "team_logos" "url" team) as [lg|]; [|reflexivity].
  destruct (first_of "managers" "nickname" team) as [mg|]; [|reflexivity].
  now rewrite (save_team_without_sport_code _ _ tk d Hopen).
Qed.

(** X19.  [DataManager.save_teams] cannot store a team.  The record it
    builds for [Database.save_team] has no ['sport_code'], and that method
    re-raises what it logs.  On an open connection, an answer whose first
    team is a dictionary with readable logo and manager entries makes the
    call raise at that team ([KeyError] for ['sport_code'], or the
    [OperationalError] of a [BEGIN] inside an open transaction) after the
    one line [Error saving team: ...] and a rollback, the other teams not
    looked at; and whatever the argument and whether or not the database is
    in use, the committed tables are as before. *)
Theorem save_teams_raises_at_first_team (now : nat -> string)
    (teams_data : pyval) (team : pydict) (rest : list pyval)
    (logo_url manager_name : pyval) (d : db) :
  conn_open d = true ->
  has_key "teams" teams_data = Ok true ->
  teams_of teams_data = Ok (PList (PDict team :: rest)) ->
  first_of "team_logos" "url" (PDict team) = Ok logo_url ->
  first_of "managers" "nickname" (PDict team) = Ok manager_name ->
  save_teams true now teams_data d
  = (Raise (save_team_error d), Db true (tables d) None,
     [LogError "Error saving team: " (save_team_error d)])
  /\ (forall use_db any,
        tables (save_teams use_db now any d).1.2 = tables d).
Proof.
  intros Hopen Hhas Hteams Hlogo Hmgr. split.
  - unfold save_teams. cbn [negb].
    unfold Conn.bind at 1, Conn.lift. rewrite Hhas.
    unfold Conn.bind at 1. rewrite Hteams.
    change (save_teams_from now 0 (PDict team :: rest))
      with (team_key <- lift (py_get "team_key" (PDict team)) ;;
            name <- lift (py_get "name" (PDict team)) ;;
            logo_url <- lift (first_of "team_logos" "url" (PDict team)) ;;
            manager_name <- lift (first_of "managers" "nickname" (PDict team)) ;;
            save_team (now 0%nat)
              [("team_key", team_key); ("name", name); ("logo_url", logo_url);
               ("manager_name", manager_name)] ;;;
            save_teams_from now 1 rest)%db.
    unfold Conn.bind, Conn.lift. rewrite Hlogo, Hmgr.
    cbn [py_get py_get_or].
    now rewrite (save_team_without_sport_code _ _
                   (dict_get_or "team_key" PNone team) d Hopen).
  - intros use_db any. unfold save_teams. destruct use_db; [|reflexivity].
    cbn [negb]. unfold Conn.bind at 1, Conn.lift.
    destruct (has_key "teams" any) as [[|]|e]; try reflexivity.
    unfold Conn.bind at 1.
    destruct (teams_of any) as [[| | |s|l|td]|e]; try reflexivity.
    + destruct (String.eqb s ""); reflexivity.
    + pose proof (save_teams_from_tables now l 0%nat d Hopen) as H.
      destruct (save_teams_from now 0 l d) as [[r d'] lg]. exact H.
    + pose proof (save_teams_from_tables now
                    (map (fun kv => PStr kv.1) td) 0%nat d Hopen) as H.
      destruct (save_teams_from now 0 (map (fun kv => PStr kv.1) td) d)
        as [[r d'] lg]. exact H.
Qed.

Definition teams_answer : pyval :=
  PDict [("teams",
          PDict [("0",
                  PDict [("team",
                          PList [PDict [("team_key", PStr "449.l.1.t.1");
                                        ("name", PStr "First");
                                        ("team_logos",
                                         PList [PDict [("url", PStr "https://example.org/1.png")]]);
                                        ("managers",
                                         PList [PDict [("nickname", PStr "Pat")]])];
                                 PDict [("team_key", PStr "449.l.1.t.2")]])])])].

Lemma save_teams_raises_at_first_team_witness :
  let now := fun _ : nat => "2024-09-08 18:00:00" in
  conn_open fresh_db = true
  /\ has_key "teams" teams_answer = Ok true
  /\ save_teams true now teams_answer fresh_db
     = (Raise (KeyError "sport_code"), Db true (tables fresh_db) None,
        [LogError "Error saving team: " (KeyError "sport_code")])
  /\ (forall use_db any,
        tables (save_teams use_db now any fresh_db).1.2 = tables fresh_db).
Proof.
  cbv zeta. split; [reflexivity|]. split; [reflexivity|].
  exact (save_teams_raises_at_first_team (fun _ => "2024-09-08 18:00:00")
           teams_answer
           [("team_key", PStr "449.l.1.t.1"); ("name", PStr "First");
            ("team_logos", PList [PDict [("url", PStr "https://example.org/1.png")]]);
            ("managers", PList [PDict [("nickname", PStr "Pat")]])]
           [PDict [("team_key", PStr "449.l.1.t.2")]]
           (PStr "https://example.org/1.png") (PStr "Pat") fresh_db
           eq_refl eq_refl eq_refl eq_refl eq_refl).
Defined.


(** The declaration [_create_tables] gives [league_settings]. *)
Definition league_settings_table (rows : list row) (seq : Z) : table :=
  Table [col "league_key"; col "settings_json"; col_ts "updated_at"]
        "league_key" false rows seq.

(** The settings of the other leagues. *)
Definition other_leagues (k : string) (rows : list row) : list row :=
  List.filter (fun r => negb (sql_eqb (row_get "league_key" r) (SText k))) rows.

Lemma filter_keeps_all {A} (p : A -> bool) (l : list A) :
  existsb p l = false -> List.filter (fun a => negb (p a)) l = l.
Proof.
  induction l as [|a l IH]; cbn; [reflexivity|].
  destruct (p a); cbn; [discriminate|]. intros H. now rewrite IH.
Qed.

Lemma no_other_league_matches k rows :
  List.filter (row_matches [("league_key", SText k)]) (other_leagues k rows)
  = [].
Proof.
  unfold other_leagues.
  induction rows as [|r rows IH]; cbn; [reflexivity|].
  destruct (sql_eqb (row_get "league_key" r) (SText k)) eqn:E; cbn; [exact IH|].
  now rewrite E.
Qed.

(** The row written for the answer [sd] of the league [k] at time [t]. *)
Definition settings_row (t k : string) (sd : pydict) : row :=
  [("league_key", SText k); ("settings_json", SJson (PDict sd));
   ("updated_at", SText t)].

(** X20.  [DataManager.save_league_settings] keeps the whole answer.  For a
    dictionary with a string ['league_key'], on an open connection and a
    [league_settings] table as [_create_tables] declares it, the call logs
    nothing and commits; the table then holds the rows of the other leagues
    in their order followed by one row for this league, and that row's
    [settings_json] is the JSON text of the complete dictionary that was
    passed in (its ['league_key'] included), with the time of the call. *)
Theorem save_league_settings_stores_answer (now : nat -> string)
    (sd : pydict) (k : string) (d : db) (rows : list row) (seq : Z) :
  conn_open d = true ->
  visible d !! "league_settings" = Some (league_settings_table rows seq) ->
  dict_lookup "league_key" sd = Some (PStr k) ->
  save_league_settings true now (PDict sd) d
  = (Ok tt,
     Db true
        (<["league_settings" :=
             league_settings_table
               (other_leagues k rows ++ [settings_row (now 0%nat) k sd]) seq]>
           (visible d))
        None,
     [])
  /\ rows_with "league_settings" [("league_key", SText k)]
       (save_league_settings true now (PDict sd) d).1.2
     = [settings_row (now 0%nat) k sd].
Proof.
  intros Hopen Ht Hk. set (saved := settings_row (now 0%nat) k sd).
  assert (Hsave : save_league_settings true now (PDict sd) d
                  = (Ok tt,
                     Db true
                        (<["league_settings" :=
                             league_settings_table
                               (other_leagues k rows ++ [saved]) seq]>
                           (visible d))
                        None,
                     [])); [|split; [exact Hsave|]].
  2:{ rewrite Hsave. unfold rows_with, rows_of. cbn [fst snd].
      unfold visible at 1. cbn [txn tables].
      rewrite lookup_insert_eq. cbn [trows league_settings_table].
      rewrite List.filter_app, no_other_league_matches. cbn.
      unfold saved, settings_row, row_get. cbn. now rewrite String.eqb_refl. }
  unfold save_league_settings. cbn [negb].
  unfold Conn.bind at 1, Conn.lift, has_key, py_contains, dict_has.
  rewrite Hk.
  assert (Htr : truthy (PDict sd) = true)
    by (destruct sd; [discriminate|reflexivity]).
  rewrite Htr. unfold Conn.bind at 1, py_item, dict_item. rewrite Hk.
  unfold Database.save_league_settings.
  rewrite (try_except_rollback _ _ d
             (try_block_save_league_settings (now 0%nat)
                [("league_key", PStr k); ("settings", PDict sd)]) Hopen).
  unfold save_league_settings_try, Conn.bind, Conn.lift, dict_item.
  cbn [dict_lookup String.eqb Ascii.eqb Bool.eqb].
  unfold cursor_execute. rewrite Hopen.
  unfold insert_stmt, on_table. rewrite Ht.
  cbn. unfold insert_into. cbn.
  unfold other_leagues, league_settings_table, saved, settings_row. cbn.
  destruct (existsb _ rows) eqn:Ex; cbn; [reflexivity|].
  now rewrite (filter_keeps_all _ rows Ex).
Qed.

Definition settings_answer : pydict :=
  [("league_key", PStr "449.l.1"); ("name", PStr "Sunday League");
   ("settings", PList [PDict [("draft_type", PStr "live");
                              ("num_playoff_teams", PInt 6)]])].

Lemma save_league_settings_stores_answer_witness :
  let now := fun _ : nat => "2024-09-08 18:00:00" in
  let saved := settings_row "2024-09-08 18:00:00" "449.l.1" settings_answer in
  (conn_open fresh_db = true
   /\ visible fresh_db !! "league_settings"
      = Some (league_settings_table [] 0))
  /\ save_league_settings true now (PDict settings_answer) fresh_db
     = (Ok tt,
        Db true
           (<["league_settings" := league_settings_table [saved] 0]>
              (visible fresh_db))
           None,
        [])
  /\ rows_with "league_settings" [("league_key", SText "449.l.1")]
       (save_league_settings true now (PDict settings_answer) fresh_db).1.2
     = [saved].
Proof.
  cbv zeta.
  assert (H : visible fresh_db !! "league_settings"
              = Some (league_settings_table [] 0))
    by (vm_compute; reflexivity).
  split; [split; [reflexivity|exact H]|].
  exact (save_league_settings_stores_answer (fun _ => "2024-09-08 18:00:00")
           settings_answer "449.l.1" fresh_db [] 0 eq_refl H eq_refl).
Defined.

End DataManagerFacts.
